(** * PrintToBTLabel: the Bluetooth label-printer bridge ([bt_printer.py])

    A shallow embedding of the class [BluetoothPrinter] and of the two drivers
    that own a printer object (the command-line entry point of
    [bt_printer.py] and [_do_print] of [label_printer_app.py]), followed by
    the properties of the connection life cycle, of the TSPL command builder,
    of the bitmap encoder and of the PDF image pipeline; then the crop
    heuristics of [bt_printer.py] and the preview, the manual selection and
    the print job of [label_printer_app.py], with their properties.

    Conventions.
    - Python [int] is [Z]; Python [float] is the kernel's binary64 [float],
      so every [int(...)], [/] and [*] below rounds exactly as CPython does.
    - Python [str] is [string], one character per code point below 256;
      [bytes] and [bytearray] are [list Z] with entries in [0, 256).
    - A method of [BluetoothPrinter] is a state transformer over [Printer]:
      the field [self.connection] together with the trace of the calls made
      on the serial transport.
    - A PIL image is the term of the PIL calls that built it; [size] and
      [mode] are computed from that term. *)

From Stdlib Require Import ZArith List String Ascii Bool Lia.
From Stdlib Require Import Floats DecimalString.
From Stdlib Require Import Sorted.
Import ListNotations.

Local Open Scope Z_scope.

(* ================================================================== *)
(** * Part I: the program *)
(* ================================================================== *)

(** ** Exceptions as [option] *)

Declare Scope pyexc_scope.
Delimit Scope pyexc_scope with pyexc.

Definition raise {A : Type} : option A := None.

Definition try_bind {A B : Type} (c : option A) (k : A -> option B) : option B :=
  match c with
  | Some a => k a
  | None => None
  end.

Notation "x <- c ;; k" := (try_bind c (fun x => k))
  (at level 100, c at next level, right associativity) : pyexc_scope.

(** ** Python numbers *)

Module Py.

(** [float(z)]: the nearest binary64 value, ties to even; [OverflowError]
    when that value is not finite. *)
Definition float_of_int (z : Z) : option float :=
  let f := SF2Prim (binary_normalize prec emax z 0 false) in
  if is_infinity f then raise else Some f.

(** [int(f)]: truncation towards zero; [ValueError] on a NaN and
    [OverflowError] on an infinity. *)
Definition int_of_float (f : float) : option Z :=
  match Prim2SF f with
  | S754_zero _ => Some 0
  | S754_finite s m e =>
      let a := Z.shiftl (Zpos m) e in
      Some (if s then - a else a)
  | S754_infinity _ | S754_nan => raise
  end.

Definition spec_of_int (z : Z) : spec_float :=
  match z with
  | Z0 => S754_zero false
  | Zpos p => S754_finite false p 0
  | Zneg p => S754_finite true p 0
  end.

(** [a / b] on two ints: the correctly rounded quotient;
    [ZeroDivisionError] when [b] is 0, [OverflowError] when the quotient is
    too large for a float. *)
Definition truediv (a b : Z) : option float :=
  if b =? 0 then raise
  else
    let q := SF2Prim (SFdiv prec emax (spec_of_int a) (spec_of_int b)) in
    if is_infinity q then raise else Some q.

(** [n / d] with an int on the left and a non-zero float on the right. *)
Definition int_div_float (n : Z) (d : float) : option float :=
  (x <- float_of_int n ;; Some (x / d)%float)%pyexc.

(** [n * f] with an int on the left and a float on the right. *)
Definition int_mul_float (n : Z) (f : float) : option float :=
  (x <- float_of_int n ;; Some (x * f)%float)%pyexc.

(** [min(a, b)] on floats: the first argument unless the second is smaller. *)
Definition min (a b : float) : float :=
  if (b <? a)%float then b else a.

(** [range(n)]. *)
Definition range (n : Z) : list Z :=
  map Z.of_nat (seq 0 (Z.to_nat n)).

(** [str(z)], as an f-string renders an int. *)
Definition str (z : Z) : string :=
  NilZero.string_of_int (Z.to_int z).

End Py.

(** ** Python strings *)

Module PyStr.

Definition LF : string := String "010" EmptyString.
Definition dquote : ascii := "034"%char.
Definition backslash : ascii := "092"%char.

(** [str.isspace] on one code point below 256. *)
Definition isspace (c : ascii) : bool :=
  let n := Z.of_nat (nat_of_ascii c) in
  ((9 <=? n) && (n <=? 13)) || ((28 <=? n) && (n <=? 32))
  || (n =? 133) || (n =? 160).

Fixpoint all_space (s : string) : bool :=
  match s with
  | EmptyString => true
  | String c s' => isspace c && all_space s'
  end.

(** The truth value of [line.strip()]: some character is not white space. *)
Definition strip_truthy (line : string) : bool := negb (all_space line).

(** [text.split('\n')]: never empty; [acc] is the line being read. *)
Fixpoint split_from (acc : string) (text : string) : list string :=
  match text with
  | EmptyString => [acc]
  | String c rest =>
      if Ascii.eqb c "010"%char
      then acc :: split_from EmptyString rest
      else split_from (acc ++ String c EmptyString) rest
  end.

Definition split_lines (text : string) : list string :=
  split_from EmptyString text.

(** [line.replace('"', '\\"')]. *)
Fixpoint escape_quotes (line : string) : string :=
  match line with
  | EmptyString => EmptyString
  | String c rest =>
      if Ascii.eqb c dquote
      then String backslash (String dquote (escape_quotes rest))
      else String c (escape_quotes rest)
  end.

(** [text.encode("utf-8")] on code points below 256. *)
Definition utf8_char (c : ascii) : list Z :=
  let n := Z.of_nat (nat_of_ascii c) in
  if n <? 128 then [n]
  else [Z.lor 192 (Z.shiftr n 6); Z.lor 128 (Z.land n 63)].

Fixpoint encode_utf8 (text : string) : list Z :=
  match text with
  | EmptyString => []
  | String c rest => utf8_char c ++ encode_utf8 rest
  end.

(** The inverse of [split_lines]: ['\n'.join(lines)]. *)
Fixpoint join_lines (lines : list string) : string :=
  match lines with
  | [] => EmptyString
  | [line] => line
  | line :: rest => (line ++ LF ++ join_lines rest)%string
  end.

(** The inverse of [escape_quotes]: a backslash is dropped when a quote
    follows it. *)
Fixpoint unescape_quotes (s : string) : string :=
  match s with
  | EmptyString => EmptyString
  | String c rest =>
      match rest with
      | String d rest' =>
          if Ascii.eqb c backslash && Ascii.eqb d dquote
          then String dquote (unescape_quotes rest')
          else String c (unescape_quotes rest)
      | EmptyString => String c EmptyString
      end
  end.

(** The [encoding] argument of [send_text] and [print_simple], by what
    [text.encode(encoding)] does: [utf-8], the default, under which no
    [str] of this file fails to encode; another codec Python knows, which
    gives bytes or raises [UnicodeEncodeError] ([None]); or a name Python
    does not know, for which [encode] raises [LookupError]. *)
Inductive Encoding : Type :=
| Utf8
| Codec (codec_encode : string -> option (list Z))
| UnknownCodec.

Inductive Encoded : Type :=
| Bytes (data : list Z)
| UnicodeEncodeError
| LookupError.

(** [text.encode(encoding)]. *)
Definition encode (text : string) (encoding : Encoding) : Encoded :=
  match encoding with
  | Utf8 => Bytes (encode_utf8 text)
  | Codec codec_encode =>
      match codec_encode text with
      | Some data => Bytes data
      | None => UnicodeEncodeError
      end
  | UnknownCodec => LookupError
  end.

End PyStr.

(** ** The TSPL command text *)

Module Tspl.
Import PyStr.

(** The four header lines shared by [print_label_tspl] and
    [print_image_tspl]. *)
Definition header (label_width_mm label_height_mm gap_mm : Z) : string :=
  let tspl_cmd :=
    ("SIZE " ++ Py.str label_width_mm ++ " mm, "
             ++ Py.str label_height_mm ++ " mm" ++ LF)%string in
  let tspl_cmd := (tspl_cmd ++ "GAP " ++ Py.str gap_mm ++ " mm, 0 mm" ++ LF)%string in
  let tspl_cmd := (tspl_cmd ++ "DIRECTION 1" ++ LF)%string in
  (tspl_cmd ++ "CLS" ++ LF)%string.

(** [f'TEXT {x},{current_y},"{font}",0,1,1,"{escaped_text}"\n']. *)
Definition text_line (x current_y : Z) (font escaped_text : string) : string :=
  ("TEXT " ++ Py.str x ++ "," ++ Py.str current_y ++ ","
     ++ String dquote font ++ String dquote ",0,1,1,"
     ++ String dquote escaped_text ++ String dquote LF)%string.

(** One turn of the loop over [lines]; the loop state is
    [(tspl_cmd, current_y)]. *)
Definition text_step (x : Z) (font : string)
    (acc : string * Z) (line : string) : string * Z :=
  let '(tspl_cmd, current_y) := acc in
  if strip_truthy line then
    let escaped_text := escape_quotes line in
    ((tspl_cmd ++ text_line x current_y font escaped_text)%string,
     current_y + 40)
  else (tspl_cmd, current_y).

(** The command string [print_label_tspl] sends. *)
Definition label_cmd (text : string)
    (label_width_mm label_height_mm gap_mm : Z)
    (font : string) (x y : Z) : string :=
  let lines := split_lines text in
  let tspl_cmd := header label_width_mm label_height_mm gap_mm in
  let current_y := y in
  let '(tspl_cmd, _) := fold_left (text_step x font) lines (tspl_cmd, current_y) in
  let tspl_cmd := (tspl_cmd ++ "PRINT 1" ++ LF)%string in
  (tspl_cmd ++ LF)%string.

(** The same command with the wording of the specification taken literally:
    one TEXT line for every line that is not the empty string. *)
Definition text_step_nonempty (x : Z) (font : string)
    (acc : string * Z) (line : string) : string * Z :=
  let '(tspl_cmd, current_y) := acc in
  match line with
  | EmptyString => (tspl_cmd, current_y)
  | _ => ((tspl_cmd ++ text_line x current_y font (escape_quotes line))%string,
          current_y + 40)
  end.

Definition label_cmd_nonempty (text : string)
    (label_width_mm label_height_mm gap_mm : Z)
    (font : string) (x y : Z) : string :=
  let '(tspl_cmd, _) :=
    fold_left (text_step_nonempty x font) (split_lines text)
              (header label_width_mm label_height_mm gap_mm, y) in
  (tspl_cmd ++ "PRINT 1" ++ LF ++ LF)%string.

(** The TEXT lines of the lines kept, the first at [y], each next one 40
    dots further down. *)
Fixpoint text_lines (x y : Z) (font : string) (kept : list string) : string :=
  match kept with
  | [] => EmptyString
  | line :: rest =>
      (text_line x y font (escape_quotes line)
       ++ text_lines x (y + 40) font rest)%string
  end.

(** [f"BITMAP {x},{y},{width_bytes},{height},0,"]: no line terminator. *)
Definition bitmap_line (x y width_bytes height : Z) : string :=
  ("BITMAP " ++ Py.str x ++ "," ++ Py.str y ++ "," ++ Py.str width_bytes
     ++ "," ++ Py.str height ++ ",0,")%string.

Definition print_cmd : string := ("PRINT 1" ++ LF ++ LF)%string.

End Tspl.

(** ** The bitmap encoder (the pixel loop of [print_image_tspl]) *)

Module Bitmap.

(** [pixels] is the access object returned by [image.load()]:
    [pixels x y] is the value of the pixel in column [x] of row [y]. *)
Definition PixelAccess : Type := Z -> Z -> Z.

(** [(width + 7) // 8]. *)
Definition width_bytes (width : Z) : Z := (width + 7) / 8.

(** One turn of the loop over [bit]; the loop state is [byte_val]. *)
Definition set_bit (pixels : PixelAccess) (width row byte_col : Z)
    (byte_val bit : Z) : Z :=
  let pixel_x := byte_col * 8 + bit in
  if pixel_x <? width then
    let pixel_val := pixels pixel_x row in
    if pixel_val =? 0 then Z.lor byte_val (Z.shiftl 1 (7 - bit)) else byte_val
  else byte_val.

Definition pack_byte (pixels : PixelAccess) (width row byte_col : Z) : Z :=
  fold_left (set_bit pixels width row byte_col) (Py.range 8) 0.

(** One turn of the loop over [byte_col], then over [row]; the loop state is
    the bytearray [bitmap_data]. *)
Definition append_byte (pixels : PixelAccess) (width row : Z)
    (bitmap_data : list Z) (byte_col : Z) : list Z :=
  bitmap_data ++ [pack_byte pixels width row byte_col].

Definition append_row (pixels : PixelAccess) (width : Z)
    (bitmap_data : list Z) (row : Z) : list Z :=
  fold_left (append_byte pixels width row) (Py.range (width_bytes width)) bitmap_data.

Definition encode (width height : Z) (pixels : PixelAccess) : list Z :=
  fold_left (append_row pixels width) (Py.range height) [].

(** The test the loop makes for one bit: the pixel exists and is black. *)
Definition is_ink (pixels : PixelAccess) (width row byte_col bit : Z) : bool :=
  (byte_col * 8 + bit <? width) && (pixels (byte_col * 8 + bit) row =? 0).

(** The value the specification gives to a byte of an all-ink row: eight
    ones, the bits past the last column cleared. *)
Definition ink_byte (width byte_col : Z) : Z :=
  if (byte_col + 1) * 8 <=? width then 255
  else 256 - 2 ^ ((byte_col + 1) * 8 - width).

End Bitmap.

(** ** PIL images *)

Module PIL.

Inductive Mode : Type := ModeL | Mode1 | ModeRGB.

Definition Box : Type := (Z * Z * Z * Z)%type.

(** An image is the PIL call that returned it. *)
Inductive Image : Type :=
| Pixmap (m : Mode) (w h : Z) (page : nat)  (* Image.open(BytesIO(img_data)) *)
| Convert (m : Mode) (im : Image)            (* im.convert(m) *)
| Crop (im : Image) (box : Box)              (* im.crop(box) *)
| Rotate (im : Image) (angle : Z) (expand : bool)
    (* im.rotate(90, expand=True) or im.rotate(180, expand=False) *)
| Resize (im : Image) (sz : Z * Z)           (* im.resize(sz, LANCZOS) *)
| New (m : Mode) (sz : Z * Z) (color : Z)    (* Image.new(m, sz, color) *)
| Paste (base im : Image) (pos : Z * Z)      (* base.paste(im, pos); base *)
| Threshold (im : Image)   (* im.point(lambda x: 0 if x < 128 else 255, '1') *)
| Invert (im : Image).     (* ImageOps.invert(im) *)

Fixpoint size (im : Image) : Z * Z :=
  match im with
  | Pixmap _ w h _ => (w, h)
  | Convert _ im => size im
  | Crop _ (left_, top, right_, bottom) => (right_ - left_, bottom - top)
  | Rotate im angle expand =>
      let '(w, h) := size im in
      if expand && ((angle =? 90) || (angle =? 270)) then (h, w) else (w, h)
  | Resize _ sz => sz
  | New _ sz _ => sz
  | Paste base _ _ => size base
  | Threshold im => size im
  | Invert im => size im
  end.

Fixpoint mode (im : Image) : Mode :=
  match im with
  | Pixmap m _ _ _ => m
  | Convert m _ => m
  | Crop im _ => mode im
  | Rotate im _ _ => mode im
  | Resize im _ => mode im
  | New m _ _ => m
  | Paste base _ _ => mode base
  | Threshold _ => Mode1
  | Invert im => mode im
  end.

Definition width (im : Image) : Z := fst (size im).
Definition height (im : Image) : Z := snd (size im).

Definition mode_eqb (a b : Mode) : bool :=
  match a, b with
  | ModeL, ModeL | Mode1, Mode1 | ModeRGB, ModeRGB => true
  | _, _ => false
  end.

(** [im.resize(sz, ...)]: an image that already has the size is copied;
    otherwise [ValueError] unless both dimensions are at least 1. *)
Definition resize (im : Image) (sz : Z * Z) : option Image :=
  let '(w, h) := sz in
  let '(w0, h0) := size im in
  if (w0 =? w) && (h0 =? h) then Some (Resize im sz)
  else if (w <? 1) || (h <? 1) then raise
  else Some (Resize im sz).

(** [Image.new(m, sz, color)]: [ValueError] on a negative dimension. *)
Definition new (m : Mode) (sz : Z * Z) (color : Z) : option Image :=
  let '(w, h) := sz in
  if (w <? 0) || (h <? 0) then raise else Some (New m sz color).

(** [if image.mode != '1': image = image.convert('L').convert('1')]. *)
Definition as_1bit (image : Image) : Image :=
  if negb (mode_eqb (mode image) Mode1)
  then Convert Mode1 (Convert ModeL image) else image.

End PIL.

(** ** The image pipeline of [print_pdf] *)

Module Pipeline.
Import PIL.
Local Open Scope pyexc_scope.
Local Set Warnings "-inexact-float".

Notation "' pat <- c ;; k" :=
  (try_bind c (fun x => match x with pat => k end))
  (at level 100, pat pattern, c at next level, right associativity) : pyexc_scope.

Definition render_dpi : Z := 300.

(** [max(0, min(v, bound))]. *)
Definition clamp (v bound : Z) : Z := Z.max 0 (Z.min v bound).

(** [int(v * factor)]. *)
Definition rescale (v : Z) (factor : float) : option Z :=
  f <- Py.int_mul_float v factor ;; Py.int_of_float f.

(** [int(mm * dpi / 25.4)]. *)
Definition target_dots (mm dpi : Z) : option Z :=
  f <- Py.int_div_float (mm * dpi) 25.4 ;; Py.int_of_float f.

(** [render_dpi / 150.0]. *)
Definition scale_factor : option float := Py.int_div_float render_dpi 150.

Definition box_valid (box : Box) : bool :=
  let '(left_, top, right_, bottom) := box in
  (right_ >? left_) && (bottom >? top).

(** The box of the first manual crop: the coordinates scaled to the render
    resolution, then clamped to the page image. *)
Definition manual_box (image : Image) (manual_crop_coords : Box) : option Box :=
  let '(left_, top, right_, bottom) := manual_crop_coords in
  scale_factor <- scale_factor ;;
  left_ <- rescale left_ scale_factor ;;
  top <- rescale top scale_factor ;;
  right_ <- rescale right_ scale_factor ;;
  bottom <- rescale bottom scale_factor ;;
  let left_ := clamp left_ (width image) in
  let right_ := clamp right_ (width image) in
  let top := clamp top (height image) in
  let bottom := clamp bottom (height image) in
  Some (left_, top, right_, bottom).

(** The box of the second manual crop: the coordinates as given, clamped to
    the label canvas. *)
Definition final_box (manual_crop_coords : Box)
    (target_width_dots target_height_dots : Z) : Box :=
  let '(left_, top, right_, bottom) := manual_crop_coords in
  let left_ := clamp left_ target_width_dots in
  let right_ := clamp right_ target_width_dots in
  let top := clamp top target_height_dots in
  let bottom := clamp bottom target_height_dots in
  (left_, top, right_, bottom).

Section WithCropToLabel.

(** [_crop_to_label], the border heuristic, is a parameter here. *)
Variable _crop_to_label : Image -> Image.

Definition crop_stage (image : Image) (manual_crop_coords : option Box)
    (auto_crop : bool) : option Image :=
  match manual_crop_coords with
  | Some coords =>
      box <- manual_box image coords ;;
      if box_valid box then Some (Crop image box) else Some image
  | None =>
      if auto_crop then Some (_crop_to_label image) else Some image
  end.

Definition auto_rotate_stage (image : Image) (auto_rotate : bool)
    (target_width_dots target_height_dots : Z) : option (Image * Z * Z) :=
  let '(img_w, img_h) := size image in
  img_aspect <- Py.truediv img_w img_h ;;
  label_aspect <- Py.truediv target_width_dots target_height_dots ;;
  if auto_rotate then
    let img_is_landscape := img_w >? img_h in
    let label_is_landscape := target_width_dots >? target_height_dots in
    if negb (Bool.eqb img_is_landscape label_is_landscape) then
      let image := Rotate image 90 true in
      let '(img_w, img_h) := size image in
      Some (image, img_w, img_h)
    else Some (image, img_w, img_h)
  else Some (image, img_w, img_h).

Definition flip_stage (image : Image) (flip_vertical : bool) : Image :=
  if flip_vertical then Rotate image 180 false else image.

Definition scale_stage (image : Image) (img_w img_h : Z)
    (target_width_dots target_height_dots : Z) : option (Image * Z * Z) :=
  scale_w <- Py.truediv target_width_dots img_w ;;
  scale_h <- Py.truediv target_height_dots img_h ;;
  let scale := Py.min scale_w scale_h in
  new_width <- rescale img_w scale ;;
  new_height <- rescale img_h scale ;;
  image <- resize image (new_width, new_height) ;;
  Some (image, new_width, new_height).

(** The label canvas with the scaled image pasted in its centre. *)
Definition centered (image : Image)
    (target_width_dots target_height_dots new_width new_height : Z)
    : option Image :=
  final_image <- new ModeL (target_width_dots, target_height_dots) 255 ;;
  let x_offset := (target_width_dots - new_width) / 2 in
  let y_offset := (target_height_dots - new_height) / 2 in
  Some (Paste final_image image (x_offset, y_offset)).

Definition compose_stage (image : Image) (manual_crop_coords : option Box)
    (target_width_dots target_height_dots new_width new_height : Z)
    : option Image :=
  match manual_crop_coords with
  | Some coords =>
      let box := final_box coords target_width_dots target_height_dots in
      if box_valid box then
        temp_final <- centered image target_width_dots target_height_dots
                               new_width new_height ;;
        let cropped_region := Crop temp_final box in
        cropped_region <- resize cropped_region
                                 (target_width_dots, target_height_dots) ;;
        Some cropped_region
      else
        centered image target_width_dots target_height_dots new_width new_height
  | None =>
      centered image target_width_dots target_height_dots new_width new_height
  end.

(** [if image.mode != 'L': image = image.convert('L')]. *)
Definition grayscale (image : Image) : Image :=
  if negb (mode_eqb (mode image) ModeL) then Convert ModeL image else image.

Definition binarize_stage (final_image : Image) (invert : bool) : Image :=
  let final_image := Threshold final_image in
  if invert then Convert Mode1 (Invert (Convert ModeL final_image))
  else final_image.

(** Everything [print_pdf] does between decoding the page and calling
    [print_image_tspl]; [None] is an exception raised on the way. *)
Definition process (image : Image) (label_width_mm label_height_mm dpi : Z)
    (auto_rotate auto_crop invert : bool)
    (manual_crop_coords : option Box) (flip_vertical : bool) : option Image :=
  let image := grayscale image in
  image <- crop_stage image manual_crop_coords auto_crop ;;
  target_width_dots <- target_dots label_width_mm dpi ;;
  target_height_dots <- target_dots label_height_mm dpi ;;
  '(image, img_w, img_h) <-
     auto_rotate_stage image auto_rotate target_width_dots target_height_dots ;;
  let image := flip_stage image flip_vertical in
  '(image, new_width, new_height) <-
     scale_stage image img_w img_h target_width_dots target_height_dots ;;
  final_image <-
     compose_stage image manual_crop_coords target_width_dots target_height_dots
                   new_width new_height ;;
  Some (binarize_stage final_image invert).

End WithCropToLabel.

(** The readings of the specification the code is compared with. *)

(** [round(mm * dpi / 25.4)]: the integer nearest to the exact quotient
    [mm * dpi * 5 / 127] (no tie can occur, 127 being odd). *)
Definition round_dots (mm dpi : Z) : Z := (2 * (mm * dpi * 5) + 127) / (2 * 127).

(** A manual coordinate scaled by [dpi / 150], the resolution of the
    printer in place of the render resolution. *)
Definition rescale_by_target_dpi (v dpi : Z) : option Z :=
  factor <- Py.int_div_float dpi 150 ;; rescale v factor.

End Pipeline.

(** ** The serial transport (pyserial) and the printer object *)

(** How a call on the transport ends. *)
Inductive Outcome : Type := Done | SerialException | OtherException.

(** The object [serial.Serial(...)] returns. *)
Record Serial : Type := mkSerial { is_open : bool }.

Inductive OpenResult : Type :=
| Opened (handle : Serial)
| OpenSerialException
| OpenOtherException.

(** The calls [BluetoothPrinter] makes on the outside world, each with the
    way it ended. *)
Inductive Event : Type :=
| EvOpen (r : OpenResult)                  (* serial.Serial(port=..., ...) *)
| EvSleep (ms : Z)                         (* time.sleep(ms / 1000) *)
| EvWrite (data : list Z) (o : Outcome)    (* connection.write(data) *)
| EvFlush (o : Outcome)                    (* connection.flush() *)
| EvClose.                                 (* connection.close() *)

(** The environment decides how each call ends, from what happened so far. *)
Record Device : Type := mkDevice {
  dev_open : list Event -> OpenResult;
  dev_write : list Event -> list Z -> Outcome;
  dev_flush : list Event -> Outcome
}.

(** [self]: the field [connection] and the trace of the calls made. *)
Record Printer : Type := mkPrinter {
  connection : option Serial;
  trace : list Event
}.

(** A method: from the object before the call to the value returned and the
    object after it. *)
Definition M (A : Type) : Type := Printer -> A * Printer.

Definition ret {A : Type} (a : A) : M A := fun self => (a, self).

Definition bind {A B : Type} (c : M A) (k : A -> M B) : M B :=
  fun self => let '(a, self) := c self in k a self.

Declare Scope pyio_scope.
Delimit Scope pyio_scope with pyio.

Notation "x <- c ;; k" := (bind c (fun x => k))
  (at level 100, c at next level, right associativity) : pyio_scope.
Notation "c ;; k" := (bind c (fun _ => k))
  (at level 100, right associativity) : pyio_scope.

Definition log (ev : Event) : M unit :=
  fun self => (tt, {| connection := connection self; trace := trace self ++ [ev] |}).

Definition sleep (ms : Z) : M unit := log (EvSleep ms).

Fixpoint for_range {A : Type} (n : nat) (body : M A) : M unit :=
  match n with
  | O => ret tt
  | S n' => (body ;; for_range n' body)%pyio
  end.

Definition is_okb (o : Outcome) : bool :=
  match o with Done => true | _ => false end.

Definition is_open_event (ev : Event) : bool :=
  match ev with EvOpen _ => true | _ => false end.

(** The payloads of the [write] calls of a trace, in order. *)
Definition writes (tr : list Event) : list (list Z) :=
  flat_map (fun ev => match ev with EvWrite data _ => [data] | _ => [] end) tr.

(** How many times the transport was asked to open. *)
Definition open_count (tr : list Event) : nat :=
  List.length (filter is_open_event tr).

(** The calls [_do_print] of [label_printer_app.py] makes on the widgets
    from the printing thread ([self._set_status], [self.after],
    [self.selected_port.get]), each [true] when the calls return and [false]
    when one of them raises: those made before [connect], and those made
    between a successful [connect] and the inner [try]. *)
Record Widgets : Type := mkWidgets {
  before_connect : bool;
  before_try : bool
}.

Module BluetoothPrinter.
Import PIL.
Local Open Scope pyio_scope.

Section Methods.

(** The module flag [PDF_SUPPORT], the environment, the pixel access of PIL
    ([image.load()]) and the border heuristic. *)
Variable PDF_SUPPORT : bool.
Variable dev : Device.
Variable load : Image -> Bitmap.PixelAccess.
Variable _crop_to_label : Image -> Image.

Definition is_connected (self : Printer) : bool :=
  match connection self with
  | Some handle => is_open handle
  | None => false
  end.

Definition connect : M bool := fun self =>
  if is_connected self then (true, self)
  else
    match dev_open dev (trace self) with
    | Opened handle =>
        let self := {| connection := Some handle;
                       trace := trace self ++ [EvOpen (Opened handle)] |} in
        let '(_, self) := sleep 500 self in
        if is_open handle then (true, self) else (false, self)
    | failure =>
        (false, snd (log (EvOpen failure) self))
    end.

Definition disconnect : M unit := fun self =>
  if is_connected self then
    let '(_, self) := log EvClose self in
    (tt, {| connection := None; trace := trace self |})
  else (tt, self).

Definition send_raw (data : list Z) : M bool := fun self =>
  if negb (is_connected self) then (false, self)
  else
    let written := dev_write dev (trace self) data in
    let '(_, self) := log (EvWrite data written) self in
    if is_okb written then
      let flushed := dev_flush dev (trace self) in
      let '(_, self) := log (EvFlush flushed) self in
      if is_okb flushed then (true, self) else (false, self)
    else (false, self).

(** [send_text(text)] and [send_text(text, encoding="utf-8")], the calls the
    class itself makes: no code point below 256 fails to encode, so
    [text.encode] returns and the value is that of [send_raw]. *)
Definition send_text (text : string) : M bool :=
  send_raw (PyStr.encode_utf8 text).

(** [send_text(text, encoding)] with any encoding.  The text is encoded
    first, before the connection is looked at; [UnicodeEncodeError] is
    caught and gives [False]; any other exception of [encode] leaves the
    method: [None]. *)
Definition send_text_encoding (text : string) (encoding : PyStr.Encoding)
    : M (option bool) := fun self =>
  match PyStr.encode text encoding with
  | PyStr.Bytes data =>
      let '(sent, self) := send_raw data self in (Some sent, self)
  | PyStr.UnicodeEncodeError => (Some false, self)
  | PyStr.LookupError => (None, self)
  end.

Definition initialize_printer : M bool := fun self =>
  if negb (is_connected self) then (false, self)
  else
    (send_raw [27; 64] ;;
     sleep 100 ;;
     send_raw [27; 116; 16] ;;
     sleep 100 ;;
     ret true) self.

(** The argument [cut_after] of the source is never read and is left out. *)
Definition print_label_tspl (text : string)
    (label_width_mm label_height_mm gap_mm : Z)
    (font : string) (x y : Z) : M bool := fun self =>
  if negb (is_connected self) then (false, self)
  else
    let tspl_cmd :=
      Tspl.label_cmd text label_width_mm label_height_mm gap_mm font x y in
    send_text tspl_cmd self.

Definition print_label (text : string) (cut_after : bool) (feed_lines : Z)
    (simple_mode use_tspl : bool)
    (label_width_mm label_height_mm gap_mm : Z) : M bool := fun self =>
  if negb (is_connected self) then (false, self)
  else if use_tspl then
    print_label_tspl text label_width_mm label_height_mm gap_mm "2" 10 10 self
  else
    ((if negb simple_mode then (initialize_printer ;; ret tt) else ret tt) ;;
     sent <- send_text (text ++ PyStr.LF) ;;
     if negb sent then ret false
     else
       for_range (Z.to_nat feed_lines) (send_text PyStr.LF) ;;
       (if cut_after && negb simple_mode
        then (send_raw [29; 86; 0] ;; ret tt) else ret tt) ;;
       ret true) self.

Definition print_image_tspl (image : Image)
    (label_width_mm label_height_mm gap_mm x y : Z) : M bool := fun self =>
  if negb PDF_SUPPORT then (false, self)
  else if negb (is_connected self) then (false, self)
  else
    let image := as_1bit image in
    let '(width, height) := size image in
    let width_bytes := Bitmap.width_bytes width in
    let bitmap_data := Bitmap.encode width height (load image) in
    let tspl_cmd := Tspl.header label_width_mm label_height_mm gap_mm in
    let tspl_cmd := (tspl_cmd ++ Tspl.bitmap_line x y width_bytes height)%string in
    (send_text tspl_cmd ;;
     send_raw bitmap_data ;;
     send_text Tspl.print_cmd ;;
     ret true) self.

(** What [pdf_path] leads to: no such file, a file [fitz.open] rejects, or
    a document with its pages as decoded by PIL ([None]: rendering or
    decoding the page raises). *)
Inductive PdfFile : Type :=
| Missing
| Unreadable
| Document (pages : list (option Image)).

Definition print_pdf (pdf_path : PdfFile)
    (label_width_mm label_height_mm gap_mm dpi : Z)
    (auto_rotate auto_crop invert : bool)
    (manual_crop_coords : option Box) (flip_vertical : bool) : M bool :=
  fun self =>
  if negb PDF_SUPPORT then (false, self)
  else if negb (is_connected self) then (false, self)
  else
    match pdf_path with
    | Missing => (false, self)
    | Unreadable => (false, self)
    | Document [] => (false, self)
    | Document (None :: _) => (false, self)
    | Document (Some image :: _) =>
        match Pipeline.process _crop_to_label image
                label_width_mm label_height_mm dpi
                auto_rotate auto_crop invert manual_crop_coords flip_vertical
        with
        | None => (false, self)
        | Some final_image =>
            print_image_tspl final_image
              label_width_mm label_height_mm gap_mm 0 0 self
        end
    end.

(** [print_simple(text)] with the default encoding. *)
Definition print_simple (text : string) : M bool := fun self =>
  if negb (is_connected self) then (false, self)
  else send_text (text ++ PyStr.LF ++ PyStr.LF ++ PyStr.LF) self.

(** [print_simple(text, encoding)] with any encoding: the connection is
    looked at first, then [send_text] does the rest; [None] is the
    exception [send_text] lets through. *)
Definition print_simple_encoding (text : string) (encoding : PyStr.Encoding)
    : M (option bool) := fun self =>
  if negb (is_connected self) then (Some false, self)
  else
    send_text_encoding (text ++ PyStr.LF ++ PyStr.LF ++ PyStr.LF) encoding self.

Definition __enter__ : M unit := connect ;; ret tt.
Definition __exit__ : M unit := disconnect.

(** The public print entry points, each with its arguments; [send_text] and
    [print_simple] are the calls with the default encoding, the only ones
    whose value is always a [bool]. *)
Inductive PrintCall : Type :=
| CallSendRaw (data : list Z)
| CallSendText (text : string)
| CallPrintSimple (text : string)
| CallPrintLabel (text : string) (cut_after : bool) (feed_lines : Z)
    (simple_mode use_tspl : bool) (label_width_mm label_height_mm gap_mm : Z)
| CallPrintLabelTspl (text : string)
    (label_width_mm label_height_mm gap_mm : Z) (font : string) (x y : Z)
| CallPrintImageTspl (image : Image)
    (label_width_mm label_height_mm gap_mm x y : Z)
| CallPrintPdf (pdf_path : PdfFile)
    (label_width_mm label_height_mm gap_mm dpi : Z)
    (auto_rotate auto_crop invert : bool)
    (manual_crop_coords : option Box) (flip_vertical : bool).

Definition call (c : PrintCall) : M bool :=
  match c with
  | CallSendRaw data => send_raw data
  | CallSendText text => send_text text
  | CallPrintSimple text => print_simple text
  | CallPrintLabel text cut feed simple tspl w h g =>
      print_label text cut feed simple tspl w h g
  | CallPrintLabelTspl text w h g font x y =>
      print_label_tspl text w h g font x y
  | CallPrintImageTspl image w h g x y => print_image_tspl image w h g x y
  | CallPrintPdf pdf w h g dpi rot crop inv manual flip =>
      print_pdf pdf w h g dpi rot crop inv manual flip
  end.

(** The command-line driver of [bt_printer.py]:
    [try: if not printer.connect(): exit(1); <job> finally: printer.disconnect()].
    The value is the exit status. *)
Definition main (job : M bool) : M Z :=
  connected <- connect ;;
  if negb connected then (disconnect ;; ret 1)
  else (job ;; disconnect ;; ret 0).

(** [_do_print] of [label_printer_app.py].  Its body is inside
    [try: ... except Exception: ...], so an exception ends the method.  The
    calls on the widgets and the construction of the printer come first;
    the method returns when [connect] fails; two more calls on the widgets
    follow a successful [connect], outside the inner
    [try: <job> finally: printer.disconnect()], which comes last. *)
Definition _do_print (widgets : Widgets) (job : M bool) : M unit :=
  if negb (before_connect widgets) then ret tt
  else
    (connected <- connect ;;
     if negb connected then ret tt
     else if negb (before_try widgets) then ret tt
     else (job ;; disconnect)).

(** [with BluetoothPrinter(...) as printer: <job>]. *)
Definition with_printer (job : M bool) : M unit :=
  __enter__ ;; job ;; __exit__.

End Methods.
End BluetoothPrinter.

(** ** Predicates and concrete inputs used by the statements *)

(** A method that leaves the field [connection] as it found it. *)
Definition keeps_connection {A : Type} (c : M A) : Prop :=
  forall self, connection (snd (c self)) = connection self.

Module Examples.
Import PIL.

(** A transport on which every call succeeds. *)
Definition dev_ok : Device :=
  {| dev_open := fun _ => Opened (mkSerial true);
     dev_write := fun _ _ => Done;
     dev_flush := fun _ => Done |}.

(** A transport that opens, and whose link is then lost: every [write]
    raises [SerialException]. *)
Definition dev_link_lost : Device :=
  {| dev_open := fun _ => Opened (mkSerial true);
     dev_write := fun _ _ => SerialException;
     dev_flush := fun _ => Done |}.

(** A printer object just constructed, and one connected by [connect]. *)
Definition fresh : Printer := {| connection := None; trace := [] |}.

Definition connected : Printer :=
  {| connection := Some (mkSerial true);
     trace := [EvOpen (Opened (mkSerial true)); EvSleep 500] |}.

(** Pixel access of images built by [Image.new] alone: the fill colour. *)
Definition load_fill (image : Image) : Bitmap.PixelAccess :=
  fun _ _ => match image with New _ _ color => color | _ => 255 end.

(** A white 1-bit image, 8 pixels wide and 1 pixel high. *)
Definition white_8x1 : Image := New Mode1 (8, 1) 255.

(** A 9 x 2 bitmap: row 0 all ink, row 1 ink in column 8 only. *)
Definition pixels_9x2 : Bitmap.PixelAccess :=
  fun x y => if (y =? 0) || (x =? 8) then 0 else 255.

(** No crop heuristic: the image is returned as it is. *)
Definition no_crop (image : Image) : Image := image.

(** A US-letter page rendered at 300 dpi, and a 612 x 792 raster. *)
Definition letter_page : Image := Pixmap ModeRGB 2550 3300 0.
Definition raster_612x792 : Image := Pixmap ModeL 612 792 0.

Definition one_space : string := String "032" EmptyString.

End Examples.

(** ** Checkers run by the proofs on a range of integers *)

Module Range.

(** [check p lo n]: [p] holds on [lo], [lo + 1], ..., [lo + n - 1]. *)
Fixpoint check (p : Z -> bool) (lo : Z) (n : nat) : bool :=
  match n with
  | O => true
  | S n' => p lo && check p (lo + 1) n'
  end.

(** The same over [blocks] consecutive blocks of [n] integers. *)
Fixpoint check_blocks (p : Z -> bool) (lo : Z) (n blocks : nat) : bool :=
  match blocks with
  | O => true
  | S b' => check p lo n && check_blocks p (lo + Z.of_nat n) n b'
  end.

Definition option_Z_eqb (a : option Z) (b : Z) : bool :=
  match a with
  | Some v => v =? b
  | None => false
  end.

(** [int(n / 25.4)] is the floor of [n * 5 / 127]. *)
Definition dots_ok (n : Z) : bool :=
  option_Z_eqb (Pipeline.target_dots 1 n) (n * 5 / 127).

(** [int(v * 2.0)] is [2 * v]. *)
Definition doubling_ok (v : Z) : bool :=
  option_Z_eqb (Pipeline.rescale v 2) (2 * v).

End Range.

(** ** Closing the transport *)

Definition is_close_event (ev : Event) : bool :=
  match ev with EvClose => true | _ => false end.

(** How many times the transport was closed. *)
Definition close_count (tr : list Event) : nat :=
  List.length (filter is_close_event tr).

(** A trace in which nothing was opened and nothing was closed. *)
Definition no_open_close (tr : list Event) : Prop :=
  open_count tr = 0%nat /\ close_count tr = 0%nat.

(** A method that adds to the trace only sleeps, writes and flushes. *)
Definition only_sends {A : Type} (c : M A) : Prop :=
  forall self, exists added,
    trace (snd (c self)) = trace self ++ added /\ no_open_close added.

(** ** Comparisons between an int and a float *)

Module PyCmp.

(** The exact value [m * 2 ^ e] of a finite float against an int [n]:
    Python compares an int with a float by value, without rounding the
    int. *)
Definition int_gt_float (n : Z) (f : float) : bool :=
  match Prim2SF f with
  | S754_nan => false
  | S754_infinity s => s
  | S754_zero _ => n >? 0
  | S754_finite s m e =>
      let v := if s then Zneg m else Zpos m in
      if 0 <=? e then n >? v * 2 ^ e else n * 2 ^ (- e) >? v
  end.

Definition int_lt_float (n : Z) (f : float) : bool :=
  match Prim2SF f with
  | S754_nan => false
  | S754_infinity s => negb s
  | S754_zero _ => n <? 0
  | S754_finite s m e =>
      let v := if s then Zneg m else Zpos m in
      if 0 <=? e then n <? v * 2 ^ e else n * 2 ^ (- e) <? v
  end.

(** [n > k * c] and [n < k * c] with ints [n], [k] and a float [c]. *)
Definition gt_scaled (n k : Z) (c : float) : option bool :=
  (f <- Py.int_mul_float k c ;; Some (int_gt_float n f))%pyexc.

Definition lt_scaled (n k : Z) (c : float) : option bool :=
  (f <- Py.int_mul_float k c ;; Some (int_lt_float n f))%pyexc.

(** [range(a, b)] and [range(a, b, -1)]. *)
Definition range2 (a b : Z) : list Z := map (fun i => a + i) (Py.range (b - a)).

Definition range_down (a b : Z) : list Z := map (fun i => a - i) (Py.range (a - b)).

(** [for v in l: if test(v): <take v>; break]: the first element that passes
    the test, if any; the test may raise. *)
Fixpoint first_match (test : Z -> option bool) (l : list Z) : option (option Z) :=
  match l with
  | [] => Some None
  | v :: rest =>
      match test v with
      | None => None
      | Some true => Some (Some v)
      | Some false => first_match test rest
      end
  end.

End PyCmp.

(** ** The crop heuristics *)

Module Heuristics.
Import PIL PyCmp.
Local Open Scope pyexc_scope.
Local Set Warnings "-inexact-float".

(** [Image.getbbox()] of PIL on the pixels [px] of a [w] x [h] image: the
    smallest box (left, upper, right, lower), right and lower excluded, that
    holds every non-zero pixel; [None] when every pixel is zero. *)
Definition column_nonzero (px : Bitmap.PixelAccess) (h x : Z) : bool :=
  existsb (fun y => negb (px x y =? 0)) (Py.range h).

Definition row_nonzero (px : Bitmap.PixelAccess) (w y : Z) : bool :=
  existsb (fun x => negb (px x y =? 0)) (Py.range w).

Definition getbbox (w h : Z) (px : Bitmap.PixelAccess) : option Box :=
  match filter (column_nonzero px h) (Py.range w),
        filter (row_nonzero px w) (Py.range h) with
  | x0 :: xs, y0 :: ys => Some (x0, y0, last xs x0 + 1, last ys y0 + 1)
  | _, _ => None
  end.

(** [sum(1 for x in range(a, b) if pixels[x, y] < threshold)]. *)
Definition dark_in_row (pixels : Bitmap.PixelAccess) (threshold a b y : Z) : Z :=
  Z.of_nat (List.length (filter (fun x => pixels x y <? threshold) (range2 a b))).

(** [sum(1 for y in range(height) if pixels[x, y] < threshold)]. *)
Definition dark_in_column (pixels : Bitmap.PixelAccess) (threshold height x : Z) : Z :=
  Z.of_nat (List.length (filter (fun y => pixels x y <? threshold) (Py.range height))).

(** The lines of one direction whose share of dark pixels is above
    [min_line_density], each with that share; [count v] is the number of
    dark pixels of line [v] and [extent] the number of pixels of a line. *)
Fixpoint dense_lines (count : Z -> Z) (extent : Z) (min_line_density : float)
    (l : list Z) : option (list (Z * float)) :=
  match l with
  | [] => Some []
  | v :: rest =>
      density <- Py.truediv (count v) extent ;;
      lines <- dense_lines count extent min_line_density rest ;;
      Some (if (min_line_density <? density)%float
            then (v, density) :: lines else lines)
  end.

(** The loop of [_crop_to_label] that looks for the gap below the label; the
    loop state is [(in_content, gap_start)] and the value is the
    [label_bottom] it breaks with, if it does. *)
Fixpoint find_gap (has_content : Z -> option bool) (label_top : Z)
    (ys : list Z) (in_content : bool) (gap_start : Z) : option (option Z) :=
  match ys with
  | [] => Some None
  | y :: rest =>
      hc <- has_content y ;;
      if in_content && negb hc then
        find_gap has_content label_top rest false y
      else if negb in_content && hc then
        let gap_size := y - gap_start in
        if (gap_size >? 20) && (gap_start >? label_top + 100)
        then Some (Some gap_start)
        else find_gap has_content label_top rest true gap_start
      else if y =? label_top + 50 then
        find_gap has_content label_top rest hc gap_start
      else find_gap has_content label_top rest in_content gap_start
  end.

Definition or_default (found : option Z) (default : Z) : Z :=
  match found with
  | Some v => v
  | None => default
  end.

Section WithLoad.

(** The pixel access of PIL, [image.load()]. *)
Variable load : Image -> Bitmap.PixelAccess.

Definition _crop_whitespace (image : Image) (threshold : Z) : Image :=
  let image := Pipeline.grayscale image in
  let binary : Bitmap.PixelAccess :=
    fun x y => if load image x y >? threshold then 0 else 255 in
  let bbox := getbbox (width image) (height image) binary in
  match bbox with
  | Some (b0, b1, b2, b3) =>
      let margin := 10 in
      let left_ := Z.max 0 (b0 - margin) in
      let top := Z.max 0 (b1 - margin) in
      let right_ := Z.min (width image) (b2 + margin) in
      let bottom := Z.min (height image) (b3 + margin) in
      Crop image (left_, top, right_, bottom)
  | None => image
  end.

Definition _find_label_boundary (image : Image) : option (option Box) :=
  let image := Pipeline.grayscale image in
  let '(width, height) := size image in
  let pixels := load image in
  let threshold := 128 in
  let dense_row y := gt_scaled (dark_in_row pixels threshold 0 width y) width 0.3 in
  let dense_column x :=
    gt_scaled (dark_in_column pixels threshold height x) height 0.3 in
  found <- first_match dense_row (Py.range height) ;;
  let top := or_default found 0 in
  found <- first_match dense_row (range_down (height - 1) (-1)) ;;
  let bottom := or_default found height in
  found <- first_match dense_column (Py.range width) ;;
  let left_ := or_default found 0 in
  found <- first_match dense_column (range_down (width - 1) (-1)) ;;
  let right_ := or_default found width in
  if (right_ >? left_ + 100) && (bottom >? top + 100)
  then Some (Some (left_, top, right_, bottom))
  else Some None.

Definition _crop_to_label (image : Image) : option Image :=
  let image := Pipeline.grayscale image in
  let '(width, height) := size image in
  let pixels := load image in
  let threshold := 180 in
  let min_line_density := 0.15%float in
  horizontal_lines <-
    dense_lines (dark_in_row pixels threshold 0 width) width min_line_density
                (Py.range height) ;;
  vertical_lines <-
    dense_lines (dark_in_column pixels threshold height) height min_line_density
                (Py.range width) ;;
  let label_top := 0 in
  let label_bottom := height in
  let label_left := 0 in
  let label_right := width in
  found <- first_match (fun y => gt_scaled y height 0.02)
                       (map fst horizontal_lines) ;;
  let label_top := or_default found label_top in
  let has_content y :=
    gt_scaled (dark_in_row pixels threshold 0 width y) width 0.02 in
  found <- find_gap has_content label_top (range2 (label_top + 50) height)
                    false 0 ;;
  let label_bottom := or_default found label_bottom in
  label_bottom <-
    (if label_bottom =? height then
       found <- first_match
                  (fun y => gt_scaled (dark_in_row pixels threshold 0 width y)
                                      width 0.3)
                  (range_down (height - 50) (label_top + 100)) ;;
       Some (match found with Some y => y + 5 | None => label_bottom end)
     else Some label_bottom) ;;
  found <- first_match (fun x => gt_scaled x width 0.02)
                       (map fst vertical_lines) ;;
  let label_left := or_default found label_left in
  found <- first_match (fun x => lt_scaled x width 0.98)
                       (rev (map fst vertical_lines)) ;;
  let label_right := or_default found label_right in
  found <- first_match
             (fun y => gt_scaled
                         (dark_in_row pixels threshold label_left label_right y)
                         (label_right - label_left) 0.2)
             (Py.range (Z.min (label_top + 50) height)) ;;
  let label_top := or_default found label_top in
  let border_margin := 3 in
  let label_left := Z.min (label_left + border_margin) width in
  let label_top := Z.min (label_top + border_margin) height in
  let label_right := Z.max (label_right - border_margin) 0 in
  let label_bottom := Z.max (label_bottom - border_margin) 0 in
  let crop_width := label_right - label_left in
  let crop_height := label_bottom - label_top in
  if (crop_width >? 100) && (crop_height >? 100)
  then Some (Crop image (label_left, label_top, label_right, label_bottom))
  else Some (_crop_whitespace image 250).

End WithLoad.

End Heuristics.

(** ** More concrete inputs *)

Module Examples2.
Import PIL.

(** A white 400 x 600 page with a solid dark square from (50, 50) to
    (150, 150), the far corner excluded. *)
Definition square_page : Image := Pixmap ModeL 400 600 1.

Definition load_square (image : Image) : Bitmap.PixelAccess :=
  fun x y =>
    if (50 <=? x) && (x <? 150) && (50 <=? y) && (y <? 150) then 0 else 255.

(** A white 140 x 200 page with a label: a two-pixel border from (12, 12)
    to (127, 151), a dark band inside it, and a line of text below it, from
    row 180 to row 185. *)
Definition label_page : Image := Pixmap ModeL 140 200 2.

Definition between (lo v hi : Z) : bool := (lo <=? v) && (v <=? hi).

Definition load_label (image : Image) : Bitmap.PixelAccess :=
  fun x y =>
    let border :=
      (between 12 x 127 && between 12 y 151)
      && (between 12 x 13 || between 126 x 127
          || between 12 y 13 || between 150 y 151) in
    let band := between 30 x 100 && between 40 y 60 in
    let text := between 20 x 120 && between 180 y 185 in
    if border || band || text then 0 else 255.

End Examples2.

(** ** Numbers that are an int or a float *)

Module PyNum.
Local Open Scope pyexc_scope.

Inductive Num : Type := Int (z : Z) | Float (f : float).

(** [a < b], by value: an int is not rounded to be compared with a
    float. *)
Definition lt (a b : Num) : bool :=
  match a, b with
  | Int x, Int y => x <? y
  | Int x, Float g => PyCmp.int_lt_float x g
  | Float f, Int y => PyCmp.int_gt_float y f
  | Float f, Float g => (f <? g)%float
  end.

(** [min(a, b)] and [max(a, b)]: the first argument unless the second is
    smaller (larger). *)
Definition min (a b : Num) : Num := if lt b a then b else a.

Definition max (a b : Num) : Num := if lt a b then b else a.

Definition to_float (a : Num) : option float :=
  match a with
  | Int z => Py.float_of_int z
  | Float f => Some f
  end.

(** [a - b]: exact on two ints, in floating point otherwise. *)
Definition sub (a b : Num) : option Num :=
  match a, b with
  | Int x, Int y => Some (Int (x - y))
  | _, _ => x <- to_float a ;; y <- to_float b ;; Some (Float (x - y)%float)
  end.

Definition abs (a : Num) : Num :=
  match a with
  | Int z => Int (Z.abs z)
  | Float f => Float (PrimFloat.abs f)
  end.

(** [int(a)]. *)
Definition int (a : Num) : option Z :=
  match a with
  | Int z => Some z
  | Float f => Py.int_of_float f
  end.

(** [n / d] with an int on the left and a float on the right:
    [ZeroDivisionError] when [d] is zero. *)
Definition div (n : Z) (d : float) : option float :=
  x <- Py.float_of_int n ;;
  if is_zero d then raise else Some (x / d)%float.

End PyNum.

(** ** The preview and the print job of [label_printer_app.py] *)

Module App.
Import PIL Pipeline.
Local Open Scope pyexc_scope.

(** The fields of [LabelPrinterApp] that the preview, the manual crop and
    the print job read or write; a button is [true] when its state is
    [normal]. *)
Record State : Type := mkState {
  label_width : Z;
  label_height : Z;
  auto_crop : bool;
  auto_rotate : bool;
  flip_vertical : bool;
  invert_colors : bool;
  manual_crop : bool;
  crop_applied : bool;
  crop_coords : option Box;
  pending_crop : option Box;
  crop_start : option (Z * Z);
  cropped_image : option Image;
  apply_crop_btn : bool;   (* state [normal] *)
  clear_crop_btn : bool
}.

(** The crop box of [_show_processed_preview]: the coordinates scaled by
    [300 / 150], then clamped to the page image. *)
Definition preview_box (image : Image) (crop_coords : Box) : option Box :=
  scale <- Py.truediv 300 150 ;;
  let '(left_, top, right_, bottom) := crop_coords in
  left_ <- rescale left_ scale ;;
  top <- rescale top scale ;;
  right_ <- rescale right_ scale ;;
  bottom <- rescale bottom scale ;;
  let left_ := clamp left_ (width image) in
  let right_ := clamp right_ (width image) in
  let top := clamp top (height image) in
  let bottom := clamp bottom (height image) in
  Some (left_, top, right_, bottom).

(** The rotation of [_show_processed_preview]: the test of [print_pdf]
    without its two aspect ratios. *)
Definition preview_rotate (image : Image) (auto_rotate : bool)
    (target_width_dots target_height_dots : Z) : Image * Z * Z :=
  let '(img_w, img_h) := size image in
  if auto_rotate then
    let img_is_landscape := img_w >? img_h in
    let label_is_landscape := target_width_dots >? target_height_dots in
    if negb (Bool.eqb img_is_landscape label_is_landscape) then
      let image := Rotate image 90 true in
      let '(img_w, img_h) := size image in
      (image, img_w, img_h)
    else (image, img_w, img_h)
  else (image, img_w, img_h).

(** [ImageOps.invert(image.convert('L')).convert('1')]. *)
Definition inverted (image : Image) : Image :=
  Convert Mode1 (Invert (Convert ModeL image)).

(** What [_do_print] sends for a stored preview image: inverted when the
    box [invert_colors] is not ticked. *)
Definition print_image_of (app : State) (cropped : Image) : Image :=
  let print_image := cropped in
  if negb (invert_colors app) then inverted print_image else print_image.

(** What [_crop_start] and [_crop_end] read of the canvas and of the last
    full-page view: [original_pdf_size] is [None] until a full page was
    shown, [canvas_image_id] tells whether the id is set, [preview_offset]
    whether the attribute exists, and [bbox] is
    [preview_canvas.bbox(canvas_image_id)]. *)
Record Display : Type := mkDisplay {
  original_pdf_size : option (Z * Z);
  canvas_image_id : bool;
  preview_offset : bool;
  bbox : option Box;
  pdf_display_scale_x : float;
  pdf_display_scale_y : float
}.

(** [max(0, min(v, bound))] on a float [v] and an int [bound]. *)
Definition clamp_to_page (v : float) (bound : Z) : PyNum.Num :=
  PyNum.max (PyNum.Int 0) (PyNum.min (PyNum.Float v) (PyNum.Int bound)).

(** The selection of [_crop_end] in page coordinates, clamped:
    [(pdf_left, pdf_top, pdf_right, pdf_bottom)]. *)
Definition page_coords
    (canvas_left canvas_top canvas_right canvas_bottom img_x1 img_y1 : Z)
    (scale_x scale_y : float) (original_pdf_size : Z * Z)
    : option (PyNum.Num * PyNum.Num * PyNum.Num * PyNum.Num) :=
  pdf_left <- PyNum.div (canvas_left - img_x1) scale_x ;;
  pdf_right <- PyNum.div (canvas_right - img_x1) scale_x ;;
  pdf_top <- PyNum.div (canvas_top - img_y1) scale_y ;;
  pdf_bottom <- PyNum.div (canvas_bottom - img_y1) scale_y ;;
  let pdf_left := clamp_to_page pdf_left (fst original_pdf_size) in
  let pdf_right := clamp_to_page pdf_right (fst original_pdf_size) in
  let pdf_top := clamp_to_page pdf_top (snd original_pdf_size) in
  let pdf_bottom := clamp_to_page pdf_bottom (snd original_pdf_size) in
  Some (pdf_left, pdf_top, pdf_right, pdf_bottom).

(** [abs(a - b) > 20]. *)
Definition apart (a b : PyNum.Num) : option bool :=
  d <- PyNum.sub a b ;; Some (PyNum.lt (PyNum.Int 20) (PyNum.abs d)).

(** [abs(pdf_right - pdf_left) > 20 and abs(pdf_bottom - pdf_top) > 20]. *)
Definition big_enough (c : PyNum.Num * PyNum.Num * PyNum.Num * PyNum.Num)
    : option bool :=
  let '(pdf_left, pdf_top, pdf_right, pdf_bottom) := c in
  wide <- apart pdf_right pdf_left ;;
  if wide then apart pdf_bottom pdf_top else Some false.

(** [(int(pdf_left), int(pdf_top), int(pdf_right), int(pdf_bottom))]. *)
Definition to_box (c : PyNum.Num * PyNum.Num * PyNum.Num * PyNum.Num)
    : option Box :=
  let '(pdf_left, pdf_top, pdf_right, pdf_bottom) := c in
  left_ <- PyNum.int pdf_left ;;
  top <- PyNum.int pdf_top ;;
  right_ <- PyNum.int pdf_right ;;
  bottom <- PyNum.int pdf_bottom ;;
  Some (left_, top, right_, bottom).

(** The two numbers of the status line,
    [int(pdf_right - pdf_left)] and [int(pdf_bottom - pdf_top)]. *)
Definition status_size (c : PyNum.Num * PyNum.Num * PyNum.Num * PyNum.Num)
    : option (Z * Z) :=
  let '(pdf_left, pdf_top, pdf_right, pdf_bottom) := c in
  w <- PyNum.sub pdf_right pdf_left ;;
  w <- PyNum.int w ;;
  h <- PyNum.sub pdf_bottom pdf_top ;;
  h <- PyNum.int h ;;
  Some (w, h).

(** Assignments to the fields of the application. *)
Definition with_size (app : State) (w h : Z) : State :=
  mkState w h (auto_crop app) (auto_rotate app) (flip_vertical app)
    (invert_colors app) (manual_crop app) (crop_applied app)
    (crop_coords app) (pending_crop app) (crop_start app)
    (cropped_image app) (apply_crop_btn app) (clear_crop_btn app).

Definition with_options (app : State)
    (auto_crop auto_rotate flip_vertical invert_colors manual_crop : bool)
    : State :=
  mkState (label_width app) (label_height app)
    auto_crop auto_rotate flip_vertical invert_colors manual_crop
    (crop_applied app) (crop_coords app) (pending_crop app) (crop_start app)
    (cropped_image app) (apply_crop_btn app) (clear_crop_btn app).

Definition with_crop (app : State) (crop_applied : bool)
    (crop_coords pending_crop : option Box) (apply_crop_btn : bool) : State :=
  mkState (label_width app) (label_height app) (auto_crop app)
    (auto_rotate app) (flip_vertical app) (invert_colors app)
    (manual_crop app) crop_applied crop_coords pending_crop (crop_start app)
    (cropped_image app) apply_crop_btn (clear_crop_btn app).

Definition with_clear_crop_btn (app : State) (clear_crop_btn : bool) : State :=
  mkState (label_width app) (label_height app) (auto_crop app)
    (auto_rotate app) (flip_vertical app) (invert_colors app)
    (manual_crop app) (crop_applied app) (crop_coords app) (pending_crop app)
    (crop_start app) (cropped_image app) (apply_crop_btn app) clear_crop_btn.

Definition with_crop_start (app : State) (crop_start : option (Z * Z))
    : State :=
  mkState (label_width app) (label_height app) (auto_crop app)
    (auto_rotate app) (flip_vertical app) (invert_colors app)
    (manual_crop app) (crop_applied app) (crop_coords app) (pending_crop app)
    crop_start (cropped_image app) (apply_crop_btn app) (clear_crop_btn app).

Definition with_cropped_image (app : State) (cropped_image : option Image)
    : State :=
  mkState (label_width app) (label_height app) (auto_crop app)
    (auto_rotate app) (flip_vertical app) (invert_colors app)
    (manual_crop app) (crop_applied app) (crop_coords app) (pending_crop app)
    (crop_start app) cropped_image (apply_crop_btn app) (clear_crop_btn app).

(** The application as [__init__] leaves it. *)
Definition __init__ : State :=
  mkState 101 152 true true false false false false None None None None
    false false.

(** What the user does.  The two size entries are bound to [label_width]
    and [label_height] by [textvariable]: typing an int in one changes the
    variable and calls nothing; leaving the entry or pressing Return calls
    [_on_custom_size_change].  Moving the mouse with the button held
    ([_crop_drag]) only draws on the canvas. *)
Inductive Action : Type :=
| SelectPdf
| SetSize (w h : Z)
| ClickCustomSize
| TypeWidth (w : Z)
| TypeHeight (h : Z)
| LeaveSizeEntry
| ClickAutoCrop
| ClickAutoRotate
| ClickFlipVertical
| ClickInvertColors
| ClickManualCrop
| ButtonPress (x y : Z)
| ButtonRelease (x y : Z)
| ClickApplyCrop
| ClickClearCrop.

Section WithCropToLabel.

Variable _crop_to_label : Image -> Image.

(** [_show_processed_preview], from the page decoded at 300 dpi to the
    image stored in [self.cropped_image]; [None] is an exception raised on
    the way. *)
Definition _show_processed_preview (app : State) (image : Image)
    : option Image :=
  let image := grayscale image in
  image <-
    match (if manual_crop app && crop_applied app then crop_coords app
           else None) with
    | Some coords =>
        box <- preview_box image coords ;;
        if box_valid box then Some (Crop image box) else Some image
    | None =>
        if auto_crop app then Some (_crop_to_label image) else Some image
    end ;;
  let dpi := 203 in
  target_width_dots <- target_dots (label_width app) dpi ;;
  target_height_dots <- target_dots (label_height app) dpi ;;
  let '(image, img_w, img_h) :=
    preview_rotate image (auto_rotate app)
                   target_width_dots target_height_dots in
  let image := flip_stage image (flip_vertical app) in
  '(image, new_width, new_height) <-
     scale_stage image img_w img_h target_width_dots target_height_dots ;;
  final_image <- centered image target_width_dots target_height_dots
                          new_width new_height ;;
  let final_image := Threshold final_image in
  Some final_image.

(** [_update_preview]; [page] is the first page of [pdf_path] decoded at
    300 dpi, [None] when no file is selected, the file is gone or decoding
    it raises.  The full-page view of the manual mode and an exception of
    the preview leave the fields of [State] as they are. *)
Definition _update_preview (page : option Image) (app : State) : State :=
  match page with
  | None => app
  | Some image =>
      if manual_crop app && negb (crop_applied app) then app
      else
        match _show_processed_preview app image with
        | Some final_image => with_cropped_image app (Some final_image)
        | None => app
        end
  end.

Definition _set_size (width height : Z) (page : option Image) (app : State)
    : State :=
  _update_preview page (with_size app width height).

Definition _set_custom_size (page : option Image) (app : State) : State :=
  _update_preview page app.

(** [(w, h) in presets]. *)
Definition is_preset (w h : Z) : bool :=
  existsb (fun preset => (fst preset =? w) && (snd preset =? h))
          [(101, 152); (101, 101); (50, 25)].

Definition _on_custom_size_change (page : option Image) (app : State)
    : State :=
  let '(w, h) := (label_width app, label_height app) in
  if negb (is_preset w h) then _set_custom_size page app
  else _set_size w h page app.

Definition _toggle_manual_crop (page : option Image) (app : State) : State :=
  let app :=
    if manual_crop app then
      let app :=
        with_options app false (auto_rotate app) (flip_vertical app)
          (invert_colors app) (manual_crop app) in
      let app := with_crop app false None None false in
      with_clear_crop_btn app true
    else
      let app := with_crop app false None None false in
      with_clear_crop_btn app false in
  _update_preview page app.

Definition _crop_start (x y : Z) (display : Display) (app : State) : State :=
  if negb (manual_crop app) || crop_applied app then app
  else
    match original_pdf_size display with
    | None => app
    | Some _ => with_crop_start app (Some (x, y))
    end.

(** [_crop_end]; an exception leaves the handler at once, with the
    assignments made so far. *)
Definition _crop_end (x y : Z) (display : Display) (app : State) : State :=
  if negb (manual_crop app) || crop_applied app then app
  else
    match crop_start app with
    | None => app
    | Some (x1, y1) =>
        match original_pdf_size display with
        | None => app
        | Some original_pdf_size =>
            let '(x2, y2) := (x, y) in
            let canvas_left := Z.min x1 x2 in
            let canvas_right := Z.max x1 x2 in
            let canvas_top := Z.min y1 y2 in
            let canvas_bottom := Z.max y1 y2 in
            if canvas_image_id display && preview_offset display then
              match bbox display with
              | Some (img_x1, img_y1, img_x2, img_y2) =>
                  match page_coords canvas_left canvas_top canvas_right
                          canvas_bottom img_x1 img_y1
                          (pdf_display_scale_x display)
                          (pdf_display_scale_y display) original_pdf_size
                  with
                  | None => app
                  | Some c =>
                      match big_enough c with
                      | None => app
                      | Some false => with_crop_start app None
                      | Some true =>
                          match to_box c with
                          | None => app
                          | Some box =>
                              let app :=
                                with_crop app (crop_applied app)
                                  (crop_coords app) (Some box) true in
                              match status_size c with
                              | None => app
                              | Some _ => with_crop_start app None
                              end
                          end
                      end
                  end
              | None => with_crop_start app None
              end
            else with_crop_start app None
        end
    end.

Definition _apply_crop (page : option Image) (app : State) : State :=
  match pending_crop app with
  | Some pending =>
      _update_preview page (with_crop app true (Some pending) None false)
  | None => app
  end.

Definition _clear_crop (page : option Image) (app : State) : State :=
  _update_preview page (with_crop app false None None false).

(** One action; a check box changes its variable, then calls its
    command. *)
Definition step (app : State) (a : Action * option Image * Display) : State :=
  let '(action, page, display) := a in
  match action with
  | SelectPdf => _update_preview page app
  | SetSize w h => _set_size w h page app
  | ClickCustomSize => _set_custom_size page app
  | TypeWidth w => with_size app w (label_height app)
  | TypeHeight h => with_size app (label_width app) h
  | LeaveSizeEntry => _on_custom_size_change page app
  | ClickAutoCrop =>
      _update_preview page
        (with_options app (negb (auto_crop app)) (auto_rotate app)
           (flip_vertical app) (invert_colors app) (manual_crop app))
  | ClickAutoRotate =>
      _update_preview page
        (with_options app (auto_crop app) (negb (auto_rotate app))
           (flip_vertical app) (invert_colors app) (manual_crop app))
  | ClickFlipVertical =>
      _update_preview page
        (with_options app (auto_crop app) (auto_rotate app)
           (negb (flip_vertical app)) (invert_colors app) (manual_crop app))
  | ClickInvertColors =>
      _update_preview page
        (with_options app (auto_crop app) (auto_rotate app)
           (flip_vertical app) (negb (invert_colors app)) (manual_crop app))
  | ClickManualCrop =>
      _toggle_manual_crop page
        (with_options app (auto_crop app) (auto_rotate app)
           (flip_vertical app) (invert_colors app) (negb (manual_crop app)))
  | ButtonPress x y => _crop_start x y display app
  | ButtonRelease x y => _crop_end x y display app
  | ClickApplyCrop => _apply_crop page app
  | ClickClearCrop => _clear_crop page app
  end.

(** The application after a sequence of actions, each with the page and
    the canvas as they were when it happened. *)
Definition run (actions : list (Action * option Image * Display))
    (app : State) : State :=
  fold_left step actions app.

(** Whether the size entries were typed in and nothing has refreshed the
    preview since: typing sets it, every action that ends with
    [_update_preview] clears it, the others ([_apply_crop] refreshes only
    when a selection waits) leave it as it is. *)
Definition typed_after (typed : bool) (action : Action) : bool :=
  match action with
  | TypeWidth _ | TypeHeight _ => true
  | SelectPdf | SetSize _ _ | ClickCustomSize | LeaveSizeEntry
  | ClickAutoCrop | ClickAutoRotate | ClickFlipVertical | ClickInvertColors
  | ClickManualCrop | ClickClearCrop => false
  | ButtonPress _ _ | ButtonRelease _ _ | ClickApplyCrop => typed
  end.

Definition typed_since_refresh
    (actions : list (Action * option Image * Display)) : bool :=
  fold_left (fun typed a => typed_after typed (fst (fst a))) actions false.


Variable dev : Device.
Variable load : Image -> Bitmap.PixelAccess.

(** The body of the inner [try] of [_do_print]: the stored image when a
    manual crop was applied, [print_pdf] otherwise. *)
Definition print_job (app : State) (pdf_path : BluetoothPrinter.PdfFile)
    : M bool :=
  match (if manual_crop app && crop_applied app then cropped_image app
         else None) with
  | Some cropped =>
      BluetoothPrinter.print_image_tspl true dev load
        (print_image_of app cropped)
        (label_width app) (label_height app) 2 0 0
  | None =>
      BluetoothPrinter.print_pdf true dev load _crop_to_label pdf_path
        (label_width app) (label_height app) 2 203
        (auto_rotate app) (auto_crop app) (negb (invert_colors app))
        None (flip_vertical app)
  end.

End WithCropToLabel.

(** The crop controls agree with each other: a crop is applied exactly
    when its coordinates are set, and only in manual mode; a selection
    waits to be applied only in manual mode and while no crop is applied;
    the button [Apply Crop] is enabled exactly when a selection waits, and
    the button [Clear] exactly in manual mode. *)
Definition consistent (app : State) : Prop :=
  (crop_applied app = true <-> crop_coords app <> None) /\
  (crop_applied app = true -> manual_crop app = true) /\
  (pending_crop app <> None ->
   manual_crop app = true /\ crop_applied app = false) /\
  (apply_crop_btn app = true <-> pending_crop app <> None) /\
  clear_crop_btn app = manual_crop app.

End App.

(** A session of the application: a document is selected, a rectangle is
    drawn on its 306 x 396 full-page view and applied. *)
Module Sessions.
Import PIL App.

Definition display_306x396 : Display :=
  mkDisplay (Some (306, 396)) true true (Some (47, 102, 353, 498)) 1 1.

Definition select_and_apply : list (Action * option Image * Display) :=
  map (fun action => (action, Some Examples.raster_612x792, display_306x396))
    [SelectPdf; ClickManualCrop; ButtonPress 57 122; ButtonRelease 247 402;
     ClickApplyCrop].

(** The same session followed by typing 50 in the width entry. *)
Definition type_after_apply : list (Action * option Image * Display) :=
  select_and_apply
  ++ [(TypeWidth 50, Some Examples.raster_612x792, display_306x396)].

Definition preview_whole : Image :=
  Threshold
    (Paste (New ModeL (807, 1214) 255)
       (Resize Examples.raster_612x792 (807, 1044)) (0, 85)).

Definition preview_cropped : Image :=
  Threshold
    (Paste (New ModeL (807, 1214) 255)
       (Resize (Crop Examples.raster_612x792 (20, 40, 400, 600)) (807, 1189))
       (0, 12)).

(** The application with the defaults of [__init__] but for [auto_crop],
    after the preview of the whole page. *)
Definition app_auto : State :=
  mkState 101 152 false true false false false false None None None
    (Some preview_whole) false false.

End Sessions.

(* ================================================================== *)
(** * Part II: properties *)
(* ================================================================== *)

(** ** The connection life cycle *)

Section Connection.
Import BluetoothPrinter.

Variable dev : Device.

Lemma log_connection (ev : Event) (self : Printer) :
  connection (snd (log ev self)) = connection self.
Proof. reflexivity. Qed.

Lemma log_trace (ev : Event) (self : Printer) :
  trace (snd (log ev self)) = trace self ++ [ev].
Proof. reflexivity. Qed.

Lemma is_connected_log (ev : Event) (self : Printer) :
  is_connected (snd (log ev self)) = is_connected self.
Proof. reflexivity. Qed.

Lemma connect_when_connected (self : Printer) :
  is_connected self = true -> connect dev self = (true, self).
Proof. intros H. unfold connect. now rewrite H. Qed.

Lemma connect_success_connected (self : Printer) :
  fst (connect dev self) = true -> is_connected (snd (connect dev self)) = true.
Proof.
  unfold connect.
  destruct (is_connected self) eqn:Hc; [ now intros _ | ].
  destruct (dev_open dev (trace self)) as [[o] | | ]; cbn; try discriminate.
  destruct o; cbn; [ reflexivity | discriminate ].
Qed.

Lemma connect_failure_disconnected (self : Printer) :
  fst (connect dev self) = false -> is_connected (snd (connect dev self)) = false.
Proof.
  unfold connect.
  destruct (is_connected self) eqn:Hc; [ discriminate | ].
  destruct (dev_open dev (trace self)) as [[o] | | ]; cbn; auto.
  destruct o; cbn; [ discriminate | reflexivity ].
Qed.

Lemma connect_open_count (self : Printer) :
  (open_count (trace (snd (connect dev self))) <= open_count (trace self) + 1)%nat.
Proof.
  unfold connect, open_count.
  destruct (is_connected self); [ cbn; lia | ].
  destruct (dev_open dev (trace self)) as [[o] | | ]; cbn;
    try destruct o; cbn; rewrite ?filter_app, ?length_app; cbn; lia.
Qed.

Lemma disconnect_disconnected (self : Printer) :
  is_connected (snd (disconnect self)) = false.
Proof.
  unfold disconnect. destruct (is_connected self) eqn:Hc; cbn; auto.
Qed.

(** C7. [connect()] on a connected printer returns [True] and leaves the
    object and the transport exactly as they were; hence when a first
    [connect()] succeeds, a second one succeeds too and the two calls
    together ask the transport to open at most once. *)
Theorem connect_idempotent (self : Printer) :
  (is_connected self = true -> connect dev self = (true, self)) /\
  (fst (connect dev self) = true ->
   connect dev (snd (connect dev self)) = (true, snd (connect dev self)) /\
   (open_count (trace (snd (connect dev (snd (connect dev self)))))
    <= open_count (trace self) + 1)%nat).
Proof.
  split; [ apply connect_when_connected | ].
  intros Hok.
  pose proof (connect_when_connected _ (connect_success_connected _ Hok)) as H2.
  split; [ exact H2 | ].
  rewrite H2. apply connect_open_count.
Qed.

End Connection.

(** C7 on a fresh printer over a working transport: both calls return
    [True] and the transport is opened once. *)
Lemma connect_idempotent_witness :
  fst (BluetoothPrinter.connect Examples.dev_ok Examples.fresh) = true /\
  BluetoothPrinter.connect Examples.dev_ok
    (snd (BluetoothPrinter.connect Examples.dev_ok Examples.fresh))
  = (true, Examples.connected) /\
  open_count
    (trace (snd (BluetoothPrinter.connect Examples.dev_ok
       (snd (BluetoothPrinter.connect Examples.dev_ok Examples.fresh))))) = 1%nat.
Proof.
  split; [ reflexivity | ].
  pose proof (proj2 (connect_idempotent Examples.dev_ok Examples.fresh) eq_refl)
    as [H _].
  split; [ exact H | reflexivity ].
Defined.

(** ** Sending *)

Section Sending.
Import BluetoothPrinter.

Variable PDF_SUPPORT : bool.
Variable dev : Device.
Variable load : PIL.Image -> Bitmap.PixelAccess.
Variable _crop_to_label : PIL.Image -> PIL.Image.

Lemma send_raw_disconnected (data : list Z) (self : Printer) :
  is_connected self = false -> send_raw dev data self = (false, self).
Proof. intros H. unfold send_raw. now rewrite H. Qed.

(** What one [send_raw] on a connected printer does to the trace. *)
Lemma send_raw_connected (data : list Z) (self : Printer) :
  is_connected self = true ->
  send_raw dev data self =
    let written := dev_write dev (trace self) data in
    let flushed := dev_flush dev (trace self ++ [EvWrite data written]) in
    (is_okb written && is_okb flushed,
     {| connection := connection self;
        trace := trace self ++ EvWrite data written
                   :: (if is_okb written then [EvFlush flushed] else []) |}).
Proof.
  intros H. unfold send_raw. rewrite H. cbn.
  destruct (dev_write dev (trace self) data); cbn; try reflexivity.
  rewrite <- app_assoc. cbn.
  destruct (dev_flush dev _); reflexivity.
Qed.

Lemma send_raw_keeps_connection (data : list Z) :
  keeps_connection (send_raw dev data).
Proof.
  intros self. destruct (is_connected self) eqn:H.
  - now rewrite send_raw_connected.
  - now rewrite send_raw_disconnected.
Qed.

Lemma send_raw_is_connected (data : list Z) (self : Printer) :
  is_connected (snd (send_raw dev data self)) = is_connected self.
Proof. unfold is_connected. now rewrite send_raw_keeps_connection. Qed.

(** On a connected printer [send_raw] makes exactly one [write] call, with
    all of [data], whatever the outcome. *)
Lemma send_raw_writes (data : list Z) (self : Printer) :
  is_connected self = true ->
  writes (trace (snd (send_raw dev data self))) = writes (trace self) ++ [data].
Proof.
  intros H. rewrite send_raw_connected by exact H. cbn.
  unfold writes. rewrite flat_map_app. cbn.
  destruct (is_okb _); reflexivity.
Qed.

(** C6, as the code has it. Not connected: [send_raw] returns [False] and
    touches nothing. Connected: a [True] result means one [write] of all the
    bytes followed at once by one [flush], both successful, and that is what
    happens whenever the transport accepts both calls. The value returned is
    the boolean, never the byte count. *)
Theorem send_raw_spec (data : list Z) (self : Printer) :
  (is_connected self = false -> send_raw dev data self = (false, self)) /\
  (is_connected self = true ->
   fst (send_raw dev data self) = true ->
   snd (send_raw dev data self) =
     {| connection := connection self;
        trace := trace self ++ [EvWrite data Done; EvFlush Done] |}) /\
  (is_connected self = true ->
   dev_write dev (trace self) data = Done ->
   dev_flush dev (trace self ++ [EvWrite data Done]) = Done ->
   fst (send_raw dev data self) = true).
Proof.
  split; [ apply send_raw_disconnected | ].
  split; intros Hc.
  - rewrite send_raw_connected by exact Hc. cbn.
    destruct (dev_write dev (trace self) data); cbn; try discriminate.
    destruct (dev_flush dev _); cbn; try discriminate. reflexivity.
  - intros Hw Hf. rewrite send_raw_connected by exact Hc. cbn.
    rewrite Hw. cbn. now rewrite Hf.
Qed.

(** *** Connection kept by every print entry point *)

Lemma keeps_ret {A : Type} (a : A) : keeps_connection (ret a).
Proof. intros self. reflexivity. Qed.

Lemma keeps_bind {A B : Type} (c : M A) (k : A -> M B) :
  keeps_connection c -> (forall a, keeps_connection (k a)) ->
  keeps_connection (bind c k).
Proof.
  intros Hc Hk self. unfold bind.
  specialize (Hc self). destruct (c self) as [a self1]. cbn in *.
  now rewrite Hk.
Qed.

Lemma keeps_log (ev : Event) : keeps_connection (log ev).
Proof. intros self. reflexivity. Qed.

Lemma keeps_for_range {A : Type} (n : nat) (body : M A) :
  keeps_connection body -> keeps_connection (for_range n body).
Proof.
  intros Hb. induction n as [| n IH]; cbn.
  - apply keeps_ret.
  - apply keeps_bind; auto.
Qed.

Lemma keeps_guard {A : Type} (g : Printer -> bool) (a : A) (c : M A) :
  keeps_connection c ->
  keeps_connection (fun self => if g self then (a, self) else c self).
Proof. intros Hc self. destruct (g self); [ reflexivity | apply Hc ]. Qed.

Create HintDb keeps.

#[local] Hint Resolve keeps_ret keeps_bind keeps_log keeps_for_range
  send_raw_keeps_connection : keeps.

Lemma send_text_keeps_connection (text : string) :
  keeps_connection (send_text dev text).
Proof. apply send_raw_keeps_connection. Qed.

#[local] Hint Resolve send_text_keeps_connection : keeps.

Lemma initialize_printer_keeps_connection : keeps_connection (initialize_printer dev).
Proof.
  unfold initialize_printer.
  apply (keeps_guard (fun self => negb (is_connected self))).
  unfold sleep. auto 10 with keeps.
Qed.

Lemma print_label_tspl_keeps_connection text w h g font x y :
  keeps_connection (print_label_tspl dev text w h g font x y).
Proof.
  unfold print_label_tspl.
  apply (keeps_guard (fun self => negb (is_connected self))).
  auto with keeps.
Qed.

Lemma print_label_keeps_connection text cut feed simple tspl w h g :
  keeps_connection (print_label dev text cut feed simple tspl w h g).
Proof.
  unfold print_label.
  apply (keeps_guard (fun self => negb (is_connected self))).
  destruct tspl; [ apply print_label_tspl_keeps_connection | ].
  apply keeps_bind.
  - destruct (negb simple); auto using initialize_printer_keeps_connection with keeps.
  - intros _. apply keeps_bind; auto with keeps.
    intros sent. destruct (negb sent); auto with keeps.
    apply keeps_bind; auto with keeps.
    intros _. apply keeps_bind; auto with keeps.
    destruct (cut && negb simple); auto with keeps.
Qed.

Lemma print_image_tspl_keeps_connection image w h g x y :
  keeps_connection (print_image_tspl PDF_SUPPORT dev load image w h g x y).
Proof.
  unfold print_image_tspl. intros self.
  destruct (negb PDF_SUPPORT); [ reflexivity | ].
  destruct (negb (is_connected self)); [ reflexivity | ].
  destruct (PIL.size _) as [width height].
  match goal with
  | |- connection (snd (?c self)) = _ =>
      assert (H : keeps_connection c) by auto 10 with keeps; apply H
  end.
Qed.

Lemma print_pdf_keeps_connection pdf w h g dpi rot crop inv manual flip :
  keeps_connection
    (print_pdf PDF_SUPPORT dev load _crop_to_label
               pdf w h g dpi rot crop inv manual flip).
Proof.
  unfold print_pdf. intros self.
  destruct (negb PDF_SUPPORT); [ reflexivity | ].
  destruct (negb (is_connected self)); [ reflexivity | ].
  destruct pdf as [ | | [ | [image | ] rest ] ]; try reflexivity.
  destruct (Pipeline.process _ _ _ _ _ _ _ _ _ _); [ | reflexivity ].
  apply print_image_tspl_keeps_connection.
Qed.

Lemma print_simple_keeps_connection text :
  keeps_connection (print_simple dev text).
Proof.
  unfold print_simple.
  apply (keeps_guard (fun self => negb (is_connected self))).
  auto with keeps.
Qed.

Lemma call_keeps_connection (c : PrintCall) :
  keeps_connection (call PDF_SUPPORT dev load _crop_to_label c).
Proof.
  destruct c; cbn [call].
  - apply send_raw_keeps_connection.
  - apply send_text_keeps_connection.
  - apply print_simple_keeps_connection.
  - apply print_label_keeps_connection.
  - apply print_label_tspl_keeps_connection.
  - apply print_image_tspl_keeps_connection.
  - apply print_pdf_keeps_connection.
Qed.

(** *** The drivers close the connection *)

Lemma main_disconnects (job : M bool) (self : Printer) :
  is_connected (snd (main dev job self)) = false.
Proof.
  unfold main, bind.
  destruct (connect dev self) as [ok self1].
  destruct ok; cbn.
  - destruct (job self1) as [r self2].
    pose proof (disconnect_disconnected self2) as H.
    destruct (disconnect self2). exact H.
  - pose proof (disconnect_disconnected self1) as H.
    destruct (disconnect self1). exact H.
Qed.

(** [_do_print] ends with the printer connected exactly when [connect]
    gave a handle and a call on the widgets raised before the inner [try]
    was entered (and, on a printer that was connected, when the calls
    before [connect] raised). *)
Lemma _do_print_connected (widgets : Widgets) (job : M bool) (self : Printer) :
  is_connected (snd (_do_print dev widgets job self))
  = if before_connect widgets
    then fst (connect dev self) && negb (before_try widgets)
    else is_connected self.
Proof.
  unfold _do_print, bind, ret.
  destruct (before_connect widgets); cbn [negb]; [ | reflexivity ].
  pose proof (connect_failure_disconnected dev self) as Hf.
  pose proof (connect_success_connected dev self) as Hs.
  destruct (connect dev self) as [ok self1].
  destruct ok; cbn [negb fst snd andb] in *.
  - destruct (before_try widgets); cbn [negb snd].
    + destruct (job self1) as [r self2]. apply disconnect_disconnected.
    + now apply Hs.
  - now apply Hf.
Qed.

Lemma send_text_encoding_keeps_connection text encoding :
  keeps_connection (send_text_encoding dev text encoding).
Proof.
  intros self. unfold send_text_encoding.
  destruct (PyStr.encode text encoding) as [data| |]; try reflexivity.
  pose proof (send_raw_keeps_connection data self) as H.
  destruct (send_raw dev data self) as [sent self1]. exact H.
Qed.

Lemma print_simple_encoding_keeps_connection text encoding :
  keeps_connection (print_simple_encoding dev text encoding).
Proof.
  intros self. unfold print_simple_encoding.
  destruct (negb (is_connected self)); [ reflexivity | ].
  apply send_text_encoding_keeps_connection.
Qed.

Lemma with_printer_disconnects (job : M bool) (self : Printer) :
  is_connected (snd (with_printer dev job self)) = false.
Proof.
  unfold with_printer, __enter__, __exit__, bind, ret.
  destruct (connect dev self) as [ok self1].
  destruct (job self1) as [r self2]. apply disconnect_disconnected.
Qed.

(** C5, as the code has it. No print entry point closes (or replaces) the
    connection: each ends, by a result or (for [send_text] and
    [print_simple] with an encoding of the caller's) by an exception, with
    [self.connection] as it found it, so a printer that was connected is
    still connected when the call returns.  The connection is closed by the
    owner of the printer object.  The command-line driver and the context
    manager end with the printer disconnected, whatever the call did and
    however the transport behaved.  [_do_print] does so too when its calls
    on the widgets return; it leaves the handle open exactly when [connect]
    gave one and a call on the widgets raised between [connect] and the
    inner [try], whose [finally] is the only place it disconnects. *)
Theorem connection_closed_by_owner (c : PrintCall) (text : string)
    (encoding : PyStr.Encoding) (widgets : Widgets) (self : Printer) :
  let job := call PDF_SUPPORT dev load _crop_to_label c in
  connection (snd (job self)) = connection self /\
  is_connected (snd (job self)) = is_connected self /\
  connection (snd (send_text_encoding dev text encoding self))
  = connection self /\
  connection (snd (print_simple_encoding dev text encoding self))
  = connection self /\
  is_connected (snd (main dev job self)) = false /\
  is_connected (snd (with_printer dev job self)) = false /\
  is_connected (snd (_do_print dev widgets job self))
  = (if before_connect widgets
     then fst (connect dev self) && negb (before_try widgets)
     else is_connected self).
Proof.
  intros job.
  pose proof (call_keeps_connection c self) as H.
  split; [ exact H | ].
  split; [ unfold is_connected; fold job in H; now rewrite H | ].
  split; [ apply send_text_encoding_keeps_connection | ].
  split; [ apply print_simple_encoding_keeps_connection | ].
  split; [ apply main_disconnects | ].
  split; [ apply with_printer_disconnects | apply _do_print_connected ].
Qed.

End Sending.

(** C6 at concrete inputs: refused on a fresh printer, one [write] and one
    [flush] on a connected one. *)
Lemma send_raw_spec_witness :
  BluetoothPrinter.send_raw Examples.dev_ok [65; 66; 67] Examples.fresh
  = (false, Examples.fresh) /\
  snd (BluetoothPrinter.send_raw Examples.dev_ok [65; 66; 67] Examples.connected)
  = {| connection := Some (mkSerial true);
       trace := trace Examples.connected
                ++ [EvWrite [65; 66; 67] Done; EvFlush Done] |} /\
  fst (BluetoothPrinter.send_raw Examples.dev_ok [65; 66; 67] Examples.connected)
  = true.
Proof.
  destruct (send_raw_spec Examples.dev_ok [65; 66; 67] Examples.fresh) as [H1 _].
  destruct (send_raw_spec Examples.dev_ok [65; 66; 67] Examples.connected)
    as [_ [H2 H3]].
  split; [ apply H1; reflexivity | ].
  split; [ apply H2; reflexivity | apply H3; reflexivity ].
Defined.

(** C6 as stated fails: three bytes are written and the value returned is
    [True], which as a number is 1, not 3; and the refusal on a printer that
    is not connected is the bare [False], the same value a failed write
    gives. *)
Lemma send_raw_returns_bool_not_count :
  fst (BluetoothPrinter.send_raw Examples.dev_ok [65; 66; 67] Examples.connected)
  = true /\
  writes (trace (snd (BluetoothPrinter.send_raw Examples.dev_ok [65; 66; 67]
                        Examples.connected))) = [[65; 66; 67]] /\
  Z.b2z (fst (BluetoothPrinter.send_raw Examples.dev_ok [65; 66; 67]
                Examples.connected))
  <> Z.of_nat (List.length [65; 66; 67]) /\
  fst (BluetoothPrinter.send_raw Examples.dev_ok [65; 66; 67] Examples.fresh)
  = fst (BluetoothPrinter.send_raw Examples.dev_link_lost [65; 66; 67]
           Examples.connected).
Proof.
  repeat split; try reflexivity. cbn. discriminate.
Qed.

(** ** Raster printing *)

Section Raster.
Import BluetoothPrinter.

Variable dev : Device.
Variable load : PIL.Image -> Bitmap.PixelAccess.
Variable _crop_to_label : PIL.Image -> PIL.Image.

(** With image support and a connected printer, [print_image_tspl] makes
    three [write] calls, header text, bitmap payload and PRINT command in
    that order, and returns [True], whatever the transport answers. *)
Lemma print_image_tspl_three_writes image w h g x y (self : Printer) :
  is_connected self = true ->
  let r := print_image_tspl true dev load image w h g x y self in
  fst r = true /\
  writes (trace (snd r)) =
    writes (trace self)
    ++ [ PyStr.encode_utf8
           (Tspl.header w h g
            ++ Tspl.bitmap_line x y
                 (Bitmap.width_bytes (PIL.width (PIL.as_1bit image)))
                 (PIL.height (PIL.as_1bit image)));
         Bitmap.encode (PIL.width (PIL.as_1bit image)) (PIL.height (PIL.as_1bit image))
                       (load (PIL.as_1bit image));
         PyStr.encode_utf8 Tspl.print_cmd ].
Proof.
  intros Hc. unfold print_image_tspl. cbn [negb]. rewrite Hc. cbn [negb].
  unfold PIL.width, PIL.height.
  destruct (PIL.size (PIL.as_1bit image)) as [width height]. cbn [fst snd].
  unfold bind, send_text, ret.
  pose proof (send_raw_writes dev
    (PyStr.encode_utf8 (Tspl.header w h g
       ++ Tspl.bitmap_line x y (Bitmap.width_bytes width) height)) self Hc) as W1.
  pose proof (send_raw_is_connected dev
    (PyStr.encode_utf8 (Tspl.header w h g
       ++ Tspl.bitmap_line x y (Bitmap.width_bytes width) height)) self) as C1.
  destruct (send_raw dev _ self) as [r1 s1]. cbn [snd] in W1, C1.
  rewrite Hc in C1.
  pose proof (send_raw_writes dev
    (Bitmap.encode width height (load (PIL.as_1bit image))) s1 C1) as W2.
  pose proof (send_raw_is_connected dev
    (Bitmap.encode width height (load (PIL.as_1bit image))) s1) as C2.
  destruct (send_raw dev _ s1) as [r2 s2]. cbn [snd] in W2, C2.
  rewrite C1 in C2.
  pose proof (send_raw_writes dev (PyStr.encode_utf8 Tspl.print_cmd) s2 C2) as W3.
  destruct (send_raw dev _ s2) as [r3 s3]. cbn [fst snd] in *.
  split; [ reflexivity | ].
  rewrite W3, W2, W1, <- !app_assoc. reflexivity.
Qed.

(** [print_pdf] on a readable document hands the processed first page to
    [print_image_tspl]. *)
Lemma print_pdf_prints_processed image rest final_image
    w h g dpi rot crop inv manual flip (self : Printer) :
  is_connected self = true ->
  Pipeline.process _crop_to_label image w h dpi rot crop inv manual flip
    = Some final_image ->
  print_pdf true dev load _crop_to_label
            (Document (Some image :: rest)) w h g dpi rot crop inv manual flip self
  = print_image_tspl true dev load final_image w h g 0 0 self.
Proof.
  intros Hc Hp. unfold print_pdf. cbn [negb]. rewrite Hc. cbn [negb].
  now rewrite Hp.
Qed.

End Raster.

(** C1 at a failing input. The printer is connected and the link is then
    lost, so that every [write] raises [SerialException]. [print_image_tspl]
    on a white 8 x 1 image still attempts all three writes, in order, and
    returns [True]: the failed header write neither stops the payload and
    PRINT writes nor turns the result into a failure. *)
Theorem print_image_tspl_ignores_failed_write :
  BluetoothPrinter.print_image_tspl true Examples.dev_link_lost Examples.load_fill
    Examples.white_8x1 100 150 2 0 0 Examples.connected
  = (true,
     {| connection := Some (mkSerial true);
        trace :=
          trace Examples.connected
          ++ [ EvWrite (PyStr.encode_utf8
                          (Tspl.header 100 150 2 ++ "BITMAP 0,0,1,1,0,"))
                       SerialException;
               EvWrite [0] SerialException;
               EvWrite (PyStr.encode_utf8 Tspl.print_cmd) SerialException ] |}).
Proof. vm_compute. reflexivity. Qed.

(** The sibling path does check its first write: in ESC/POS mode
    [print_label] stops and returns [False] when sending the text fails. *)
Lemma print_label_aborts_on_failed_write :
  BluetoothPrinter.print_label Examples.dev_link_lost "Hi" true 3 true false
    40 30 2 Examples.connected
  = (false,
     {| connection := Some (mkSerial true);
        trace := trace Examples.connected
                 ++ [EvWrite [72; 105; 10] SerialException] |}).
Proof. vm_compute. reflexivity. Qed.

(** And so does [print_label_tspl], which returns what [send_text] returns. *)
Lemma print_label_tspl_reports_failed_write :
  fst (BluetoothPrinter.print_label_tspl Examples.dev_link_lost "Hi" 40 30 2
         "2" 10 10 Examples.connected) = false.
Proof. vm_compute. reflexivity. Qed.

(** C5 as stated fails: [print_pdf] prints a one-page document on a
    connected printer, returns [True], and the serial handle is still open. *)
Lemma print_pdf_leaves_connection_open :
  fst (BluetoothPrinter.print_pdf true Examples.dev_ok Examples.load_fill
         Examples.no_crop (BluetoothPrinter.Document [Some Examples.letter_page])
         101 152 2 203 true false true None false Examples.connected) = true /\
  BluetoothPrinter.is_connected
    (snd (BluetoothPrinter.print_pdf true Examples.dev_ok Examples.load_fill
            Examples.no_crop (BluetoothPrinter.Document [Some Examples.letter_page])
            101 152 2 203 true false true None false Examples.connected)) = true.
Proof.
  split.
  - erewrite print_pdf_prints_processed;
      [ | reflexivity | vm_compute; reflexivity ].
    apply print_image_tspl_three_writes. reflexivity.
  - unfold BluetoothPrinter.is_connected.
    now rewrite print_pdf_keeps_connection.
Qed.

(** [_do_print] on a printer just constructed, when a call on the widgets
    raises after [connect] has succeeded: the handle stays open. *)
Lemma _do_print_leaves_handle_open :
  BluetoothPrinter.is_connected
    (snd (BluetoothPrinter._do_print Examples.dev_ok (mkWidgets true false)
            (BluetoothPrinter.call true Examples.dev_ok Examples.load_fill
               Examples.no_crop (BluetoothPrinter.CallSendRaw [65]))
            Examples.fresh)) = true.
Proof. vm_compute. reflexivity. Qed.

(** ** The text-label command *)

Section TextLabel.
Import PyStr Tspl.
Local Open Scope string_scope.

Lemma append_assoc (s1 s2 s3 : string) : (s1 ++ s2) ++ s3 = s1 ++ (s2 ++ s3).
Proof. induction s1 as [| c s1 IH]; cbn; [ reflexivity | now rewrite IH ]. Qed.

Lemma append_nil_r (s : string) : s ++ EmptyString = s.
Proof. induction s as [| c s IH]; cbn; [ reflexivity | now rewrite IH ]. Qed.

(** The loop over the lines, in closed form: the lines that [strip()] leaves
    non-empty are kept, in order, and each moves [current_y] by 40. *)
Lemma fold_text_step (x : Z) (font : string) (lines : list string) :
  forall (tspl_cmd : string) (current_y : Z),
  fold_left (text_step x font) lines (tspl_cmd, current_y) =
    (tspl_cmd ++ text_lines x current_y font (filter strip_truthy lines),
     (current_y + 40 * Z.of_nat (List.length (filter strip_truthy lines)))%Z).
Proof.
  induction lines as [| line lines IH]; intros tspl_cmd current_y.
  - cbn. now rewrite append_nil_r, Z.add_0_r.
  - cbn [fold_left filter]. unfold text_step at 2.
    destruct (strip_truthy line).
    + rewrite IH. cbn [text_lines List.length].
      rewrite !append_assoc. f_equal. lia.
    + apply IH.
Qed.

Lemma split_from_nonempty (text acc : string) : split_from acc text <> [].
Proof.
  revert acc. induction text as [| c text IH]; intros acc; cbn.
  - discriminate.
  - destruct (Ascii.eqb c "010"); [ discriminate | apply IH ].
Qed.

Lemma join_split_from (text : string) :
  forall acc, join_lines (split_from acc text) = acc ++ text.
Proof.
  induction text as [| c text IH]; intros acc; cbn [split_from].
  - cbn. now rewrite append_nil_r.
  - destruct (Ascii.eqb c "010") eqn:E.
    + apply Ascii.eqb_eq in E. subst c.
      pose proof (split_from_nonempty text EmptyString) as Hne.
      specialize (IH EmptyString).
      destruct (split_from EmptyString text) as [| l ls]; [ congruence | ].
      change (join_lines (acc :: l :: ls))
        with (acc ++ LF ++ join_lines (l :: ls)).
      rewrite IH. reflexivity.
    + rewrite IH, append_assoc. reflexivity.
Qed.

(** The lines are those of the input: joined by LF they give it back. *)
Lemma join_split_lines (text : string) : join_lines (split_lines text) = text.
Proof. unfold split_lines. now rewrite join_split_from. Qed.

Lemma escape_quotes_head (line : string) :
  forall rest, escape_quotes line <> String dquote rest.
Proof.
  destruct line as [| c line]; cbn; intros rest; [ discriminate | ].
  destruct (Ascii.eqb c dquote) eqn:E; [ discriminate | ].
  intros H. injection H as Hc _. subst c. discriminate.
Qed.

(** Escaping loses nothing: dropping the added backslashes gives the line
    back. *)
Lemma unescape_escape (line : string) :
  unescape_quotes (escape_quotes line) = line.
Proof.
  induction line as [| c line IH]; [ reflexivity | ].
  cbn [escape_quotes].
  destruct (Ascii.eqb c dquote) eqn:E.
  - apply Ascii.eqb_eq in E. subst c. cbn. now rewrite IH.
  - cbn [unescape_quotes].
    pose proof (escape_quotes_head line) as Hh.
    destruct (escape_quotes line) as [| d rest] eqn:El.
    + destruct line; [ reflexivity | ].
      cbn in El. destruct (Ascii.eqb a dquote); discriminate.
    + assert (Hd : Ascii.eqb d dquote = false).
      { apply Ascii.eqb_neq. intros ->. now apply (Hh rest). }
      rewrite Hd, andb_false_r. now rewrite IH.
Qed.

(** C4, as the code has it. The command is the SIZE, GAP, DIRECTION 1 and
    CLS lines, each ended by LF alone; then one TEXT line for every line of
    the input that is not made of white space only, in order, the first at
    [y] and each next one 40 dots lower, with every double quote of the line
    preceded by a backslash; then PRINT 1; then an empty line. *)
Theorem label_cmd_closed_form (text : string)
    (label_width_mm label_height_mm gap_mm : Z) (font : string) (x y : Z) :
  label_cmd text label_width_mm label_height_mm gap_mm font x y =
    "SIZE " ++ Py.str label_width_mm ++ " mm, "
            ++ Py.str label_height_mm ++ " mm" ++ LF
    ++ "GAP " ++ Py.str gap_mm ++ " mm, 0 mm" ++ LF
    ++ "DIRECTION 1" ++ LF
    ++ "CLS" ++ LF
    ++ text_lines x y font (filter strip_truthy (split_lines text))
    ++ "PRINT 1" ++ LF
    ++ LF.
Proof.
  unfold label_cmd. rewrite fold_text_step. unfold header.
  rewrite !append_assoc. reflexivity.
Qed.

End TextLabel.

(** C4 as stated fails on a line that is not empty but blank. The input is
    one space: its only line is that space, which is not the empty string,
    and the command has no TEXT line at all, where one TEXT line per
    non-empty line would give [TEXT 10,10,"2",0,1,1," "]. *)
Lemma blank_line_gets_no_text_line :
  PyStr.split_lines Examples.one_space = [Examples.one_space] /\
  Examples.one_space <> EmptyString /\
  Tspl.label_cmd Examples.one_space 40 30 2 "2" 10 10
  = (Tspl.header 40 30 2 ++ "PRINT 1" ++ PyStr.LF ++ PyStr.LF)%string /\
  Tspl.label_cmd_nonempty Examples.one_space 40 30 2 "2" 10 10
  = (Tspl.header 40 30 2
     ++ Tspl.text_line 10 10 "2" Examples.one_space
     ++ "PRINT 1" ++ PyStr.LF ++ PyStr.LF)%string /\
  Tspl.label_cmd Examples.one_space 40 30 2 "2" 10 10
  <> Tspl.label_cmd_nonempty Examples.one_space 40 30 2 "2" 10 10.
Proof.
  split; [ reflexivity | ].
  split; [ discriminate | ].
  split; [ vm_compute; reflexivity | ].
  split; [ vm_compute; reflexivity | ].
  apply String.eqb_neq. vm_compute. reflexivity.
Qed.

(** ** The bitmap encoder *)

Section Encoder.
Import Bitmap.

Variable pixels : PixelAccess.
Variable width : Z.

Lemma set_bit_eq (row byte_col byte_val bit : Z) :
  set_bit pixels width row byte_col byte_val bit =
    if is_ink pixels width row byte_col bit
    then Z.lor byte_val (Z.shiftl 1 (7 - bit)) else byte_val.
Proof.
  unfold set_bit, is_ink.
  destruct (byte_col * 8 + bit <? width); cbn; [ | reflexivity ].
  destruct (pixels (byte_col * 8 + bit) row =? 0); reflexivity.
Qed.

(** A byte is the sum of its eight bits, most significant first. *)
Lemma pack_byte_sum (row byte_col : Z) :
  pack_byte pixels width row byte_col =
    128 * Z.b2z (is_ink pixels width row byte_col 0)
    + 64 * Z.b2z (is_ink pixels width row byte_col 1)
    + 32 * Z.b2z (is_ink pixels width row byte_col 2)
    + 16 * Z.b2z (is_ink pixels width row byte_col 3)
    + 8 * Z.b2z (is_ink pixels width row byte_col 4)
    + 4 * Z.b2z (is_ink pixels width row byte_col 5)
    + 2 * Z.b2z (is_ink pixels width row byte_col 6)
    + Z.b2z (is_ink pixels width row byte_col 7).
Proof.
  unfold pack_byte.
  change (Py.range 8) with [0; 1; 2; 3; 4; 5; 6; 7].
  cbn [fold_left]. rewrite !set_bit_eq.
  destruct (is_ink pixels width row byte_col 0),
           (is_ink pixels width row byte_col 1),
           (is_ink pixels width row byte_col 2),
           (is_ink pixels width row byte_col 3),
           (is_ink pixels width row byte_col 4),
           (is_ink pixels width row byte_col 5),
           (is_ink pixels width row byte_col 6),
           (is_ink pixels width row byte_col 7); reflexivity.
Qed.

Lemma pack_byte_range (row byte_col : Z) :
  0 <= pack_byte pixels width row byte_col < 256.
Proof.
  rewrite pack_byte_sum.
  destruct (is_ink pixels width row byte_col 0),
           (is_ink pixels width row byte_col 1),
           (is_ink pixels width row byte_col 2),
           (is_ink pixels width row byte_col 3),
           (is_ink pixels width row byte_col 4),
           (is_ink pixels width row byte_col 5),
           (is_ink pixels width row byte_col 6),
           (is_ink pixels width row byte_col 7); cbn; lia.
Qed.

(** Bit [7 - bit] of the byte is the ink test of pixel [8 * byte_col + bit]. *)
Lemma pack_byte_testbit (row byte_col bit : Z) :
  0 <= bit < 8 ->
  Z.testbit (pack_byte pixels width row byte_col) (7 - bit)
  = is_ink pixels width row byte_col bit.
Proof.
  intros Hb. rewrite pack_byte_sum.
  assert (Hcases : bit = 0 \/ bit = 1 \/ bit = 2 \/ bit = 3 \/ bit = 4
                   \/ bit = 5 \/ bit = 6 \/ bit = 7) by lia.
  destruct (is_ink pixels width row byte_col 0) eqn:E0,
           (is_ink pixels width row byte_col 1) eqn:E1,
           (is_ink pixels width row byte_col 2) eqn:E2,
           (is_ink pixels width row byte_col 3) eqn:E3,
           (is_ink pixels width row byte_col 4) eqn:E4,
           (is_ink pixels width row byte_col 5) eqn:E5,
           (is_ink pixels width row byte_col 6) eqn:E6,
           (is_ink pixels width row byte_col 7) eqn:E7;
    decompose [or] Hcases; subst bit;
    first [ rewrite E0 | rewrite E1 | rewrite E2 | rewrite E3
          | rewrite E4 | rewrite E5 | rewrite E6 | rewrite E7 ];
    reflexivity.
Qed.

(** The two nested loops build the rows one after the other, each row its
    bytes from left to right. *)
Lemma fold_append_byte (row : Z) (cols : list Z) :
  forall bitmap_data,
  fold_left (append_byte pixels width row) cols bitmap_data
  = bitmap_data ++ map (pack_byte pixels width row) cols.
Proof.
  induction cols as [| c cols IH]; intros acc; cbn.
  - now rewrite app_nil_r.
  - rewrite IH. unfold append_byte. now rewrite <- app_assoc.
Qed.

Lemma fold_append_row (rows : list Z) :
  forall bitmap_data,
  fold_left (append_row pixels width) rows bitmap_data
  = bitmap_data
    ++ flat_map (fun row => map (pack_byte pixels width row)
                                (Py.range (width_bytes width))) rows.
Proof.
  induction rows as [| r rows IH]; intros acc; cbn.
  - now rewrite app_nil_r.
  - rewrite IH. unfold append_row. rewrite fold_append_byte.
    now rewrite <- app_assoc.
Qed.

Lemma encode_rows (height : Z) :
  encode width height pixels =
    flat_map (fun row => map (pack_byte pixels width row)
                             (Py.range (width_bytes width)))
             (Py.range height).
Proof. unfold encode. now rewrite fold_append_row. Qed.

End Encoder.

Section Blocks.

Context {A : Type}.
Variable f : Z -> list A.
Variable k : nat.
Hypothesis block_length : forall z, List.length (f z) = k.

Lemma length_blocks (rows : list Z) :
  List.length (flat_map f rows) = (List.length rows * k)%nat.
Proof.
  induction rows as [| r rows IH]; cbn; [ reflexivity | ].
  now rewrite length_app, block_length, IH.
Qed.

Lemma nth_error_blocks (rows : list Z) :
  forall r c row, (c < k)%nat -> nth_error rows r = Some row ->
  nth_error (flat_map f rows) (r * k + c) = nth_error (f row) c.
Proof.
  induction rows as [| x rows IH]; intros r c row Hc Hr.
  - destruct r; discriminate.
  - destruct r as [| r]; cbn in Hr.
    + injection Hr as ->. cbn.
      apply nth_error_app1. now rewrite block_length.
    + cbn [flat_map].
      rewrite nth_error_app2 by (rewrite block_length; cbn; lia).
      rewrite block_length.
      replace (S r * k + c - k)%nat with (r * k + c)%nat by (cbn; lia).
      now apply IH.
Qed.

End Blocks.

Lemma length_range (n : Z) : List.length (Py.range n) = Z.to_nat n.
Proof. unfold Py.range. now rewrite length_map, length_seq. Qed.

Lemma nth_error_range (n i : Z) :
  0 <= i < n -> nth_error (Py.range n) (Z.to_nat i) = Some i.
Proof.
  intros Hi. unfold Py.range.
  rewrite nth_error_map.
  assert (Hs : forall len a j, (j < len)%nat ->
                 nth_error (seq a len) j = Some (a + j)%nat).
  { induction len as [| len IH]; intros a j Hj; [ lia | ].
    destruct j as [| j]; cbn; [ f_equal; lia | ].
    rewrite IH by lia. f_equal. lia. }
  rewrite Hs by lia. cbn. f_equal. lia.
Qed.

Lemma in_range (n i : Z) : In i (Py.range n) -> 0 <= i < n.
Proof.
  unfold Py.range. rewrite in_map_iff.
  intros [j [<- Hj]]. apply in_seq in Hj. lia.
Qed.

Section EncoderSpec.
Import Bitmap.

Variable pixels : PixelAccess.
Variables width height : Z.
Hypothesis width_nonneg : 0 <= width.
Hypothesis height_nonneg : 0 <= height.

Lemma width_bytes_ceil :
  8 * (width_bytes width - 1) < width <= 8 * width_bytes width.
Proof. unfold width_bytes. Z.div_mod_to_equations. lia. Qed.

Lemma row_length (row : Z) :
  List.length (map (pack_byte pixels width row) (Py.range (width_bytes width)))
  = Z.to_nat (width_bytes width).
Proof. now rewrite length_map, length_range. Qed.

Lemma encode_length :
  Z.of_nat (List.length (encode width height pixels)) = width_bytes width * height.
Proof.
  rewrite encode_rows.
  rewrite (length_blocks _ _ row_length), length_range.
  pose proof width_bytes_ceil. nia.
Qed.

Lemma encode_nth (row col : Z) :
  0 <= row < height -> 0 <= col < width_bytes width ->
  nth_error (encode width height pixels)
            (Z.to_nat (row * width_bytes width + col))
  = Some (pack_byte pixels width row col).
Proof.
  intros Hr Hc. rewrite encode_rows.
  replace (Z.to_nat (row * width_bytes width + col))
    with (Z.to_nat row * Z.to_nat (width_bytes width) + Z.to_nat col)%nat by nia.
  rewrite (nth_error_blocks _ _ row_length _ _ _ row);
    [ | lia | now apply nth_error_range ].
  rewrite nth_error_map, nth_error_range by exact Hc. reflexivity.
Qed.

Lemma encode_in (byte : Z) :
  In byte (encode width height pixels) ->
  exists row col, 0 <= row < height /\ 0 <= col < width_bytes width
                  /\ byte = pack_byte pixels width row col.
Proof.
  rewrite encode_rows, in_flat_map.
  intros [row [Hrow Hin]]. apply in_map_iff in Hin.
  destruct Hin as [col [<- Hcol]].
  exists row, col. auto using in_range.
Qed.

(** A byte with no ink under it is 0. *)
Lemma pack_byte_background (row col : Z) :
  (forall bit, 0 <= bit < 8 -> is_ink pixels width row col bit = false) ->
  pack_byte pixels width row col = 0.
Proof.
  intros H. rewrite pack_byte_sum. rewrite !H by lia. reflexivity.
Qed.

(** A byte with ink under every pixel it covers: ones for the pixels of the
    row, zeros for the bits past its end. *)
Lemma pack_byte_ink (row col : Z) :
  0 <= col < width_bytes width ->
  (forall bit, 0 <= bit < 8 -> col * 8 + bit < width ->
               pixels (col * 8 + bit) row = 0) ->
  pack_byte pixels width row col = ink_byte width col.
Proof.
  intros Hc Hink.
  assert (Hbit : forall bit, 0 <= bit < 8 ->
            is_ink pixels width row col bit = (bit <? width - col * 8)).
  { intros bit Hb. unfold is_ink.
    destruct (Z.ltb_spec (col * 8 + bit) width) as [Hlt | Hge].
    - rewrite (Hink bit Hb Hlt). cbn. symmetry. apply Z.ltb_lt. lia.
    - cbn. symmetry. apply Z.ltb_ge. lia. }
  rewrite pack_byte_sum. rewrite !Hbit by lia.
  unfold ink_byte.
  pose proof width_bytes_ceil as Hw.
  destruct (Z.leb_spec ((col + 1) * 8) width) as [Hfull | Hpart].
  - assert (Hm : 8 <= width - col * 8) by lia.
    repeat match goal with
           | |- context [?b <? width - col * 8] =>
               replace (b <? width - col * 8) with true
                 by (symmetry; apply Z.ltb_lt; lia)
           end.
    reflexivity.
  - replace ((col + 1) * 8 - width) with (8 - (width - col * 8)) by lia.
    assert (Hm : width - col * 8 = 1 \/ width - col * 8 = 2
                 \/ width - col * 8 = 3 \/ width - col * 8 = 4
                 \/ width - col * 8 = 5 \/ width - col * 8 = 6
                 \/ width - col * 8 = 7) by lia.
    decompose [or] Hm;
      match goal with H : width - col * 8 = _ |- _ => rewrite H end;
      reflexivity.
Qed.

Lemma ink_byte_full (col : Z) :
  (col + 1) * 8 <= width -> ink_byte width col = 255.
Proof. intros H. unfold ink_byte. now rewrite (proj2 (Z.leb_le _ _) H). Qed.

Lemma ink_byte_last :
  width mod 8 <> 0 ->
  ink_byte width (width_bytes width - 1) = 255 - (2 ^ (8 - width mod 8) - 1).
Proof.
  intros Hm. unfold ink_byte, width_bytes.
  assert (Hlast : ((width + 7) / 8 - 1 + 1) * 8 - width = 8 - width mod 8)
    by (Z.div_mod_to_equations; lia).
  destruct (Z.leb_spec (((width + 7) / 8 - 1 + 1) * 8) width) as [Hle | Hgt].
  - Z.div_mod_to_equations. lia.
  - rewrite Hlast. lia.
Qed.

End EncoderSpec.

(** C2. For an image of width [w] and height [h], the encoder produces
    [ceil(w / 8)] bytes per row and [ceil(w / 8) * h] bytes in all, row
    after row; bit [7 - k] of byte [c] of a row is 1 exactly when pixel
    [8 * c + k] of that row exists and is black, so the bits past the end of
    a row are 0; an image with no black pixel gives zero bytes only; an all
    black image gives 0xFF everywhere except in the last byte of each row
    when [w] is not a multiple of 8, where the [8 - w mod 8] unused low bits
    are 0. The byte counts of widths 1, 7, 8, 9 and 800 are 1, 1, 1, 2 and
    100. *)
Theorem bitmap_encode_spec (pixels : Bitmap.PixelAccess) (width height : Z) :
  0 <= width -> 0 <= height ->
  let wb := Bitmap.width_bytes width in
  let data := Bitmap.encode width height pixels in
  8 * (wb - 1) < width <= 8 * wb /\
  Z.of_nat (List.length data) = wb * height /\
  (forall row col, 0 <= row < height -> 0 <= col < wb ->
     exists byte,
       nth_error data (Z.to_nat (row * wb + col)) = Some byte /\
       0 <= byte < 256 /\
       forall bit, 0 <= bit < 8 ->
         Z.testbit byte (7 - bit)
         = (col * 8 + bit <? width) && (pixels (col * 8 + bit) row =? 0)) /\
  ((forall x y, 0 <= x < width -> 0 <= y < height -> pixels x y <> 0) ->
   forall byte, In byte data -> byte = 0) /\
  ((forall x y, 0 <= x < width -> 0 <= y < height -> pixels x y = 0) ->
   forall row col, 0 <= row < height -> 0 <= col < wb ->
     nth_error data (Z.to_nat (row * wb + col))
     = Some (Bitmap.ink_byte width col)) /\
  (forall col, (col + 1) * 8 <= width -> Bitmap.ink_byte width col = 255) /\
  (width mod 8 <> 0 ->
   Bitmap.ink_byte width (wb - 1) = 255 - (2 ^ (8 - width mod 8) - 1)) /\
  map Bitmap.width_bytes [1; 7; 8; 9; 800] = [1; 1; 1; 2; 100].
Proof.
  intros Hw Hh wb data. subst wb data.
  split; [ now apply width_bytes_ceil | ].
  split; [ now apply encode_length | ].
  split.
  { intros row col Hr Hc. exists (Bitmap.pack_byte pixels width row col).
    split; [ now apply encode_nth | ].
    split; [ apply pack_byte_range | ].
    intros bit Hb. now apply pack_byte_testbit. }
  split.
  { intros Hbg byte Hin.
    destruct (encode_in pixels width height byte Hin)
      as [row [col [Hr [Hc ->]]]].
    apply pack_byte_background. intros bit Hb. unfold Bitmap.is_ink.
    destruct (Z.ltb_spec (col * 8 + bit) width) as [Hlt | Hge];
      [ | reflexivity ].
    cbn. apply Z.eqb_neq. apply Hbg; lia. }
  split.
  { intros Hink row col Hr Hc.
    rewrite encode_nth by assumption. f_equal.
    apply pack_byte_ink; try assumption.
    intros bit Hb Hlt. apply Hink; lia. }
  split; [ intros col; apply ink_byte_full | ].
  split; [ apply ink_byte_last | reflexivity ].
Qed.

(** The encoder run on a 9 x 2 bitmap: row 0 is all ink and gives 0xFF then
    0x80, row 1 has ink in its last column only and gives 0x00 then 0x80. *)
Lemma encode_9x2 : Bitmap.encode 9 2 Examples.pixels_9x2 = [255; 128; 0; 128].
Proof. vm_compute. reflexivity. Qed.

(** C2 on the 9 x 2 bitmap: four bytes, two per row. *)
Lemma bitmap_encode_spec_witness :
  Z.of_nat (List.length (Bitmap.encode 9 2 Examples.pixels_9x2)) = 2 * 2 /\
  Bitmap.ink_byte 9 (Bitmap.width_bytes 9 - 1) = 128.
Proof.
  pose proof (bitmap_encode_spec Examples.pixels_9x2 9 2
                ltac:(lia) ltac:(lia)) as H.
  cbv zeta in H.
  destruct H as [_ [Hlen [_ [_ [_ [_ [Hlast _]]]]]]].
  split; [ exact Hlen | ].
  rewrite Hlast by discriminate. reflexivity.
Defined.

(** ** Checks over a range of integers *)

Lemma check_sound (p : Z -> bool) (n : nat) :
  forall lo, Range.check p lo n = true ->
  forall z, lo <= z < lo + Z.of_nat n -> p z = true.
Proof.
  induction n as [| n IH]; intros lo Hc z Hz; [ lia | ].
  cbn [Range.check] in Hc. apply andb_prop in Hc. destruct Hc as [Hlo Hrest].
  destruct (Z.eq_dec z lo) as [-> | Hne]; [ exact Hlo | ].
  apply (IH (lo + 1) Hrest). lia.
Qed.

Lemma check_blocks_sound (p : Z -> bool) (n blocks : nat) :
  forall lo, Range.check_blocks p lo n blocks = true ->
  forall z, lo <= z < lo + Z.of_nat n * Z.of_nat blocks -> p z = true.
Proof.
  induction blocks as [| b IH]; intros lo Hc z Hz; [ lia | ].
  cbn [Range.check_blocks] in Hc. apply andb_prop in Hc.
  destruct Hc as [Hblock Hrest].
  destruct (Z_lt_dec z (lo + Z.of_nat n)) as [Hlt | Hge].
  - apply (check_sound p n lo Hblock). lia.
  - apply (IH (lo + Z.of_nat n) Hrest). lia.
Qed.

Lemma option_Z_eqb_eq (a : option Z) (b : Z) :
  Range.option_Z_eqb a b = true -> a = Some b.
Proof.
  destruct a as [v | ]; cbn; [ | discriminate ].
  intros H. apply Z.eqb_eq in H. now subst.
Qed.

(** ** Target dots *)

Section TargetDots.
Import Pipeline.

(** Evaluated with binary64 arithmetic on every product below 2^17. *)
Lemma dots_checked : Range.check_blocks Range.dots_ok 0 1024 128 = true.
Proof. vm_compute. reflexivity. Qed.

Lemma target_dots_floor (mm dpi : Z) :
  0 <= mm * dpi < 131072 ->
  target_dots mm dpi = Some (mm * dpi * 5 / 127).
Proof.
  intros Hn.
  pose proof (check_blocks_sound _ _ _ _ dots_checked (mm * dpi)) as H.
  unfold Range.dots_ok in H.
  apply option_Z_eqb_eq in H; [ | cbn; lia ].
  unfold target_dots in *. now rewrite Z.mul_1_l in H.
Qed.

(** C3, as the code has it. For a LabelSpec with positive [mm] and [dpi]
    (and [mm * dpi] below 2^17), the target dot count is
    [int(mm * dpi / 25.4)]: the quotient cut down to an integer, not rounded
    to the nearest one. It is the nearest integer or the one below it. *)
Theorem target_dots_truncates (mm dpi : Z) :
  0 < mm -> 0 < dpi -> mm * dpi < 131072 ->
  exists dots,
    target_dots mm dpi = Some dots /\
    127 * dots <= 5 * (mm * dpi) < 127 * (dots + 1) /\
    dots <= round_dots mm dpi <= dots + 1.
Proof.
  intros Hmm Hdpi Hlt.
  exists (mm * dpi * 5 / 127).
  split; [ apply target_dots_floor; nia | ].
  unfold round_dots. split; Z.div_mod_to_equations; nia.
Qed.

End TargetDots.

(** C3 on the default label: 101 mm and 152 mm at 203 dpi give 807 and 1214
    dots. *)
Lemma target_dots_truncates_witness :
  Pipeline.target_dots 101 203 = Some 807 /\
  Pipeline.target_dots 152 203 = Some 1214.
Proof.
  destruct (target_dots_truncates 101 203)
    as [w [Hw [Hw1 _]]]; [ lia | lia | lia | ].
  destruct (target_dots_truncates 152 203)
    as [h [Hh [Hh1 _]]]; [ lia | lia | lia | ].
  replace 807 with w by lia. replace 1214 with h by lia.
  split; assumption.
Defined.

(** C3 as stated fails on the default label. 152 mm at 203 dpi is 1214.8
    dots: rounding gives 1215, the code gives 1214; and the pair the code
    computes is (807, 1214), not (808, 1216). *)
Lemma target_dots_not_rounded :
  Pipeline.target_dots 152 203 = Some 1214 /\
  Pipeline.round_dots 152 203 = 1215 /\
  Pipeline.target_dots 101 203 = Some 807 /\
  Pipeline.round_dots 101 203 = 807 /\
  (Pipeline.target_dots 101 203, Pipeline.target_dots 152 203)
  <> (Some 808, Some 1216).
Proof.
  repeat split; try (vm_compute; reflexivity).
  vm_compute. discriminate.
Qed.

(** ** Manual crop, first application *)

Section ManualCrop.
Import PIL Pipeline.

Variable _crop_to_label : Image -> Image.

(** [render_dpi / 150.0] is 2.0, whatever the printer resolution. *)
Lemma scale_factor_is_two : scale_factor = Some 2%float.
Proof. vm_compute. reflexivity. Qed.

(** Evaluated with binary64 arithmetic on every coordinate from -16384 to
    16383. *)
Lemma doubling_checked :
  Range.check_blocks Range.doubling_ok (-16384) 1024 32 = true.
Proof. vm_compute. reflexivity. Qed.

Lemma rescale_doubles (v : Z) :
  -16384 <= v < 16384 -> rescale v 2 = Some (2 * v).
Proof.
  intros Hv. apply option_Z_eqb_eq.
  apply (check_blocks_sound _ _ _ _ doubling_checked v). cbn. lia.
Qed.

Lemma clamp_bounds (v bound : Z) : 0 <= bound -> 0 <= clamp v bound <= bound.
Proof. unfold clamp. lia. Qed.

Lemma clamp_inside (v bound : Z) : 0 <= v <= bound -> clamp v bound = v.
Proof. unfold clamp. lia. Qed.

Lemma manual_box_doubles (image : Image) (l t r b : Z) :
  -16384 <= l < 16384 -> -16384 <= t < 16384 ->
  -16384 <= r < 16384 -> -16384 <= b < 16384 ->
  manual_box image (l, t, r, b)
  = Some (clamp (2 * l) (width image), clamp (2 * t) (height image),
          clamp (2 * r) (width image), clamp (2 * b) (height image)).
Proof.
  intros Hl Ht Hr Hb. unfold manual_box.
  rewrite scale_factor_is_two. cbn [try_bind].
  rewrite !rescale_doubles by assumption. reflexivity.
Qed.

(** C8, as the code has it. A manual crop takes precedence over the
    automatic one. Its coordinates (here between -16384 and 16383) are each
    multiplied by exactly [render_dpi / 150 = 2], the fixed 300 dpi at which
    the page is rendered over the 150 dpi of the preview, the printer
    resolution playing no part. They are then clamped to the page image, so
    the box always lies inside it and nothing is raised; the image is
    cropped to the box when the box has a positive area and left as it is
    otherwise. *)
Theorem manual_crop_rescaled (image : Image) (l t r b : Z) (auto_crop : bool) :
  -16384 <= l < 16384 -> -16384 <= t < 16384 ->
  -16384 <= r < 16384 -> -16384 <= b < 16384 ->
  0 <= width image -> 0 <= height image ->
  let left_ := clamp (2 * l) (width image) in
  let top := clamp (2 * t) (height image) in
  let right_ := clamp (2 * r) (width image) in
  let bottom := clamp (2 * b) (height image) in
  crop_stage _crop_to_label image (Some (l, t, r, b)) auto_crop
  = Some (if (right_ >? left_) && (bottom >? top)
          then Crop image (left_, top, right_, bottom) else image) /\
  0 <= left_ <= width image /\ 0 <= right_ <= width image /\
  0 <= top <= height image /\ 0 <= bottom <= height image /\
  (0 <= 2 * l <= width image -> left_ = 2 * l) /\
  (0 <= 2 * r <= width image -> right_ = 2 * r) /\
  (0 <= 2 * t <= height image -> top = 2 * t) /\
  (0 <= 2 * b <= height image -> bottom = 2 * b).
Proof.
  intros Hl Ht Hr Hb Hw Hh left_ top right_ bottom.
  split.
  - unfold crop_stage. rewrite manual_box_doubles by assumption.
    cbn [try_bind box_valid]. fold left_ top right_ bottom.
    destruct ((right_ >? left_) && (bottom >? top)); reflexivity.
  - subst left_ top right_ bottom.
    repeat split; try (apply clamp_bounds; assumption);
      intros; apply clamp_inside; assumption.
Qed.

End ManualCrop.

(** C8 on a letter page rendered at 300 dpi (2550 x 3300): the box
    (100, 100, 500, 700) of the preview becomes (200, 200, 1000, 1400). *)
Lemma manual_crop_rescaled_witness :
  Pipeline.crop_stage Examples.no_crop Examples.letter_page
    (Some (100, 100, 500, 700)) true
  = Some (PIL.Crop Examples.letter_page (200, 200, 1000, 1400)).
Proof.
  pose proof (manual_crop_rescaled Examples.no_crop Examples.letter_page
                100 100 500 700 true) as H.
  cbv zeta in H.
  destruct H as [H _]; [ lia | lia | lia | lia | cbn; lia | cbn; lia | ].
  exact H.
Defined.

(** C8 as stated fails: with the printer at 203 dpi a coordinate of 100 is
    scaled to 200, that is by [300 / 150], where [203 / 150] would give
    135; and the box is the same at 203 dpi as at any other. *)
Lemma manual_crop_ignores_target_dpi :
  Pipeline.manual_box Examples.letter_page (100, 100, 500, 700)
  = Some (200, 200, 1000, 1400) /\
  Pipeline.rescale_by_target_dpi 100 203 = Some 135 /\
  Pipeline.process Examples.no_crop Examples.letter_page 101 152 203
    true true true (Some (100, 100, 500, 700)) false
  = Some (Pipeline.binarize_stage
            (PIL.Resize
               (PIL.Crop
                  (PIL.Paste (PIL.New PIL.ModeL (807, 1214) 255)
                     (PIL.Resize
                        (PIL.Crop (PIL.Convert PIL.ModeL Examples.letter_page)
                                  (200, 200, 1000, 1400))
                        (807, 1210))
                     (0, 2))
                  (100, 100, 500, 700))
               (807, 1214))
            true).
Proof. repeat split; vm_compute; reflexivity. Qed.

(** ** Auto-rotate, scaling and composition *)

Section Orientation.
Import PIL Pipeline.

Variable _crop_to_label : Image -> Image.






End Orientation.



(** ** Manual crop, second application *)

Section SecondCrop.
Import PIL Pipeline BluetoothPrinter.

Variable dev : Device.
Variable load : Image -> Bitmap.PixelAccess.
Variable _crop_to_label : Image -> Image.

(** A box with a positive area inside the canvas needs a canvas of at least
    one dot each way. *)
Lemma final_box_valid_canvas (coords : Box) (tw th : Z) :
  box_valid (final_box coords tw th) = true -> 1 <= tw /\ 1 <= th.
Proof.
  destruct coords as [[[l t] r] b]. unfold final_box, box_valid, clamp.
  intros H. apply andb_prop in H. destruct H as [Hx Hy].
  apply Z.gtb_lt in Hx, Hy. lia.
Qed.

Lemma centered_eq (image : Image) (tw th nw nh : Z) :
  0 <= tw -> 0 <= th ->
  centered image tw th nw nh
  = Some (Paste (New ModeL (tw, th) 255) image ((tw - nw) / 2, (th - nh) / 2)).
Proof.
  intros Hw Hh. unfold centered, new.
  replace (tw <? 0) with false by (symmetry; apply Z.ltb_ge; lia).
  replace (th <? 0) with false by (symmetry; apply Z.ltb_ge; lia).
  reflexivity.
Qed.

Lemma resize_positive (image : Image) (w h : Z) :
  1 <= w -> 1 <= h -> resize image (w, h) = Some (Resize image (w, h)).
Proof.
  intros Hw Hh. unfold resize. destruct (size image) as [w0 h0].
  destruct ((w0 =? w) && (h0 =? h)); [ reflexivity | ].
  replace (w <? 1) with false by (symmetry; apply Z.ltb_ge; lia).
  replace (h <? 1) with false by (symmetry; apply Z.ltb_ge; lia).
  reflexivity.
Qed.

Lemma compose_stage_manual (scaled : Image) (coords : Box) (tw th nw nh : Z) :
  box_valid (final_box coords tw th) = true ->
  compose_stage scaled (Some coords) tw th nw nh
  = Some (Resize
            (Crop (Paste (New ModeL (tw, th) 255) scaled
                         ((tw - nw) / 2, (th - nh) / 2))
                  (final_box coords tw th))
            (tw, th)).
Proof.
  intros Hbox. destruct (final_box_valid_canvas coords tw th Hbox) as [Hw Hh].
  unfold compose_stage. rewrite Hbox.
  rewrite centered_eq by lia. cbn [try_bind].
  rewrite resize_positive by assumption. reflexivity.
Qed.

Lemma size_binarize_stage (image : Image) (invert : bool) :
  size (binarize_stage image invert) = size image.
Proof. destruct invert; reflexivity. Qed.

(** C10. When manual crop coordinates are given and the stages before the
    composition succeed, the same coordinates, not scaled this time, are
    clamped to the label canvas; if the clamped box has a positive area, the
    canvas with the scaled image pasted in its centre is cropped to that box
    and the crop is resized to the full canvas, whatever its proportions.
    The raster that is binarized and handed to [print_image_tspl] is that
    stretched region, of exactly the target dimensions. *)
Theorem manual_crop_reapplied
    (image : Image) (label_width_mm label_height_mm gap_mm dpi : Z)
    (auto_rotate auto_crop invert flip_vertical : bool) (l t r b : Z)
    (cropped rotated scaled : Image) (tw th img_w img_h new_width new_height : Z)
    (rest : list (option Image)) (self : Printer) :
  crop_stage _crop_to_label (grayscale image) (Some (l, t, r, b)) auto_crop
    = Some cropped ->
  target_dots label_width_mm dpi = Some tw ->
  target_dots label_height_mm dpi = Some th ->
  auto_rotate_stage cropped auto_rotate tw th = Some (rotated, img_w, img_h) ->
  scale_stage (flip_stage rotated flip_vertical) img_w img_h tw th
    = Some (scaled, new_width, new_height) ->
  (clamp r tw >? clamp l tw) && (clamp b th >? clamp t th) = true ->
  let composed :=
    Paste (New ModeL (tw, th) 255) scaled
          ((tw - new_width) / 2, (th - new_height) / 2) in
  let stretched :=
    Resize (Crop composed (clamp l tw, clamp t th, clamp r tw, clamp b th))
           (tw, th) in
  process _crop_to_label image label_width_mm label_height_mm dpi
          auto_rotate auto_crop invert (Some (l, t, r, b)) flip_vertical
  = Some (binarize_stage stretched invert) /\
  size (binarize_stage stretched invert) = (tw, th) /\
  (is_connected self = true ->
   print_pdf true dev load _crop_to_label (Document (Some image :: rest))
             label_width_mm label_height_mm gap_mm dpi
             auto_rotate auto_crop invert (Some (l, t, r, b)) flip_vertical self
   = print_image_tspl true dev load (binarize_stage stretched invert)
                      label_width_mm label_height_mm gap_mm 0 0 self).
Proof.
  intros Hcrop Htw Hth Hrot Hscale Hbox composed stretched.
  assert (Hprocess :
    process _crop_to_label image label_width_mm label_height_mm dpi
            auto_rotate auto_crop invert (Some (l, t, r, b)) flip_vertical
    = Some (binarize_stage stretched invert)).
  { unfold process. rewrite Hcrop. cbn [try_bind].
    rewrite Htw, Hth. cbn [try_bind]. rewrite Hrot. cbn [try_bind].
    rewrite Hscale. cbn [try_bind].
    rewrite compose_stage_manual by exact Hbox. reflexivity. }
  split; [ exact Hprocess | ].
  split; [ now rewrite size_binarize_stage | ].
  intros Hc. now apply print_pdf_prints_processed.
Qed.

End SecondCrop.

(** C10 on a letter page with the box (100, 100, 500, 700): the page is
    cropped to (200, 200, 1000, 1400), scaled to 807 x 1210 and centred on
    the 807 x 1214 canvas, and then the region (100, 100, 500, 700) of that
    canvas is stretched to 807 x 1214. *)
Lemma manual_crop_reapplied_witness :
  Pipeline.process Examples.no_crop Examples.letter_page 101 152 203
    true true true (Some (100, 100, 500, 700)) false
  = Some (Pipeline.binarize_stage
            (PIL.Resize
               (PIL.Crop
                  (PIL.Paste (PIL.New PIL.ModeL (807, 1214) 255)
                     (PIL.Resize
                        (PIL.Crop (PIL.Convert PIL.ModeL Examples.letter_page)
                                  (200, 200, 1000, 1400))
                        (807, 1210))
                     (0, 2))
                  (100, 100, 500, 700))
               (807, 1214))
            true).
Proof.
  pose proof (manual_crop_reapplied Examples.dev_ok Examples.load_fill
    Examples.no_crop Examples.letter_page 101 152 2 203 true true true false
    100 100 500 700
    (PIL.Crop (PIL.Convert PIL.ModeL Examples.letter_page) (200, 200, 1000, 1400))
    (PIL.Crop (PIL.Convert PIL.ModeL Examples.letter_page) (200, 200, 1000, 1400))
    (PIL.Resize
       (PIL.Crop (PIL.Convert PIL.ModeL Examples.letter_page) (200, 200, 1000, 1400))
       (807, 1210))
    807 1214 800 1200 807 1210 [] Examples.connected) as H.
  cbv zeta in H.
  destruct H as [H _]; [ vm_compute; reflexivity .. | exact H ].
Defined.

(* ================================================================== *)
(** * Part III: the rest of the bridge *)
(* ================================================================== *)

(** ** Refusals, closing and the shape of the trace *)

Section Transport.
Import BluetoothPrinter.

Variable PDF_SUPPORT : bool.
Variable dev : Device.
Variable load : PIL.Image -> Bitmap.PixelAccess.
Variable _crop_to_label : PIL.Image -> PIL.Image.

Lemma open_count_app (a b : list Event) :
  open_count (a ++ b) = (open_count a + open_count b)%nat.
Proof. unfold open_count. now rewrite filter_app, length_app. Qed.

Lemma close_count_app (a b : list Event) :
  close_count (a ++ b) = (close_count a + close_count b)%nat.
Proof. unfold close_count. now rewrite filter_app, length_app. Qed.

Lemma no_open_close_app (a b : list Event) :
  no_open_close a -> no_open_close b -> no_open_close (a ++ b).
Proof.
  unfold no_open_close. intros [Ha1 Ha2] [Hb1 Hb2].
  rewrite open_count_app, close_count_app. lia.
Qed.

Lemma only_sends_ret {A : Type} (a : A) : only_sends (ret a).
Proof.
  intros self. exists []. cbn. rewrite app_nil_r. now split.
Qed.

Lemma only_sends_bind {A B : Type} (c : M A) (k : A -> M B) :
  only_sends c -> (forall a, only_sends (k a)) -> only_sends (bind c k).
Proof.
  intros Hc Hk self. unfold bind.
  destruct (Hc self) as [a1 [H1 N1]]. destruct (c self) as [a self1].
  cbn [snd] in H1. destruct (Hk a self1) as [a2 [H2 N2]].
  exists (a1 ++ a2). rewrite H2, H1, app_assoc.
  split; [ reflexivity | now apply no_open_close_app ].
Qed.

Lemma only_sends_sleep (ms : Z) : only_sends (sleep ms).
Proof. intros self. exists [EvSleep ms]. now split. Qed.

Lemma only_sends_send_raw (data : list Z) : only_sends (send_raw dev data).
Proof.
  intros self. destruct (is_connected self) eqn:Hc.
  - rewrite send_raw_connected by exact Hc. cbn.
    eexists. split; [ reflexivity | ].
    destruct (is_okb _); now split.
  - rewrite send_raw_disconnected by exact Hc.
    exists []. cbn. rewrite app_nil_r. now split.
Qed.

Lemma only_sends_for_range {A : Type} (n : nat) (body : M A) :
  only_sends body -> only_sends (for_range n body).
Proof.
  intros Hb. induction n as [| n IH]; cbn.
  - apply only_sends_ret.
  - apply only_sends_bind; auto.
Qed.

Lemma only_sends_guard {A : Type} (g : Printer -> bool) (a : A) (c : M A) :
  only_sends c ->
  only_sends (fun self => if g self then (a, self) else c self).
Proof.
  intros Hc self. destruct (g self); [ | apply Hc ].
  exists []. cbn. rewrite app_nil_r. now split.
Qed.

Create HintDb sends.

#[local] Hint Resolve only_sends_ret only_sends_bind only_sends_sleep
  only_sends_send_raw only_sends_for_range : sends.

Lemma only_sends_send_text (text : string) : only_sends (send_text dev text).
Proof. apply only_sends_send_raw. Qed.

#[local] Hint Resolve only_sends_send_text : sends.

Lemma only_sends_initialize_printer : only_sends (initialize_printer dev).
Proof.
  unfold initialize_printer.
  apply (only_sends_guard (fun self => negb (is_connected self))).
  auto 10 with sends.
Qed.

Lemma only_sends_print_label_tspl text w h g font x y :
  only_sends (print_label_tspl dev text w h g font x y).
Proof.
  unfold print_label_tspl.
  apply (only_sends_guard (fun self => negb (is_connected self))).
  auto with sends.
Qed.

Lemma only_sends_print_label text cut feed simple tspl w h g :
  only_sends (print_label dev text cut feed simple tspl w h g).
Proof.
  unfold print_label.
  apply (only_sends_guard (fun self => negb (is_connected self))).
  destruct tspl; [ apply only_sends_print_label_tspl | ].
  apply only_sends_bind.
  - destruct (negb simple);
      auto using only_sends_initialize_printer with sends.
  - intros _. apply only_sends_bind; auto with sends.
    intros sent. destruct (negb sent); auto with sends.
    apply only_sends_bind; auto with sends.
    intros _. apply only_sends_bind; auto with sends.
    destruct (cut && negb simple); auto with sends.
Qed.

Lemma only_sends_print_image_tspl image w h g x y :
  only_sends (print_image_tspl PDF_SUPPORT dev load image w h g x y).
Proof.
  unfold print_image_tspl. intros self.
  destruct (negb PDF_SUPPORT);
    [ exists []; cbn; rewrite app_nil_r; now split | ].
  destruct (negb (is_connected self));
    [ exists []; cbn; rewrite app_nil_r; now split | ].
  destruct (PIL.size _) as [width height].
  match goal with
  | |- exists added, trace (snd (?c self)) = _ /\ _ =>
      assert (H : only_sends c) by auto 10 with sends; apply H
  end.
Qed.

Lemma only_sends_print_pdf pdf w h g dpi rot crop inv manual flip :
  only_sends
    (print_pdf PDF_SUPPORT dev load _crop_to_label
               pdf w h g dpi rot crop inv manual flip).
Proof.
  unfold print_pdf. intros self.
  assert (Hnil : exists added : list Event,
            trace self = trace self ++ added /\ no_open_close added)
    by (exists []; rewrite app_nil_r; now split).
  destruct (negb PDF_SUPPORT); [ exact Hnil | ].
  destruct (negb (is_connected self)); [ exact Hnil | ].
  destruct pdf as [ | | [ | [image | ] rest ] ]; try exact Hnil.
  destruct (Pipeline.process _ _ _ _ _ _ _ _ _ _); [ | exact Hnil ].
  apply only_sends_print_image_tspl.
Qed.

Lemma only_sends_print_simple text : only_sends (print_simple dev text).
Proof.
  unfold print_simple.
  apply (only_sends_guard (fun self => negb (is_connected self))).
  auto with sends.
Qed.

Lemma only_sends_call (c : PrintCall) :
  only_sends (call PDF_SUPPORT dev load _crop_to_label c).
Proof.
  destruct c; cbn [call].
  - apply only_sends_send_raw.
  - apply only_sends_send_text.
  - apply only_sends_print_simple.
  - apply only_sends_print_label.
  - apply only_sends_print_label_tspl.
  - apply only_sends_print_image_tspl.
  - apply only_sends_print_pdf.
Qed.


Lemma connect_adds (self : Printer) :
  is_connected self = false ->
  exists added,
    trace (snd (connect dev self)) = trace self ++ added /\
    open_count added = 1%nat /\ close_count added = 0%nat.
Proof.
  intros Hc. unfold connect. rewrite Hc.
  destruct (dev_open dev (trace self)) as [[o] | | ]; cbn.
  - destruct o; cbn; rewrite <- app_assoc; eexists; repeat split.
  - eexists; repeat split.
  - eexists; repeat split.
Qed.

Lemma connect_result_is_connected (self : Printer) :
  is_connected (snd (connect dev self)) = fst (connect dev self).
Proof.
  destruct (fst (connect dev self)) eqn:E.
  - now apply connect_success_connected.
  - now apply connect_failure_disconnected.
Qed.

Lemma disconnect_adds (self : Printer) :
  trace (snd (disconnect self))
  = trace self ++ (if is_connected self then [EvClose] else []).
Proof.
  unfold disconnect. destruct (is_connected self); cbn;
    [ reflexivity | now rewrite app_nil_r ].
Qed.

(** X2. [disconnect()] closes an open handle once and forgets it, does
    nothing on a printer that is not connected, so that calling it twice is
    the same as calling it once; and a [connect()] after it always asks the
    transport to open again. *)
Theorem disconnect_then_reconnect (self : Printer) :
  (is_connected self = false -> disconnect self = (tt, self)) /\
  (is_connected self = true ->
   disconnect self
   = (tt, {| connection := None; trace := trace self ++ [EvClose] |})) /\
  disconnect (snd (disconnect self)) = (tt, snd (disconnect self)) /\
  (close_count (trace (snd (disconnect self))) <= close_count (trace self) + 1)%nat /\
  open_count (trace (snd (connect dev (snd (disconnect self)))))
  = (open_count (trace self) + 1)%nat.
Proof.
  pose proof (disconnect_disconnected self) as Hd.
  split; [ intros H; unfold disconnect; now rewrite H | ].
  split; [ intros H; unfold disconnect; now rewrite H | ].
  split; [ unfold disconnect at 1; now rewrite Hd | ].
  split.
  - rewrite disconnect_adds, close_count_app.
    destruct (is_connected self); cbn; lia.
  - destruct (connect_adds (snd (disconnect self)) Hd) as [added [T [O _]]].
    rewrite T, disconnect_adds, !open_count_app, O.
    destruct (is_connected self); cbn; lia.
Qed.

(** What a driver adds to the trace when it starts from a printer that is
    not connected and runs [job] only if asked to: one request to open, the
    sends of the job, and one close exactly when the request gave an open
    handle. *)
Lemma session_balance (job : M bool) (run_job : bool) (self : Printer) :
  only_sends job -> keeps_connection job -> is_connected self = false ->
  let self1 := snd (connect dev self) in
  let self2 := if run_job then snd (job self1) else self1 in
  exists added,
    trace (snd (disconnect self2)) = trace self ++ added /\
    open_count added = 1%nat /\
    close_count added = (if fst (connect dev self) then 1 else 0)%nat.
Proof.
  intros Hjob Hkeep Hc self1 self2.
  destruct (connect_adds self Hc) as [a1 [T1 [O1 C1]]].
  pose proof (connect_result_is_connected self) as R1. fold self1 in T1, R1.
  assert (H2 : exists a2, trace self2 = trace self1 ++ a2
                 /\ no_open_close a2 /\ is_connected self2 = is_connected self1).
  { subst self2. destruct run_job.
    - destruct (Hjob self1) as [a2 [T2 N2]]. exists a2.
      split; [ exact T2 | ]. split; [ exact N2 | ].
      unfold is_connected. now rewrite Hkeep.
    - exists []. rewrite app_nil_r. repeat split. }
  destruct H2 as [a2 [T2 [[O2 C2] K2]]].
  rewrite disconnect_adds, K2, R1, T2, T1.
  exists (a1 ++ a2 ++ (if fst (connect dev self) then [EvClose] else [])).
  rewrite <- !app_assoc. split; [ reflexivity | ].
  rewrite !open_count_app, !close_count_app, O1, O2, C1, C2.
  destruct (fst (connect dev self)); cbn; split; reflexivity.
Qed.

(** X3. Started on a printer that is not connected, the command-line
    driver and the context manager ask the transport to open exactly once,
    whatever print call they run, and close it exactly once if that request
    gave an open handle and never otherwise: no second open, no close of
    what was not opened, no handle left open.  [_do_print] asks at most
    once (not at all when a call on the widgets raises before [connect])
    and never closes what was not opened, but it closes the handle it was
    given only when the calls on the widgets between [connect] and the
    inner [try] return: when one raises, the handle is left open. *)
Theorem drivers_open_once_close_once (c : PrintCall) (widgets : Widgets)
    (self : Printer) :
  is_connected self = false ->
  let job := call PDF_SUPPORT dev load _crop_to_label c in
  let opened := fst (connect dev self) in
  let closes := (if opened then 1 else 0)%nat in
  (exists added,
     trace (snd (main dev job self)) = trace self ++ added /\
     open_count added = 1%nat /\ close_count added = closes) /\
  (exists added,
     trace (snd (with_printer dev job self)) = trace self ++ added /\
     open_count added = 1%nat /\ close_count added = closes) /\
  (exists added,
     trace (snd (_do_print dev widgets job self)) = trace self ++ added /\
     open_count added = (if before_connect widgets then 1 else 0)%nat /\
     close_count added
     = (if before_connect widgets && opened && before_try widgets
        then 1 else 0)%nat /\
     is_connected (snd (_do_print dev widgets job self))
     = before_connect widgets && opened && negb (before_try widgets)).
Proof.
  intros Hc job opened closes.
  pose proof (only_sends_call c) as Hs. fold job in Hs.
  pose proof (call_keeps_connection PDF_SUPPORT dev load _crop_to_label c) as Hk.
  fold job in Hk.
  pose proof (session_balance job true self Hs Hk Hc) as Brun.
  pose proof (session_balance job false self Hs Hk Hc) as Bskip.
  pose proof (connect_result_is_connected self) as R1.
  pose proof (connect_adds self Hc) as Hopen.
  cbv zeta in Brun, Bskip. subst closes opened.
  split; [ | split ].
  - unfold main, bind, ret.
    destruct (connect dev self) as [ok self1]. cbn [fst snd] in *.
    destruct ok; cbn [negb].
    + destruct (job self1) as [r self2]. cbn [snd] in *.
      destruct (disconnect self2) as [u self3]. exact Brun.
    + destruct (disconnect self1) as [u self3]. exact Bskip.
  - unfold with_printer, __enter__, __exit__, bind, ret.
    destruct (connect dev self) as [ok self1]. cbn [fst snd] in *.
    destruct (job self1) as [r self2]. cbn [snd] in *. exact Brun.
  - unfold _do_print, bind, ret.
    destruct (before_connect widgets); cbn [negb andb].
    + destruct (connect dev self) as [ok self1]. cbn [fst snd] in *.
      destruct ok; cbn [negb andb].
      * destruct (before_try widgets); cbn [negb].
        -- pose proof (disconnect_disconnected (snd (job self1))) as D.
           destruct (job self1) as [r self2]. cbn [snd] in *.
           destruct Brun as (added & T & O & C).
           exists added. auto.
        -- destruct Hopen as (added & T & O & C).
           exists added. cbn [snd]. auto.
      * destruct Hopen as (added & T & O & C).
        exists added. cbn [snd]. auto.
    + exists []. cbn [snd]. rewrite app_nil_r. auto.
Qed.

Lemma writes_app (a b : list Event) : writes (a ++ b) = writes a ++ writes b.
Proof. unfold writes. now rewrite flat_map_app. Qed.

Lemma sleep_writes (ms : Z) (self : Printer) :
  writes (trace (snd (sleep ms self))) = writes (trace self)
  /\ is_connected (snd (sleep ms self)) = is_connected self.
Proof. cbn. rewrite writes_app. cbn. now rewrite app_nil_r. Qed.

Lemma initialize_printer_writes (self : Printer) :
  is_connected self = true ->
  fst (initialize_printer dev self) = true /\
  is_connected (snd (initialize_printer dev self)) = true /\
  writes (trace (snd (initialize_printer dev self)))
  = writes (trace self) ++ [[27; 64]; [27; 116; 16]].
Proof.
  intros Hc. unfold initialize_printer. rewrite Hc. cbn [negb].
  unfold bind, ret.
  pose proof (send_raw_writes dev [27; 64] self Hc) as W1.
  pose proof (send_raw_is_connected dev [27; 64] self) as C1.
  destruct (send_raw dev [27; 64] self) as [r1 s1]. cbn [snd] in *.
  rewrite Hc in C1.
  destruct (sleep_writes 100 s1) as [W2 C2].
  destruct (sleep 100 s1) as [u2 s2]. cbn [snd] in *. rewrite C1 in C2.
  pose proof (send_raw_writes dev [27; 116; 16] s2 C2) as W3.
  pose proof (send_raw_is_connected dev [27; 116; 16] s2) as C3.
  destruct (send_raw dev [27; 116; 16] s2) as [r3 s3]. cbn [snd] in *.
  rewrite C2 in C3.
  destruct (sleep_writes 100 s3) as [W4 C4].
  destruct (sleep 100 s3) as [u4 s4]. cbn [fst snd] in *.
  split; [ reflexivity | ].
  split; [ now rewrite C4 | ].
  rewrite W4, W3, W2, W1, <- app_assoc. reflexivity.
Qed.

(** X4. On a connected printer [initialize_printer] always returns [True],
    whether or not its two commands were accepted: it attempts ESC @ and
    then ESC t 16, in that order, and never looks at the results. Hence its
    result is just whether the printer was connected. *)
Theorem initialize_printer_result (self : Printer) :
  fst (initialize_printer dev self) = is_connected self /\
  is_connected (snd (initialize_printer dev self)) = is_connected self /\
  (is_connected self = true ->
   writes (trace (snd (initialize_printer dev self)))
   = writes (trace self) ++ [[27; 64]; [27; 116; 16]]).
Proof.
  destruct (is_connected self) eqn:Hc.
  - destruct (initialize_printer_writes self Hc) as (R & C & W).
    auto.
  - unfold initialize_printer. rewrite Hc. cbn [negb fst snd].
    repeat split; [ exact Hc | discriminate ].
Qed.

Lemma for_range_send_text_writes (n : nat) (text : string) :
  forall self, is_connected self = true ->
  writes (trace (snd (for_range n (send_text dev text) self)))
  = writes (trace self) ++ repeat (PyStr.encode_utf8 text) n
  /\ is_connected (snd (for_range n (send_text dev text) self)) = true.
Proof.
  induction n as [| n IH]; intros self Hc; cbn [for_range repeat].
  - cbn. now rewrite app_nil_r.
  - unfold bind.
    change (send_text dev text self)
      with (send_raw dev (PyStr.encode_utf8 text) self).
    pose proof (send_raw_writes dev (PyStr.encode_utf8 text) self Hc) as W1.
    pose proof (send_raw_is_connected dev (PyStr.encode_utf8 text) self) as C1.
    destruct (send_raw dev _ self) as [r1 s1]. cbn [snd] in *.
    rewrite Hc in C1. destruct (IH s1 C1) as [W2 C2].
    split; [ | exact C2 ].
    rewrite W2, W1, <- app_assoc. reflexivity.
Qed.

(** X5. [print_label] in ESC/POS mode ([use_tspl=False]) on a connected
    printer: the two initialisation commands unless [simple_mode], then the
    text followed by a line feed; the result is that of this one write. If it
    failed nothing more is written; if it succeeded, [feed_lines] line feeds
    and, with [cut_after] and not [simple_mode], the cut command follow,
    and their own failures do not change the result. *)
Theorem print_label_escpos (text : string) (cut_after : bool) (feed_lines : Z)
    (simple_mode : bool) (w h g : Z) (self : Printer) :
  is_connected self = true ->
  let r := print_label dev text cut_after feed_lines simple_mode false w h g self in
  let init := if simple_mode then [] else [[27; 64]; [27; 116; 16]] in
  let prepared :=
    if simple_mode then self else snd (initialize_printer dev self) in
  fst r = fst (send_text dev (text ++ PyStr.LF) prepared) /\
  writes (trace (snd r))
  = writes (trace self) ++ init
    ++ [PyStr.encode_utf8 (text ++ PyStr.LF)]
    ++ (if fst r
        then repeat [10] (Z.to_nat feed_lines)
             ++ (if cut_after && negb simple_mode then [[29; 86; 0]] else [])
        else []).
Proof.
  intros Hc. cbv zeta. unfold print_label. rewrite Hc. cbn [negb].
  assert (Hcut : forall s2 : Printer, is_connected s2 = true ->
            writes (trace (snd (send_raw dev [29; 86; 0] s2)))
            = writes (trace s2) ++ [[29; 86; 0]])
    by (intros; now apply send_raw_writes).
  assert (Hstep : forall prepared : Printer, is_connected prepared = true ->
    forall cut : bool,
    let r := (let '(sent, s1) := send_text dev (text ++ PyStr.LF) prepared in
              if negb sent then (false, s1)
              else
                let '(_, s2) :=
                  for_range (Z.to_nat feed_lines) (send_text dev PyStr.LF) s1 in
                let '(_, s3) :=
                  (if cut
                   then let '(_, s4) := send_raw dev [29; 86; 0] s2 in (tt, s4)
                   else (tt, s2)) in
                (true, s3)) in
    fst r = fst (send_text dev (text ++ PyStr.LF) prepared) /\
    writes (trace (snd r))
    = writes (trace prepared)
      ++ [PyStr.encode_utf8 (text ++ PyStr.LF)]
      ++ (if fst r
          then repeat [10] (Z.to_nat feed_lines)
               ++ (if cut then [[29; 86; 0]] else [])
          else [])).
  { intros prepared Cp cut. cbv zeta.
    pose proof (send_raw_writes dev (PyStr.encode_utf8 (text ++ PyStr.LF))
                  prepared Cp) as W1.
    pose proof (send_raw_is_connected dev
                  (PyStr.encode_utf8 (text ++ PyStr.LF)) prepared) as C1.
    change (send_raw dev (PyStr.encode_utf8 (text ++ PyStr.LF)) prepared)
      with (send_text dev (text ++ PyStr.LF) prepared) in W1, C1.
    destruct (send_text dev (text ++ PyStr.LF) prepared) as [sent s1].
    cbn [fst snd] in *. rewrite Cp in C1.
    destruct sent; cbn [negb fst snd].
    - destruct (for_range_send_text_writes (Z.to_nat feed_lines) PyStr.LF s1 C1)
        as [W2 C2].
      destruct (for_range (Z.to_nat feed_lines) (send_text dev PyStr.LF) s1)
        as [u2 s2]. cbn [snd] in *.
      change (PyStr.encode_utf8 PyStr.LF) with [10] in W2.
      destruct cut.
      + specialize (Hcut s2 C2).
        destruct (send_raw dev [29; 86; 0] s2) as [r3 s3]. cbn [fst snd] in *.
        split; [ reflexivity | ].
        rewrite Hcut, W2, W1, <- !app_assoc. reflexivity.
      + cbn [fst snd]. split; [ reflexivity | ].
        rewrite W2, W1, <- !app_assoc, app_nil_r. reflexivity.
    - split; [ reflexivity | ]. rewrite W1. reflexivity. }
  destruct simple_mode; cbn [negb andb]; unfold bind, ret.
  - specialize (Hstep self Hc false). cbv zeta in Hstep.
    rewrite andb_false_r. cbn [app].
    destruct (send_text dev (text ++ PyStr.LF) self) as [sent s1].
    destruct sent; cbn [negb fst snd] in *.
    + destruct (for_range (Z.to_nat feed_lines) (send_text dev PyStr.LF) s1)
        as [u2 s2]. exact Hstep.
    + exact Hstep.
  - destruct (initialize_printer_writes self Hc) as [_ [C W]].
    destruct (initialize_printer dev self) as [r0 prepared]. cbn [snd] in *.
    specialize (Hstep prepared C cut_after). cbv zeta in Hstep.
    rewrite andb_true_r. rewrite W, <- app_assoc in Hstep.
    destruct (send_text dev (text ++ PyStr.LF) prepared) as [sent s1].
    destruct sent; cbn [negb fst snd] in *.
    + destruct (for_range (Z.to_nat feed_lines) (send_text dev PyStr.LF) s1)
        as [u2 s2].
      destruct cut_after.
      * destruct (send_raw dev [29; 86; 0] s2) as [r3 s3]. exact Hstep.
      * exact Hstep.
    + exact Hstep.
Qed.

(** X6. The BITMAP command [print_image_tspl] sends announces exactly the
    payload that follows it: the header ends with
    [BITMAP x,y,width_bytes,height,0,], the second write holds
    [width_bytes * height] bytes, each between 0 and 255, and the third is
    the PRINT command. *)
Theorem bitmap_header_matches_payload (image : PIL.Image)
    (w h g x y : Z) (self : Printer) :
  is_connected self = true ->
  0 <= PIL.width (PIL.as_1bit image) -> 0 <= PIL.height (PIL.as_1bit image) ->
  let width_bytes := Bitmap.width_bytes (PIL.width (PIL.as_1bit image)) in
  let height := PIL.height (PIL.as_1bit image) in
  exists payload,
    writes (trace (snd (print_image_tspl true dev load image w h g x y self)))
    = writes (trace self)
      ++ [ PyStr.encode_utf8
             (Tspl.header w h g
              ++ "BITMAP " ++ Py.str x ++ "," ++ Py.str y ++ ","
              ++ Py.str width_bytes ++ "," ++ Py.str height ++ ",0,");
           payload;
           PyStr.encode_utf8 Tspl.print_cmd ] /\
    Z.of_nat (List.length payload) = width_bytes * height /\
    Forall (fun byte => 0 <= byte < 256) payload.
Proof.
  intros Hc Hw Hh width_bytes height.
  destruct (print_image_tspl_three_writes dev load image w h g x y self Hc)
    as [_ Hwrites].
  exists (Bitmap.encode (PIL.width (PIL.as_1bit image))
            (PIL.height (PIL.as_1bit image)) (load (PIL.as_1bit image))).
  split; [ exact Hwrites | ].
  split; [ now apply encode_length | ].
  apply Forall_forall. intros byte Hin.
  destruct (encode_in _ _ _ _ Hin) as [row [col [_ [_ ->]]]].
  apply pack_byte_range.
Qed.

End Transport.


(** X3 on a printer just constructed and a working transport: the
    command-line driver opens once and closes once; [_do_print], when a
    call on the widgets raises after [connect], opens once, closes nothing
    and leaves the printer connected. *)
Lemma drivers_open_once_close_once_witness :
  (exists added,
     trace (snd (BluetoothPrinter.main Examples.dev_ok
                   (BluetoothPrinter.call true Examples.dev_ok Examples.load_fill
                      Examples.no_crop (BluetoothPrinter.CallSendRaw [65]))
                   Examples.fresh))
     = trace Examples.fresh ++ added /\
     open_count added = 1%nat /\ close_count added = 1%nat) /\
  (exists added,
     trace (snd (BluetoothPrinter._do_print Examples.dev_ok
                   (mkWidgets true false)
                   (BluetoothPrinter.call true Examples.dev_ok Examples.load_fill
                      Examples.no_crop (BluetoothPrinter.CallSendRaw [65]))
                   Examples.fresh))
     = trace Examples.fresh ++ added /\
     open_count added = 1%nat /\ close_count added = 0%nat /\
     BluetoothPrinter.is_connected
       (snd (BluetoothPrinter._do_print Examples.dev_ok
               (mkWidgets true false)
               (BluetoothPrinter.call true Examples.dev_ok Examples.load_fill
                  Examples.no_crop (BluetoothPrinter.CallSendRaw [65]))
               Examples.fresh))
     = true).
Proof.
  pose proof (drivers_open_once_close_once true Examples.dev_ok
                Examples.load_fill Examples.no_crop
                (BluetoothPrinter.CallSendRaw [65]) (mkWidgets true false)
                Examples.fresh eq_refl) as H.
  cbv zeta in H. destruct H as (H1 & _ & H3).
  split; [ exact H1 | exact H3 ].
Defined.

(** X5 on a working transport, in simple mode: the text and three line
    feeds, no initialisation and no cut. *)
Lemma print_label_escpos_witness :
  writes (trace (snd (BluetoothPrinter.print_label Examples.dev_ok "Hi" true 3
                        true false 40 30 2 Examples.connected)))
  = [[72; 105; 10]; [10]; [10]; [10]].
Proof.
  pose proof (print_label_escpos Examples.dev_ok "Hi" true 3 true 40 30 2
                Examples.connected eq_refl) as H.
  cbv zeta in H. destruct H as [_ H]. exact H.
Defined.

(** X6 on the white 8 x 1 image. *)
Lemma bitmap_header_matches_payload_witness :
  exists payload,
    writes (trace (snd (BluetoothPrinter.print_image_tspl true Examples.dev_ok
                          Examples.load_fill Examples.white_8x1 100 150 2 0 0
                          Examples.connected)))
    = [ PyStr.encode_utf8 (Tspl.header 100 150 2 ++ "BITMAP 0,0,1,1,0,");
        payload; PyStr.encode_utf8 Tspl.print_cmd ] /\
    Z.of_nat (List.length payload) = 1 /\
    Forall (fun byte => 0 <= byte < 256) payload.
Proof.
  pose proof (bitmap_header_matches_payload Examples.dev_ok Examples.load_fill
                Examples.white_8x1 100 150 2 0 0 Examples.connected eq_refl) as H.
  cbv zeta in H.
  destruct H as [payload H]; [ cbn; lia | cbn; lia | ].
  exists payload. exact H.
Defined.

(** ** What [print_pdf] sends *)

Section LabelSize.
Import PIL Pipeline BluetoothPrinter.

Variable dev : Device.
Variable load : Image -> Bitmap.PixelAccess.
Variable _crop_to_label : Image -> Image.

Lemma centered_size (image : Image) (tw th nw nh : Z) (final_image : Image) :
  centered image tw th nw nh = Some final_image ->
  size final_image = (tw, th) /\ 0 <= tw /\ 0 <= th.
Proof.
  unfold centered, new.
  destruct (tw <? 0) eqn:Hw; [ discriminate | ].
  destruct (th <? 0) eqn:Hh; [ discriminate | ].
  cbn. intros H. injection H as <-.
  apply Z.ltb_ge in Hw, Hh. auto.
Qed.

Lemma process_size (image : Image) (w h dpi : Z) (rot crop inv : bool)
    (manual : option Box) (flip : bool) (final_image : Image) :
  process _crop_to_label image w h dpi rot crop inv manual flip
    = Some final_image ->
  exists tw th,
    target_dots w dpi = Some tw /\ target_dots h dpi = Some th /\
    0 <= tw /\ 0 <= th /\
    size final_image = (tw, th) /\ mode final_image = Mode1.
Proof.
  unfold process.
  destruct (crop_stage _ _ _ _) as [im1|]; [ | discriminate ].
  cbn [try_bind].
  destruct (target_dots w dpi) as [tw|]; [ | discriminate ].
  destruct (target_dots h dpi) as [th|]; [ | discriminate ].
  cbn [try_bind].
  destruct (auto_rotate_stage im1 rot tw th) as [[[im2 w2] h2]|];
    [ | discriminate ].
  cbn [try_bind].
  destruct (scale_stage _ _ _ _ _) as [[[im3 nw] nh]|]; [ | discriminate ].
  cbn [try_bind].
  destruct (compose_stage im3 manual tw th nw nh) as [fin|] eqn:Hc;
    [ | discriminate ].
  cbn [try_bind]. intros H. injection H as <-.
  exists tw, th. split; [ reflexivity | ]. split; [ reflexivity | ].
  assert (Hfin : size fin = (tw, th) /\ 0 <= tw /\ 0 <= th).
  { unfold compose_stage in Hc.
    destruct manual as [coords|]; [ | exact (centered_size _ _ _ _ _ _ Hc) ].
    destruct (box_valid (final_box coords tw th));
      [ | exact (centered_size _ _ _ _ _ _ Hc) ].
    destruct (centered im3 tw th nw nh) as [temp|] eqn:Ht; [ | discriminate ].
    cbn [try_bind] in Hc.
    destruct (centered_size _ _ _ _ _ _ Ht) as (_ & Hw & Hh).
    unfold resize in Hc.
    destruct (size (Crop temp (final_box coords tw th))) as [w0 h0].
    destruct ((w0 =? tw) && (h0 =? th)).
    - cbn in Hc. injection Hc as <-. auto.
    - destruct ((tw <? 1) || (th <? 1)); [ discriminate | ].
      cbn in Hc. injection Hc as <-. auto. }
  destruct Hfin as (Hs & Hw & Hh).
  repeat split; try assumption.
  - rewrite size_binarize_stage. exact Hs.
  - destruct inv; reflexivity.
Qed.

(** X15 ([print_pdf], [print_image_tspl]): on a connected printer and a
    document whose first page decodes, [print_pdf] either returns [False]
    having written nothing, or returns [True] having made exactly three
    writes: the TSPL header whose BITMAP line gives the width in bytes and
    the height in dots of the label at [dpi], a payload of exactly that
    many bytes, and PRINT.  The bitmap always has the size of the label,
    whatever the page, the crop and the rotation are. *)
Theorem print_pdf_fills_the_label (image : Image) (rest : list (option Image))
    (w h g dpi : Z) (rot crop inv : bool) (manual : option Box) (flip : bool)
    (self : Printer) :
  is_connected self = true ->
  let r := print_pdf true dev load _crop_to_label
             (Document (Some image :: rest)) w h g dpi rot crop inv manual flip
             self in
  (fst r = false -> r = (false, self)) /\
  (fst r = true ->
   exists tw th payload,
     target_dots w dpi = Some tw /\ target_dots h dpi = Some th /\
     writes (trace (snd r))
     = writes (trace self)
       ++ [ PyStr.encode_utf8
              (Tspl.header w h g
               ++ "BITMAP 0,0," ++ Py.str (Bitmap.width_bytes tw) ++ ","
               ++ Py.str th ++ ",0,")%string;
            payload;
            PyStr.encode_utf8 Tspl.print_cmd ] /\
     Z.of_nat (List.length payload) = Bitmap.width_bytes tw * th /\
     Forall (fun byte => 0 <= byte < 256) payload).
Proof.
  intros Hc r. subst r.
  destruct (process _crop_to_label image w h dpi rot crop inv manual flip)
    as [final_image|] eqn:Hp.
  - rewrite (print_pdf_prints_processed dev load _crop_to_label image rest
               final_image w h g dpi rot crop inv manual flip self Hc Hp).
    destruct (print_image_tspl_three_writes dev load final_image w h g 0 0
                self Hc) as [Ht Hwrites].
    split; [ rewrite Ht; discriminate | ]. intros _.
    destruct (process_size _ _ _ _ _ _ _ _ _ _ Hp)
      as (tw & th & Htw & Hth & Hw0 & Hh0 & Hs & Hm).
    assert (H1 : as_1bit final_image = final_image)
      by (unfold as_1bit; rewrite Hm; reflexivity).
    rewrite H1 in Hwrites. unfold width, height in Hwrites.
    rewrite Hs in Hwrites. cbn [fst snd] in Hwrites.
    exists tw, th, (Bitmap.encode tw th (load final_image)).
    split; [ exact Htw | ]. split; [ exact Hth | ].
    split; [ exact Hwrites | ].
    split; [ now apply encode_length | ].
    apply Forall_forall. intros byte Hin.
    destruct (encode_in _ _ _ _ Hin) as [row [col [_ [_ ->]]]].
    apply pack_byte_range.
  - unfold print_pdf. cbn [negb]. rewrite Hc. cbn [negb]. rewrite Hp.
    split; [ reflexivity | discriminate ].
Qed.

End LabelSize.

(** X15 on the 612 x 792 page and a 10 x 5 mm label: 79 x 39 dots, 10
    bytes a row. *)
Lemma print_pdf_fills_the_label_witness :
  exists payload,
    writes (trace (snd (BluetoothPrinter.print_pdf true Examples.dev_ok
                          Examples.load_fill Examples.no_crop
                          (BluetoothPrinter.Document
                             [Some Examples.raster_612x792])
                          10 5 2 203 true false true None false
                          Examples.connected)))
    = writes (trace Examples.connected)
      ++ [ PyStr.encode_utf8
             (Tspl.header 10 5 2 ++ "BITMAP 0,0,10,39,0,")%string;
           payload; PyStr.encode_utf8 Tspl.print_cmd ] /\
    Z.of_nat (List.length payload) = 390.
Proof.
  destruct (print_pdf_fills_the_label Examples.dev_ok Examples.load_fill
              Examples.no_crop Examples.raster_612x792 [] 10 5 2 203
              true false true None false Examples.connected eq_refl)
    as [_ H].
  destruct H as (tw & th & payload & Htw & Hth & Hwrites & Hlen & _);
    [ vm_compute; reflexivity | ].
  assert (Etw : tw = 79)
    by (vm_compute in Htw; injection Htw as <-; reflexivity).
  assert (Eth : th = 39)
    by (vm_compute in Hth; injection Hth as <-; reflexivity).
  subst tw th. exists payload. split; [ exact Hwrites | exact Hlen ].
Defined.

(** ** The whitespace crop *)

Section BoundingBox.
Import PIL PyCmp Heuristics.

Lemma range_increasing (n : Z) : StronglySorted Z.lt (Py.range n).
Proof.
  unfold Py.range.
  assert (H : forall len a, StronglySorted Z.lt (map Z.of_nat (seq a len))).
  { induction len as [| len IH]; intros a; cbn; constructor.
    - apply IH.
    - apply Forall_forall. intros z Hz. apply in_map_iff in Hz.
      destruct Hz as [j [<- Hj]]. apply in_seq in Hj. lia. }
  apply H.
Qed.

Lemma filter_increasing (p : Z -> bool) (l : list Z) :
  StronglySorted Z.lt l -> StronglySorted Z.lt (filter p l).
Proof.
  induction 1 as [| a l Hs IH Ha]; cbn; [ constructor | ].
  destruct (p a); [ | exact IH ].
  constructor; [ exact IH | ].
  apply Forall_forall. intros z Hz. apply filter_In in Hz.
  rewrite Forall_forall in Ha. now apply Ha.
Qed.

(** In an increasing list the head is the least element and the last one
    the greatest. *)
Lemma increasing_ends (x0 : Z) (xs : list Z) :
  StronglySorted Z.lt (x0 :: xs) ->
  In (last xs x0) (x0 :: xs) /\
  forall x, In x (x0 :: xs) -> x0 <= x <= last xs x0.
Proof.
  revert x0. induction xs as [| x1 xs IH]; intros x0 Hs.
  - cbn. split; [ auto | ]. intros x [-> | []]. lia.
  - inversion Hs as [| ? ? Hs' Hall]; subst.
    destruct (IH x1 Hs') as [Hin Hbounds].
    assert (Hlast : forall (l : list Z) (a d : Z), last (a :: l) d = last l a).
    { induction l as [| a2 l IHl]; intros a d; [ reflexivity | ].
      change (last (a :: a2 :: l) d) with (last (a2 :: l) d).
      now rewrite !IHl. }
    rewrite Hlast. split; [ right; exact Hin | ].
    rewrite Forall_forall in Hall.
    intros x [-> | Hx].
    + specialize (Hbounds x1 (or_introl eq_refl)).
      specialize (Hall x1 (or_introl eq_refl)). lia.
    + specialize (Hbounds x Hx). specialize (Hall x1 (or_introl eq_refl)). lia.
Qed.

Lemma in_filter_range (p : Z -> bool) (n x : Z) :
  In x (filter p (Py.range n)) <-> 0 <= x < n /\ p x = true.
Proof.
  rewrite filter_In. split.
  - intros [Hin Hp]. split; [ now apply in_range | exact Hp ].
  - intros [Hx Hp]. split; [ | exact Hp ].
    apply nth_error_In with (n := Z.to_nat x). now apply nth_error_range.
Qed.

Variable px : Bitmap.PixelAccess.
Variables w h : Z.

Lemma column_nonzero_iff (x : Z) :
  column_nonzero px h x = true <-> exists y, 0 <= y < h /\ px x y <> 0.
Proof.
  unfold column_nonzero. rewrite existsb_exists. split.
  - intros [y [Hin Hy]]. exists y. split; [ now apply in_range | ].
    apply negb_true_iff, Z.eqb_neq in Hy. exact Hy.
  - intros [y [Hy Hne]]. exists y. split.
    + apply nth_error_In with (n := Z.to_nat y). now apply nth_error_range.
    + apply negb_true_iff, Z.eqb_neq. exact Hne.
Qed.

Lemma row_nonzero_iff (y : Z) :
  row_nonzero px w y = true <-> exists x, 0 <= x < w /\ px x y <> 0.
Proof.
  unfold row_nonzero. rewrite existsb_exists. split.
  - intros [x [Hin Hx]]. exists x. split; [ now apply in_range | ].
    apply negb_true_iff, Z.eqb_neq in Hx. exact Hx.
  - intros [x [Hx Hne]]. exists x. split.
    + apply nth_error_In with (n := Z.to_nat x). now apply nth_error_range.
    + apply negb_true_iff, Z.eqb_neq. exact Hne.
Qed.

(** No box: every pixel is zero. *)
Lemma getbbox_none :
  getbbox w h px = None ->
  forall x y, 0 <= x < w -> 0 <= y < h -> px x y = 0.
Proof.
  unfold getbbox. intros Hnone x y Hx Hy.
  destruct (Z.eq_dec (px x y) 0) as [Hz | Hnz]; [ exact Hz | exfalso ].
  assert (Hc : In x (filter (column_nonzero px h) (Py.range w))).
  { apply in_filter_range. split; [ exact Hx | ].
    apply column_nonzero_iff. now exists y. }
  assert (Hr : In y (filter (row_nonzero px w) (Py.range h))).
  { apply in_filter_range. split; [ exact Hy | ].
    apply row_nonzero_iff. now exists x. }
  destruct (filter (column_nonzero px h) (Py.range w)); [ contradiction | ].
  destruct (filter (row_nonzero px w) (Py.range h)); [ contradiction | ].
  discriminate.
Qed.

(** A box: it lies in the image, holds every non-zero pixel, and each of its
    four sides touches one. *)
Lemma getbbox_some (b0 b1 b2 b3 : Z) :
  getbbox w h px = Some (b0, b1, b2, b3) ->
  (0 <= b0 < b2 /\ b2 <= w) /\ (0 <= b1 < b3 /\ b3 <= h) /\
  (forall x y, 0 <= x < w -> 0 <= y < h -> px x y <> 0 ->
               b0 <= x < b2 /\ b1 <= y < b3) /\
  (exists y, 0 <= y < h /\ px b0 y <> 0) /\
  (exists y, 0 <= y < h /\ px (b2 - 1) y <> 0) /\
  (exists x, 0 <= x < w /\ px x b1 <> 0) /\
  (exists x, 0 <= x < w /\ px x (b3 - 1) <> 0).
Proof.
  unfold getbbox.
  pose proof (filter_increasing (column_nonzero px h) _ (range_increasing w))
    as Sc.
  pose proof (filter_increasing (row_nonzero px w) _ (range_increasing h))
    as Sr.
  pose proof (in_filter_range (column_nonzero px h) w) as Ic.
  pose proof (in_filter_range (row_nonzero px w) h) as Ir.
  destruct (filter (column_nonzero px h) (Py.range w)) as [| x0 xs];
    [ discriminate | ].
  destruct (filter (row_nonzero px w) (Py.range h)) as [| y0 ys];
    [ discriminate | ].
  intros H. injection H as <- <- <- <-.
  destruct (increasing_ends x0 xs Sc) as [Lx Bx].
  destruct (increasing_ends y0 ys Sr) as [Ly By].
  pose proof (proj1 (Ic x0) (or_introl eq_refl)) as [Rx0 Px0].
  pose proof (proj1 (Ir y0) (or_introl eq_refl)) as [Ry0 Py0].
  pose proof (proj1 (Ic _) Lx) as [Rxl Pxl].
  pose proof (proj1 (Ir _) Ly) as [Ryl Pyl].
  pose proof (Bx _ Lx) as Hxl. pose proof (By _ Ly) as Hyl.
  split; [ lia | ]. split; [ lia | ].
  split.
  { intros x y Hx Hy Hne.
    assert (Hcx : In x (x0 :: xs)).
    { apply Ic. split; [ exact Hx | ]. apply column_nonzero_iff. now exists y. }
    assert (Hry : In y (y0 :: ys)).
    { apply Ir. split; [ exact Hy | ]. apply row_nonzero_iff. now exists x. }
    specialize (Bx x Hcx). specialize (By y Hry). lia. }
  replace (last xs x0 + 1 - 1) with (last xs x0) by lia.
  replace (last ys y0 + 1 - 1) with (last ys y0) by lia.
  repeat split;
    first [ now apply column_nonzero_iff | now apply row_nonzero_iff ].
Qed.

End BoundingBox.

Section WhitespaceCrop.
Import PIL PyCmp Heuristics.

Variable load : Image -> Bitmap.PixelAccess.

(** X7. [_crop_whitespace] never cuts content away. It works on the
    grayscale image: a pixel counts as content when its value is at most
    [threshold]. With no content the image comes back as it is. Otherwise it
    is cropped to the bounding box of the content widened by 10 pixels on
    each side and cut at the image edges: a box that lies inside the image,
    has a positive area and holds every content pixel. *)
Theorem crop_whitespace_keeps_content (image : Image) (threshold : Z) :
  let gray := Pipeline.grayscale image in
  let content x y :=
    0 <= x < width gray /\ 0 <= y < height gray /\ load gray x y <= threshold in
  ((forall x y, ~ content x y) -> _crop_whitespace load image threshold = gray) /\
  ((exists x y, content x y) ->
   exists xmin ymin xmax ymax,
     (exists y, content xmin y) /\ (exists y, content xmax y) /\
     (exists x, content x ymin) /\ (exists x, content x ymax) /\
     (forall x y, content x y -> xmin <= x <= xmax /\ ymin <= y <= ymax) /\
     let left_ := Z.max 0 (xmin - 10) in
     let top := Z.max 0 (ymin - 10) in
     let right_ := Z.min (width gray) (xmax + 11) in
     let bottom := Z.min (height gray) (ymax + 11) in
     _crop_whitespace load image threshold
     = Crop gray (left_, top, right_, bottom) /\
     0 <= left_ < right_ /\ right_ <= width gray /\
     0 <= top < bottom /\ bottom <= height gray /\
     (forall x y, content x y -> left_ <= x < right_ /\ top <= y < bottom)).
Proof.
  intros gray content.
  set (binary := fun x y : Z => if load gray x y >? threshold then 0 else 255).
  assert (Hbin : forall x y, binary x y <> 0 <-> load gray x y <= threshold).
  { intros x y. unfold binary.
    destruct (Z.gtb_spec (load gray x y) threshold); split; intros; lia. }
  unfold _crop_whitespace. fold gray. fold binary.
  split.
  - intros Hnone.
    destruct (getbbox (width gray) (height gray) binary)
      as [[[[b0 b1] b2] b3] | ] eqn:E; [ exfalso | reflexivity ].
    destruct (getbbox_some binary _ _ b0 b1 b2 b3 E)
      as [Hx [_ [_ [[y [Hy Hne]] _]]]].
    apply (Hnone b0 y). unfold content.
    split; [ lia | ]. split; [ exact Hy | ]. now apply Hbin.
  - intros [x [y [Hx [Hy Hd]]]].
    destruct (getbbox (width gray) (height gray) binary)
      as [[[[b0 b1] b2] b3] | ] eqn:E.
    + destruct (getbbox_some binary _ _ b0 b1 b2 b3 E)
        as [Bx [By [Hin [[yl [Hyl Hl]] [[yr [Hyr Hr]] [[xt [Hxt Ht]]
                [xb [Hxb Hb]]]]]]]].
      assert (Hall : forall x' y', content x' y' ->
                b0 <= x' <= b2 - 1 /\ b1 <= y' <= b3 - 1).
      { intros x' y' [Hx' [Hy' Hd']].
        assert (Hne : binary x' y' <> 0) by now apply Hbin.
        specialize (Hin x' y' Hx' Hy' Hne). lia. }
      exists b0, b1, (b2 - 1), (b3 - 1).
      split; [ exists yl; unfold content; rewrite <- Hbin; repeat split;
               first [ lia | assumption ] | ].
      split; [ exists yr; unfold content; rewrite <- Hbin; repeat split;
               first [ lia | assumption ] | ].
      split; [ exists xt; unfold content; rewrite <- Hbin; repeat split;
               first [ lia | assumption ] | ].
      split; [ exists xb; unfold content; rewrite <- Hbin; repeat split;
               first [ lia | assumption ] | ].
      split; [ exact Hall | ].
      cbv zeta.
      replace (b2 - 1 + 11) with (b2 + 10) by lia.
      replace (b3 - 1 + 11) with (b3 + 10) by lia.
      split; [ reflexivity | ].
      split; [ lia | ]. split; [ lia | ]. split; [ lia | ]. split; [ lia | ].
      intros x' y' Hc. specialize (Hall x' y' Hc). lia.
    + exfalso. pose proof (getbbox_none binary _ _ E x y Hx Hy) as Hz.
      assert (Hne : binary x y <> 0) by now apply Hbin. contradiction.
Qed.

End WhitespaceCrop.

(** X7 on a white 400 x 600 page with a solid dark square from (50, 50) to
    (150, 150): the crop is the square widened by the margin,
    (40, 40, 160, 160). *)
Lemma crop_whitespace_keeps_content_witness :
  Heuristics._crop_whitespace Examples2.load_square Examples2.square_page 250
  = PIL.Crop Examples2.square_page (40, 40, 160, 160).
Proof.
  pose proof (crop_whitespace_keeps_content Examples2.load_square
                Examples2.square_page 250) as H.
  cbv zeta in H. destruct H as [_ H].
  change (Pipeline.grayscale Examples2.square_page)
    with Examples2.square_page in H.
  change (PIL.width Examples2.square_page) with 400 in H.
  change (PIL.height Examples2.square_page) with 600 in H.
  assert (Hsq : forall x y,
            Examples2.load_square Examples2.square_page x y <= 250
            <-> 50 <= x < 150 /\ 50 <= y < 150).
  { intros x y. unfold Examples2.load_square.
    destruct (Z.leb_spec 50 x), (Z.ltb_spec x 150),
             (Z.leb_spec 50 y), (Z.ltb_spec y 150); cbn; lia. }
  destruct H as [xmin [ymin [xmax [ymax
    [[y1 [_ [_ L]]] [[y2 [_ [_ R]]] [[x1 [_ [_ T]]] [[x2 [_ [_ B]]]
    [Hall [Heq _]]]]]]]]]].
  { exists 50, 50. rewrite Hsq. lia. }
  apply Hsq in L, R, T, B.
  assert (H50 : xmin <= 50 <= xmax /\ ymin <= 50 <= ymax)
    by (apply Hall; rewrite Hsq; lia).
  assert (H149 : xmin <= 149 <= xmax /\ ymin <= 149 <= ymax)
    by (apply Hall; rewrite Hsq; lia).
  rewrite Heq.
  replace xmin with 50 by lia. replace ymin with 50 by lia.
  replace xmax with 149 by lia. replace ymax with 149 by lia.
  reflexivity.
Defined.

(** ** The label-border heuristics *)

Section LabelBorder.
Import PIL PyCmp Heuristics.

Variable load : Image -> Bitmap.PixelAccess.

Lemma first_match_in (test : Z -> option bool) (l : list Z) (v : Z) :
  first_match test l = Some (Some v) -> In v l /\ test v = Some true.
Proof.
  induction l as [| a l IH]; cbn; [ discriminate | ].
  destruct (test a) as [[ | ] | ] eqn:E; [ | | discriminate ].
  - intros H. injection H as <-. auto.
  - intros H. destruct (IH H). auto.
Qed.

Lemma in_range2 (a b y : Z) : In y (range2 a b) -> a <= y < b.
Proof.
  unfold range2. rewrite in_map_iff. intros [i [<- Hi]].
  apply in_range in Hi. lia.
Qed.

Lemma in_range_down (a b y : Z) : In y (range_down a b) -> b < y <= a.
Proof.
  unfold range_down. rewrite in_map_iff. intros [i [<- Hi]].
  apply in_range in Hi. lia.
Qed.

Lemma dense_lines_in (count : Z -> Z) (extent : Z) (d : float) (l : list Z) :
  forall lines, dense_lines count extent d l = Some lines ->
  forall v, In v (map fst lines) -> In v l.
Proof.
  induction l as [| a l IH]; cbn; intros lines H v Hv.
  - injection H as <-. exact Hv.
  - destruct (Py.truediv (count a) extent) as [density | ]; [ | discriminate ].
    cbn in H.
    destruct (dense_lines count extent d l) as [ls | ]; [ | discriminate ].
    cbn in H. injection H as <-.
    destruct (d <? density)%float; cbn in Hv.
    + destruct Hv as [<- | Hv]; [ now left | right; now apply (IH ls) ].
    + right. now apply (IH ls).
Qed.

(** The gap loop breaks only with a row of the scan, more than 100 rows
    below [label_top]. *)
Lemma find_gap_in (has_content : Z -> option bool) (label_top : Z)
    (ys : list Z) :
  forall in_content gap_start found,
  find_gap has_content label_top ys in_content gap_start = Some (Some found) ->
  (found = gap_start \/ In found ys) /\ label_top + 100 < found.
Proof.
  induction ys as [| y ys IH]; cbn; intros ic gs found H; [ discriminate | ].
  destruct (has_content y) as [hc | ]; [ | discriminate ]. cbn in H.
  destruct (ic && negb hc).
  - destruct (IH _ _ _ H) as [[-> | Hin] Hgt]; auto.
  - destruct (negb ic && hc).
    + destruct ((y - gs >? 20) && (gs >? label_top + 100)) eqn:E.
      * injection H as <-. apply andb_prop in E. destruct E as [_ E].
        apply Z.gtb_lt in E. auto.
      * destruct (IH _ _ _ H) as [[-> | Hin] Hgt]; auto.
    + destruct (y =? label_top + 50);
        destruct (IH _ _ _ H) as [[-> | Hin] Hgt]; auto.
Qed.

Lemma grayscale_idempotent (image : Image) :
  Pipeline.grayscale (Pipeline.grayscale image) = Pipeline.grayscale image.
Proof.
  unfold Pipeline.grayscale.
  destruct (mode image) eqn:E; cbn; rewrite ?E; reflexivity.
Qed.

(** The whitespace crop gives the grayscale image or a box of positive
    area inside it. *)
Lemma crop_whitespace_inside (image : Image) (threshold : Z) :
  let gray := Pipeline.grayscale image in
  _crop_whitespace load image threshold = gray \/
  exists left_ top right_ bottom,
    _crop_whitespace load image threshold
    = Crop gray (left_, top, right_, bottom) /\
    0 <= left_ < right_ /\ right_ <= width gray /\
    0 <= top < bottom /\ bottom <= height gray.
Proof.
  intros gray. unfold _crop_whitespace. fold gray.
  destruct (getbbox _ _ _) as [[[[b0 b1] b2] b3] | ] eqn:E; [ right | now left ].
  destruct (getbbox_some _ _ _ b0 b1 b2 b3 E) as [Bx [By _]].
  eexists _, _, _, _. split; [ reflexivity | ]. lia.
Qed.

(** X8. Whenever [_crop_to_label] returns, it returns either the crop of
    the grayscale page to a label box that is more than 100 pixels wide and
    high and stays at least 3 pixels inside every edge of the page, or what
    [_crop_whitespace] gives. Either way the result is the grayscale page
    itself or a region of positive area inside it, and a page at most 106
    pixels wide or high is always handed to [_crop_whitespace]. *)
Theorem crop_to_label_region (image result : Image) :
  let gray := Pipeline.grayscale image in
  0 <= width gray -> 0 <= height gray ->
  _crop_to_label load image = Some result ->
  (result = _crop_whitespace load gray 250 \/
   exists left_ top right_ bottom,
     result = Crop gray (left_, top, right_, bottom) /\
     3 <= left_ /\ left_ + 100 < right_ /\ right_ <= width gray - 3 /\
     3 <= top /\ top + 100 < bottom /\ bottom <= height gray - 3) /\
  (result = gray \/
   exists left_ top right_ bottom,
     result = Crop gray (left_, top, right_, bottom) /\
     0 <= left_ < right_ /\ right_ <= width gray /\
     0 <= top < bottom /\ bottom <= height gray) /\
  (width gray <= 106 \/ height gray <= 106 ->
   result = _crop_whitespace load gray 250).
Proof.
  intros gray Hw Hh Hret.
  assert (Hcases :
    result = _crop_whitespace load gray 250 \/
    exists left_ top right_ bottom,
      result = Crop gray (left_, top, right_, bottom) /\
      3 <= left_ /\ left_ + 100 < right_ /\ right_ <= width gray - 3 /\
      3 <= top /\ top + 100 < bottom /\ bottom <= height gray - 3).
  { unfold _crop_to_label in Hret. fold gray in Hret.
    unfold width, height in *.
    destruct (size gray) as [W H]. cbn [fst snd] in *.
    destruct (dense_lines _ W _ _) as [hlines | ] eqn:Eh; [ | discriminate ].
    cbn [try_bind] in Hret.
    destruct (dense_lines _ H _ _) as [vlines | ] eqn:Ev; [ | discriminate ].
    cbn [try_bind] in Hret.
    pose proof (dense_lines_in _ _ _ _ _ Eh) as Ih.
    pose proof (dense_lines_in _ _ _ _ _ Ev) as Iv.
    destruct (first_match _ (map fst hlines)) as [f1 | ] eqn:E1;
      [ | discriminate ].
    cbn [try_bind] in Hret.
    assert (T1 : 0 <= or_default f1 0 <= H).
    { destruct f1 as [y | ]; cbn; [ | lia ].
      apply first_match_in in E1. destruct E1 as [E1 _].
      apply Ih, in_range in E1. lia. }
    set (top1 := or_default f1 0) in *.
    destruct (find_gap _ top1 _ false 0) as [f2 | ] eqn:E2; [ | discriminate ].
    cbn [try_bind] in Hret.
    assert (B2 : or_default f2 H <= H).
    { destruct f2 as [y | ]; cbn; [ | lia ].
      apply find_gap_in in E2. destruct E2 as [[-> | E2] Hgt]; [ lia | ].
      apply in_range2 in E2. lia. }
    set (bottom1 := or_default f2 H) in *.
    destruct (if bottom1 =? H then _ else _) as [bottom2 | ] eqn:E3;
      [ | discriminate ].
    cbn [try_bind] in Hret.
    assert (B3 : bottom2 <= H).
    { destruct (bottom1 =? H).
      - destruct (first_match _ (range_down (H - 50) (top1 + 100)))
          as [f3 | ] eqn:E3'; [ | discriminate ].
        cbn [try_bind] in E3. injection E3 as <-.
        destruct f3 as [y | ]; [ | exact B2 ].
        apply first_match_in in E3'. destruct E3' as [E3' _].
        apply in_range_down in E3'. lia.
      - injection E3 as <-. exact B2. }
    destruct (first_match _ (map fst vlines)) as [f4 | ] eqn:E4;
      [ | discriminate ].
    cbn [try_bind] in Hret.
    assert (L4 : 0 <= or_default f4 0).
    { destruct f4 as [x | ]; cbn; [ | lia ].
      apply first_match_in in E4. destruct E4 as [E4 _].
      apply Iv, in_range in E4. lia. }
    set (left1 := or_default f4 0) in *.
    destruct (first_match _ (rev (map fst vlines))) as [f5 | ] eqn:E5;
      [ | discriminate ].
    cbn [try_bind] in Hret.
    assert (R5 : or_default f5 W <= W).
    { destruct f5 as [x | ]; cbn; [ | lia ].
      apply first_match_in in E5. destruct E5 as [E5 _].
      apply in_rev in E5. apply Iv, in_range in E5. lia. }
    set (right1 := or_default f5 W) in *.
    destruct (first_match _ (Py.range (Z.min (top1 + 50) H))) as [f6 | ] eqn:E6;
      [ | discriminate ].
    cbn [try_bind] in Hret.
    assert (T6 : 0 <= or_default f6 top1).
    { destruct f6 as [y | ]; cbn; [ | lia ].
      apply first_match_in in E6. destruct E6 as [E6 _].
      apply in_range in E6. lia. }
    set (top2 := or_default f6 top1) in *.
    destruct ((Z.max (right1 - 3) 0 - Z.min (left1 + 3) W >? 100)
              && (Z.max (bottom2 - 3) 0 - Z.min (top2 + 3) H >? 100)) eqn:Ec.
    - right. injection Hret as <-.
      apply andb_prop in Ec. destruct Ec as [Ex Ey].
      apply Z.gtb_lt in Ex, Ey.
      eexists _, _, _, _. split; [ reflexivity | ]. lia.
    - left. injection Hret as <-. reflexivity. }
  split; [ exact Hcases | ].
  split.
  - destruct Hcases as [-> | [l [t [r [b [-> Hb]]]]]].
    + subst gray.
      pose proof (crop_whitespace_inside (Pipeline.grayscale image) 250) as Hin.
      cbv zeta in Hin. rewrite grayscale_idempotent in Hin. exact Hin.
    + right. exists l, t, r, b. split; [ reflexivity | ]. lia.
  - intros Hsmall.
    destruct Hcases as [-> | [l [t [r [b [-> Hb]]]]]]; [ reflexivity | lia ].
Qed.

(** X9. Whenever [_find_label_boundary] returns a box, the box lies inside
    the grayscale image and is more than 100 pixels wide and high; on an
    image at most 100 pixels wide or high it never returns one. *)
Theorem find_label_boundary_box (image : Image) (found : option Box) :
  let gray := Pipeline.grayscale image in
  0 <= width gray -> 0 <= height gray ->
  _find_label_boundary load image = Some found ->
  match found with
  | Some (left_, top, right_, bottom) =>
      0 <= left_ /\ left_ + 100 < right_ /\ right_ <= width gray /\
      0 <= top /\ top + 100 < bottom /\ bottom <= height gray
  | None => True
  end /\
  (width gray <= 100 \/ height gray <= 100 -> found = None).
Proof.
  intros gray Hw Hh Hret.
  unfold _find_label_boundary in Hret. fold gray in Hret.
  unfold width, height in *.
  destruct (size gray) as [W H]. cbn [fst snd] in *.
  destruct (first_match _ (Py.range H)) as [f1 | ] eqn:E1; [ | discriminate ].
  cbn [try_bind] in Hret.
  assert (T : 0 <= or_default f1 0).
  { destruct f1 as [y | ]; cbn; [ | lia ].
    apply first_match_in in E1. destruct E1 as [E1 _].
    apply in_range in E1. lia. }
  destruct (first_match _ (range_down (H - 1) (-1))) as [f2 | ] eqn:E2;
    [ | discriminate ].
  cbn [try_bind] in Hret.
  assert (B : or_default f2 H <= H).
  { destruct f2 as [y | ]; cbn; [ | lia ].
    apply first_match_in in E2. destruct E2 as [E2 _].
    apply in_range_down in E2. lia. }
  destruct (first_match _ (Py.range W)) as [f3 | ] eqn:E3; [ | discriminate ].
  cbn [try_bind] in Hret.
  assert (L : 0 <= or_default f3 0).
  { destruct f3 as [x | ]; cbn; [ | lia ].
    apply first_match_in in E3. destruct E3 as [E3 _].
    apply in_range in E3. lia. }
  destruct (first_match _ (range_down (W - 1) (-1))) as [f4 | ] eqn:E4;
    [ | discriminate ].
  cbn [try_bind] in Hret.
  assert (R : or_default f4 W <= W).
  { destruct f4 as [x | ]; cbn; [ | lia ].
    apply first_match_in in E4. destruct E4 as [E4 _].
    apply in_range_down in E4. lia. }
  destruct ((or_default f4 W >? or_default f3 0 + 100)
            && (or_default f2 H >? or_default f1 0 + 100)) eqn:Ec;
    injection Hret as <-.
  - apply andb_prop in Ec. destruct Ec as [Ex Ey].
    apply Z.gtb_lt in Ex, Ey. split; [ lia | ]. intros Hs. lia.
  - split; [ exact I | reflexivity ].
Qed.

End LabelBorder.

(** X8 on a 140 x 200 page that holds a label with a border two pixels
    thick from (12, 12) to (127, 151), and a line of text below it: the
    result is the label inside its border, (15, 15, 124, 149). *)
Lemma crop_to_label_region_witness :
  exists left_ top right_ bottom,
    Heuristics._crop_to_label Examples2.load_label Examples2.label_page
    = Some (PIL.Crop Examples2.label_page (left_, top, right_, bottom)) /\
    3 <= left_ /\ left_ + 100 < right_ /\ right_ <= 140 - 3 /\
    3 <= top /\ top + 100 < bottom /\ bottom <= 200 - 3.
Proof.
  assert (E : Heuristics._crop_to_label Examples2.load_label
                Examples2.label_page
              = Some (PIL.Crop Examples2.label_page (15, 15, 124, 149)))
    by (vm_compute; reflexivity).
  pose proof (crop_to_label_region Examples2.load_label Examples2.label_page
                _ ltac:(cbn; lia) ltac:(cbn; lia) E) as H.
  destruct H as [[H | (left_ & top & right_ & bottom & H & Hbox)] _].
  - vm_compute in H. discriminate H.
  - exists left_, top, right_, bottom.
    change (Pipeline.grayscale Examples2.label_page)
      with Examples2.label_page in H, Hbox.
    rewrite E, H. split; [ reflexivity | exact Hbox ].
Defined.

(** X9 on the same page: the box found is (12, 12, 127, 185). *)
Lemma find_label_boundary_box_witness :
  exists left_ top right_ bottom,
    Heuristics._find_label_boundary Examples2.load_label Examples2.label_page
    = Some (Some (left_, top, right_, bottom)) /\
    0 <= left_ /\ left_ + 100 < right_ /\ right_ <= 140 /\
    0 <= top /\ top + 100 < bottom /\ bottom <= 200.
Proof.
  assert (E : Heuristics._find_label_boundary Examples2.load_label
                Examples2.label_page = Some (Some (12, 12, 127, 185)))
    by (vm_compute; reflexivity).
  exists 12, 12, 127, 185. split; [ exact E | ].
  exact (proj1 (find_label_boundary_box Examples2.load_label
                  Examples2.label_page _ ltac:(cbn; lia) ltac:(cbn; lia) E)).
Defined.

(** ** The preview of the application and what it prints *)

Section Preview.
Import PIL Pipeline App.

Variable _crop_to_label : Image -> Image.
Variable dev : Device.
Variable load : Image -> Bitmap.PixelAccess.

Lemma preview_box_eq (image : Image) (coords : Box) :
  preview_box image coords = manual_box image coords.
Proof.
  destruct coords as [[[l t] r] b].
  unfold preview_box, manual_box.
  replace (Py.truediv 300 150) with scale_factor by (vm_compute; reflexivity).
  reflexivity.
Qed.

Lemma auto_rotate_stage_preview (image : Image) (rot : bool) (tw th : Z)
    (r : Image * Z * Z) :
  auto_rotate_stage image rot tw th = Some r ->
  preview_rotate image rot tw th = r.
Proof.
  unfold auto_rotate_stage, preview_rotate.
  destruct (size image) as [w h].
  destruct (Py.truediv w h); [ | discriminate ].
  destruct (Py.truediv tw th); [ | discriminate ].
  cbn [try_bind].
  destruct rot; [ | congruence ].
  destruct (negb _); [ | congruence ].
  destruct (size (Rotate image 90 true)); congruence.
Qed.

(** The two pipelines, side by side, when no manual crop is in force. *)
Lemma process_preview (app : State) (image printed : Image) :
  manual_crop app && crop_applied app = false ->
  process _crop_to_label image (label_width app) (label_height app) 203
    (auto_rotate app) (auto_crop app) (negb (invert_colors app)) None
    (flip_vertical app) = Some printed ->
  exists shown,
    _show_processed_preview _crop_to_label app image = Some shown /\
    printed = print_image_of app shown.
Proof.
  intros Hm.
  unfold process, _show_processed_preview, crop_stage, compose_stage.
  rewrite Hm.
  destruct (if auto_crop app then _ else _) as [im1|]; [ | discriminate ].
  cbn [try_bind].
  destruct (target_dots (label_width app) 203) as [tw|]; [ | discriminate ].
  destruct (target_dots (label_height app) 203) as [th|]; [ | discriminate ].
  cbn [try_bind].
  destruct (auto_rotate_stage im1 (auto_rotate app) tw th) as [r|] eqn:Hr;
    [ | discriminate ].
  apply auto_rotate_stage_preview in Hr. rewrite Hr.
  destruct r as [[im2 w2] h2]. cbn [try_bind].
  destruct (scale_stage _ _ _ _ _) as [[[im3 nw] nh]|]; [ | discriminate ].
  cbn [try_bind].
  destruct (centered im3 tw th nw nh) as [fin|]; [ | discriminate ].
  cbn [try_bind].
  intros H. injection H as <-.
  exists (Threshold fin). split; [ reflexivity | ].
  unfold binarize_stage, print_image_of, inverted. reflexivity.
Qed.

End Preview.

Section PreviewTheorems.
Import PIL Pipeline App BluetoothPrinter.

Variable _crop_to_label : Image -> Image.
Variable dev : Device.
Variable load : Image -> Bitmap.PixelAccess.

Lemma mode_grayscale (image : Image) : mode (grayscale image) = ModeL.
Proof.
  unfold grayscale.
  destruct (mode image) eqn:E; cbn; try reflexivity; exact E.
Qed.

Lemma preview_canvas (app : State) (image shown : Image) :
  _show_processed_preview _crop_to_label app image = Some shown ->
  exists tw th,
    target_dots (label_width app) 203 = Some tw /\
    target_dots (label_height app) 203 = Some th /\
    size shown = (tw, th) /\ mode shown = Mode1.
Proof.
  unfold _show_processed_preview.
  destruct (match (if manual_crop app && crop_applied app then _ else _)
            with Some _ => _ | None => _ end) as [im1|];
    [ | discriminate ].
  cbn [try_bind].
  destruct (target_dots (label_width app) 203) as [tw|]; [ | discriminate ].
  destruct (target_dots (label_height app) 203) as [th|]; [ | discriminate ].
  cbn [try_bind].
  destruct (preview_rotate im1 (auto_rotate app) tw th) as [[im2 w2] h2].
  destruct (scale_stage _ _ _ _ _) as [[[im3 nw] nh]|]; [ | discriminate ].
  cbn [try_bind].
  unfold centered, new.
  destruct ((tw <? 0) || (th <? 0)); [ discriminate | ].
  cbn [try_bind].
  intros H. injection H as <-.
  exists tw, th. repeat split; reflexivity.
Qed.

(** X10 ([_show_processed_preview], [_do_print]): the application prints
    what its preview shows.  When the stored image is the preview of the
    current settings, and, without an applied manual crop, the pipeline of
    [print_pdf] does not raise, the print job is one [print_image_tspl] of
    the stored image, inverted unless [invert_colors] is ticked; that
    image is 1-bit and has the dot size of the label at 203 dpi. *)
Theorem app_prints_the_preview (app : State) (image shown : Image)
    (rest : list (option Image)) (self : Printer) :
  is_connected self = true ->
  _show_processed_preview _crop_to_label app image = Some shown ->
  cropped_image app = Some shown ->
  (manual_crop app && crop_applied app = false ->
   process _crop_to_label image (label_width app) (label_height app) 203
     (auto_rotate app) (auto_crop app) (negb (invert_colors app)) None
     (flip_vertical app) <> None) ->
  exists tw th,
    target_dots (label_width app) 203 = Some tw /\
    target_dots (label_height app) 203 = Some th /\
    size shown = (tw, th) /\ mode shown = Mode1 /\
    print_job _crop_to_label dev load app (Document (Some image :: rest)) self
    = print_image_tspl true dev load (print_image_of app shown)
        (label_width app) (label_height app) 2 0 0 self.
Proof.
  intros Hc Hshow Hstored Hpdf.
  destruct (preview_canvas _ _ _ Hshow) as (tw & th & Htw & Hth & Hsz & Hmode).
  exists tw, th. repeat (split; [ assumption | ]).
  unfold print_job.
  destruct (manual_crop app && crop_applied app) eqn:Hm.
  - rewrite Hstored. reflexivity.
  - specialize (Hpdf eq_refl).
    destruct (process _ _ _ _ _ _ _ _ _ _) as [printed|] eqn:Hp;
      [ | congruence ].
    destruct (process_preview _crop_to_label _ _ _ Hm Hp) as (s & Hs & ->).
    assert (s = shown) by congruence. subst s.
    unfold print_pdf. rewrite Hc. cbn [negb]. rewrite Hp. reflexivity.
Qed.

(** X11 ([_show_processed_preview]): with a manual crop applied, the
    preview crops the page once, to the coordinates doubled and clamped
    as [print_pdf] does, and then is the pipeline of [print_pdf] without
    any crop, run on the cropped page (on the whole page when the box has
    no area). *)
Theorem app_crops_once (app : State) (image printed : Image)
    (coords box : Box) :
  manual_crop app = true -> crop_applied app = true ->
  crop_coords app = Some coords ->
  manual_box (grayscale image) coords = Some box ->
  process _crop_to_label
    (if box_valid box then Crop (grayscale image) box else grayscale image)
    (label_width app) (label_height app) 203
    (auto_rotate app) false false None (flip_vertical app) = Some printed ->
  _show_processed_preview _crop_to_label app image = Some printed.
Proof.
  intros Hm Ha Hco Hbox.
  unfold process, _show_processed_preview, crop_stage, compose_stage.
  rewrite Hm, Ha, Hco. cbn [andb].
  rewrite preview_box_eq, Hbox. cbn [try_bind].
  set (page := if box_valid box then Crop (grayscale image) box
               else grayscale image).
  assert (Hg : grayscale page = page).
  { unfold grayscale at 1.
    assert (E : mode page = ModeL).
    { unfold page. destruct (box_valid box); cbn [mode];
        apply mode_grayscale. }
    rewrite E. reflexivity. }
  rewrite Hg.
  replace (if box_valid box then Some (Crop (grayscale image) box)
           else Some (grayscale image)) with (Some page)
    by (unfold page; destruct (box_valid box); reflexivity).
  cbn [try_bind].
  destruct (target_dots (label_width app) 203) as [tw|]; [ | discriminate ].
  destruct (target_dots (label_height app) 203) as [th|]; [ | discriminate ].
  cbn [try_bind].
  destruct (auto_rotate_stage page (auto_rotate app) tw th) as [r|] eqn:Hr;
    [ | discriminate ].
  apply auto_rotate_stage_preview in Hr. rewrite Hr.
  destruct r as [[im2 w2] h2]. cbn [try_bind].
  destruct (scale_stage _ _ _ _ _) as [[[im3 nw] nh]|]; [ | discriminate ].
  cbn [try_bind].
  destruct (centered im3 tw th nw nh) as [fin|]; [ | discriminate ].
  cbn [try_bind]. unfold binarize_stage.
  intros H. exact H.
Qed.

End PreviewTheorems.

(** X10 on the 612 x 792 page and a 101 x 152 mm label, without manual
    crop: the job is one [print_image_tspl] of the preview, inverted. *)
Lemma app_prints_the_preview_witness :
  exists tw th,
    Pipeline.target_dots (App.label_width Sessions.app_auto) 203 = Some tw /\
    Pipeline.target_dots (App.label_height Sessions.app_auto) 203 = Some th /\
    PIL.size Sessions.preview_whole = (tw, th) /\
    PIL.mode Sessions.preview_whole = PIL.Mode1 /\
    App.print_job Examples.no_crop Examples.dev_ok Examples.load_fill
      Sessions.app_auto
      (BluetoothPrinter.Document [Some Examples.raster_612x792])
      Examples.connected
    = BluetoothPrinter.print_image_tspl true Examples.dev_ok Examples.load_fill
        (App.print_image_of Sessions.app_auto Sessions.preview_whole)
        (App.label_width Sessions.app_auto)
        (App.label_height Sessions.app_auto) 2 0 0 Examples.connected.
Proof.
  apply (app_prints_the_preview Examples.no_crop Examples.dev_ok
           Examples.load_fill Sessions.app_auto Examples.raster_612x792
           Sessions.preview_whole [] Examples.connected);
    [ reflexivity | vm_compute; reflexivity | reflexivity
    | intros _; vm_compute; discriminate ].
Defined.

(** X11 after the session [select_and_apply]: the preview is the page
    cropped to (20, 40, 400, 600), scaled to 807 x 1189 and centred. *)
Lemma app_crops_once_witness :
  App._show_processed_preview Examples.no_crop
    (App.run Examples.no_crop Sessions.select_and_apply App.__init__)
    Examples.raster_612x792
  = Some Sessions.preview_cropped.
Proof.
  apply (app_crops_once Examples.no_crop
           (App.run Examples.no_crop Sessions.select_and_apply App.__init__)
           Examples.raster_612x792 Sessions.preview_cropped
           (10, 20, 200, 300) (20, 40, 400, 600));
    vm_compute; reflexivity.
Defined.

(** ** The manual selection of the application *)

Section Selection.
Import PIL App.

Lemma int_of_positive_float (v : float) (bound : Z) :
  PyCmp.int_lt_float 0 v = true ->
  PyCmp.int_lt_float bound v = false ->
  exists z, Py.int_of_float v = Some z /\ 0 <= z <= bound.
Proof.
  unfold PyCmp.int_lt_float, Py.int_of_float.
  destruct (Prim2SF v) as [s|s| |s m e]; cbn.
  - discriminate.
  - destruct s; cbn; discriminate.
  - discriminate.
  - destruct (0 <=? e) eqn:He.
    + apply Z.leb_le in He. intros H0 Hb.
      apply Z.ltb_lt in H0. apply Z.ltb_ge in Hb.
      assert (Hp : 0 < 2 ^ e) by (apply Z.pow_pos_nonneg; lia).
      destruct s; [ exfalso; nia | ].
      exists (Z.shiftl (Z.pos m) e). split; [ reflexivity | ].
      rewrite Z.shiftl_mul_pow2 by lia. nia.
    + apply Z.leb_gt in He. intros H0 Hb.
      apply Z.ltb_lt in H0. apply Z.ltb_ge in Hb.
      assert (Hp : 0 < 2 ^ (- e)) by (apply Z.pow_pos_nonneg; lia).
      destruct s; [ exfalso; lia | ].
      exists (Z.shiftl (Z.pos m) e). split; [ reflexivity | ].
      replace e with (- (- e)) at 1 2 by lia.
      rewrite Z.shiftl_opp_r, Z.shiftr_div_pow2 by lia.
      split.
      * apply Z.div_pos; lia.
      * apply Z.div_le_upper_bound; lia.
Qed.

Lemma clamp_to_page_int (v : float) (bound : Z) :
  0 <= bound ->
  exists z, PyNum.int (clamp_to_page v bound) = Some z /\ 0 <= z <= bound.
Proof.
  intros Hb. unfold clamp_to_page, PyNum.max, PyNum.min.
  cbn [PyNum.lt].
  destruct (PyCmp.int_lt_float bound v) eqn:E1.
  - cbn [PyNum.lt]. destruct (0 <? bound) eqn:E2; cbn [PyNum.int].
    + exists bound. split; [ reflexivity | lia ].
    + exists 0. split; [ reflexivity | lia ].
  - cbn [PyNum.lt]. destruct (PyCmp.int_lt_float 0 v) eqn:E2; cbn [PyNum.int].
    + apply int_of_positive_float; assumption.
    + exists 0. split; [ reflexivity | lia ].
Qed.

(** X12 ([_crop_end]): once the four divisions have been made, turning the
    clamped selection into ints cannot raise, and the box lies inside the
    page image the selection was drawn on, whatever the mouse positions
    and the display scales are. *)
Theorem selection_inside_page
    (canvas_left canvas_top canvas_right canvas_bottom img_x1 img_y1 : Z)
    (scale_x scale_y : float) (page_w page_h : Z)
    (c : PyNum.Num * PyNum.Num * PyNum.Num * PyNum.Num) :
  0 <= page_w -> 0 <= page_h ->
  page_coords canvas_left canvas_top canvas_right canvas_bottom img_x1 img_y1
    scale_x scale_y (page_w, page_h) = Some c ->
  exists left_ top right_ bottom,
    to_box c = Some (left_, top, right_, bottom) /\
    0 <= left_ <= page_w /\ 0 <= right_ <= page_w /\
    0 <= top <= page_h /\ 0 <= bottom <= page_h.
Proof.
  intros Hw Hh. unfold page_coords.
  destruct (PyNum.div (canvas_left - img_x1) scale_x) as [l|];
    [ | discriminate ].
  destruct (PyNum.div (canvas_right - img_x1) scale_x) as [r|];
    [ | discriminate ].
  destruct (PyNum.div (canvas_top - img_y1) scale_y) as [t|];
    [ | discriminate ].
  destruct (PyNum.div (canvas_bottom - img_y1) scale_y) as [b|];
    [ | discriminate ].
  cbn [try_bind fst snd]. intros H. injection H as <-.
  destruct (clamp_to_page_int l page_w Hw) as (zl & El & Hl).
  destruct (clamp_to_page_int r page_w Hw) as (zr & Er & Hr).
  destruct (clamp_to_page_int t page_h Hh) as (zt & Et & Ht).
  destruct (clamp_to_page_int b page_h Hh) as (zb & Eb & Hb).
  exists zl, zt, zr, zb. unfold to_box. rewrite El, Et, Er, Eb.
  cbn [try_bind]. repeat split; lia.
Qed.

Variable _crop_to_label : Image -> Image.

Lemma update_preview_crop_fields (page : option Image) (app : State) :
  let app' := _update_preview _crop_to_label page app in
  manual_crop app' = manual_crop app /\
  crop_applied app' = crop_applied app /\
  crop_coords app' = crop_coords app /\
  pending_crop app' = pending_crop app /\
  apply_crop_btn app' = apply_crop_btn app /\
  clear_crop_btn app' = clear_crop_btn app.
Proof.
  unfold _update_preview. destruct page as [image|]; [ | tauto ].
  destruct (manual_crop app && negb (crop_applied app)); [ tauto | ].
  destruct (_show_processed_preview _ _ _); cbn; tauto.
Qed.

Lemma update_preview_consistent (page : option Image) (app : State) :
  consistent app -> consistent (_update_preview _crop_to_label page app).
Proof.
  unfold consistent.
  destruct (update_preview_crop_fields page app)
    as (-> & -> & -> & -> & -> & ->).
  tauto.
Qed.

Lemma with_options_consistent (app : State) (ac ar fv ic : bool) :
  consistent app -> consistent (with_options app ac ar fv ic (manual_crop app)).
Proof. unfold consistent. cbn. tauto. Qed.

Lemma step_consistent (app : State) (a : Action * option Image * Display) :
  consistent app -> consistent (step _crop_to_label app a).
Proof.
  intros H. destruct a as [[action page] display].
  assert (Hsize : forall w h, consistent (with_size app w h))
    by (intros w h; revert H; unfold consistent; cbn; tauto).
  destruct action; cbn [step].
  - apply update_preview_consistent, H.
  - apply update_preview_consistent, Hsize.
  - apply update_preview_consistent, H.
  - apply Hsize.
  - apply Hsize.
  - unfold _on_custom_size_change, _set_custom_size, _set_size.
    destruct (negb (is_preset (label_width app) (label_height app)));
      apply update_preview_consistent; [ exact H | apply Hsize ].
  - apply update_preview_consistent, with_options_consistent, H.
  - apply update_preview_consistent, with_options_consistent, H.
  - apply update_preview_consistent, with_options_consistent, H.
  - apply update_preview_consistent, with_options_consistent, H.
  - unfold _toggle_manual_crop. apply update_preview_consistent.
    cbn [manual_crop with_options].
    destruct (manual_crop app); unfold consistent; cbn;
      intuition congruence.
  - unfold _crop_start.
    destruct (negb (manual_crop app) || crop_applied app); [ exact H | ].
    destruct (original_pdf_size display); [ | exact H ].
    revert H. unfold consistent. cbn. tauto.
  - assert (Hs : consistent (with_crop_start app None))
      by (revert H; unfold consistent; cbn; tauto).
    unfold _crop_end.
    destruct (negb (manual_crop app) || crop_applied app) eqn:Hg;
      [ exact H | ].
    apply orb_false_elim in Hg. destruct Hg as [Hm Ha].
    apply negb_false_iff in Hm.
    destruct (crop_start app) as [[x1 y1]|]; [ | exact H ].
    destruct (original_pdf_size display) as [sz|]; [ | exact H ].
    destruct (canvas_image_id display && preview_offset display);
      [ | exact Hs ].
    destruct (bbox display) as [[[[bx1 by1] bx2] by2]|]; [ | exact Hs ].
    destruct (page_coords _ _ _ _ _ _ _ _ _) as [c|]; [ | exact H ].
    destruct (big_enough c) as [[|]|]; [ | exact Hs | exact H ].
    destruct (to_box c) as [box|]; [ | exact H ].
    assert (Hp : consistent
              (with_crop app (crop_applied app) (crop_coords app)
                 (Some box) true)).
    { revert H. unfold consistent. cbn. rewrite Hm, Ha.
      intuition congruence. }
    destruct (status_size c); [ | exact Hp ].
    revert Hp. unfold consistent. cbn. tauto.
  - unfold _apply_crop.
    destruct (pending_crop app) as [pending|] eqn:Hp; [ | exact H ].
    apply update_preview_consistent.
    revert H. unfold consistent. cbn. rewrite Hp.
    intuition congruence.
  - unfold _clear_crop. apply update_preview_consistent.
    revert H. unfold consistent. cbn. intuition congruence.
Qed.

(** X13 ([_toggle_manual_crop], [_crop_start], [_crop_end], [_apply_crop],
    [_clear_crop], [_update_preview]): whatever the user does, in any
    order, the crop controls stay consistent. *)
Theorem crop_controls_consistent
    (actions : list (Action * option Image * Display)) :
  consistent (run _crop_to_label actions __init__).
Proof.
  assert (H0 : consistent __init__)
    by (unfold consistent; cbn; intuition congruence).
  unfold run. revert H0. generalize __init__.
  induction actions as [|a actions IH]; intros app H; cbn [fold_left].
  - exact H.
  - apply IH, step_consistent, H.
Qed.

End Selection.

(** X12 for a rectangle drawn from (57, 122) to (247, 402) on a 306 x 396
    page shown at scale 1 with its corner at (47, 102). *)
Lemma selection_inside_page_witness :
  exists left_ top right_ bottom,
    App.to_box (PyNum.Float 10, PyNum.Float 20, PyNum.Float 200,
                PyNum.Float 300)
    = Some (left_, top, right_, bottom) /\
    0 <= left_ <= 306 /\ 0 <= right_ <= 306 /\
    0 <= top <= 396 /\ 0 <= bottom <= 396.
Proof.
  apply (selection_inside_page 57 122 247 402 47 102 1 1 306 396);
    [ lia | lia | vm_compute; reflexivity ].
Defined.

Section StoredImage.
Import PIL App.

Variable _crop_to_label : Image -> Image.




End StoredImage.


(** The condition of X14 on typing is needed: when the width 50 is typed
    after the session [select_and_apply] and nothing refreshes the preview,
    the crop is still applied and the preview of the settings exists, but
    the stored image is the preview of the old size. *)
Lemma typing_leaves_stored_image_stale :
  let app := App.run Examples.no_crop Sessions.type_after_apply App.__init__ in
  App.typed_since_refresh Sessions.type_after_apply = true /\
  App.manual_crop app = true /\ App.crop_applied app = true /\
  App.cropped_image app = Some Sessions.preview_cropped /\
  exists shown,
    App._show_processed_preview Examples.no_crop app Examples.raster_612x792
    = Some shown /\
    shown <> Sessions.preview_cropped.
Proof.
  cbv zeta. repeat (split; [ vm_compute; reflexivity | ]).
  eexists. split; [ vm_compute; reflexivity | ].
  intros H. discriminate H.
Qed.
